(** * The FAT12 driver of dito (src/fat.c), embedded in Rocq

    The driver keeps three pieces of mutable state per volume: the boot
    parameter block, an in-memory copy of the file allocation table and a
    list of in-memory inodes.  Every C function of [fat.c] that the
    properties below talk about is translated to a function over that
    state.

    Conventions of the embedding.
    - C integers are [Z]; wrap-around of the fixed-width types is written
      out with [u8], [u16], [u32], [size_t] and [int32].
    - Memory objects (the FAT buffer, directory buffers, staging buffers,
      the partition) are [list Z], one element per byte.
    - A function returns [option]: [None] stands for an execution that has
      no defined result in C (an access outside an object, a null
      dereference, a division by zero, or a loop that never ends).  A
      nullable pointer that the C code returns is an inner [option].
    - A read behind the end of an object is not counted as a fault where
      the value read cannot change the result; each such place is marked.
    - Loops are functions by recursion on a [fuel] argument; the caller
      passes a bound the C loop cannot exceed, or the bound is stated
      where there is none.
    - The [struct fs_st *] argument and the buffers are values here, so
      the null-pointer guards on them have no counterpart. *)

From Stdlib Require Import ZArith Lia List String Ascii.
From stdpp Require Import base option list.

Local Open Scope Z_scope.

(** ** Fixed-width integers *)

Definition wrap (bits z : Z) : Z := z mod 2 ^ bits.
Definition u8 (z : Z) : Z := wrap 8 z.
Definition u16 (z : Z) : Z := wrap 16 z.
Definition u32 (z : Z) : Z := wrap 32 z.
(** [size_t] is taken to be 64 bits wide (LP64). *)
Definition size_t (z : Z) : Z := wrap 64 z.
(** Conversion to a signed 32-bit [int] / [int32_t]. *)
Definition int32 (z : Z) : Z :=
  let w := wrap 32 z in if w <? 2 ^ 31 then w else w - 2 ^ 32.

(** ** Byte buffers *)

Definition calloc (n : Z) : list Z := replicate (Z.to_nat n) 0.

Definition load8 (m : list Z) (a : Z) : option Z :=
  if 0 <=? a then m !! Z.to_nat a else None.

Definition store8 (m : list Z) (a v : Z) : option (list Z) :=
  if (0 <=? a) && (a <? Z.of_nat (length m))
  then Some (<[Z.to_nat a := v]> m) else None.

(** A [uint16_t] read through a cast byte pointer, on a little-endian host. *)
Definition load16 (m : list Z) (a : Z) : option Z :=
  lo ← load8 m a; hi ← load8 m (a + 1); Some (Z.lor lo (Z.shiftl hi 8)).

Definition store16 (m : list Z) (a v : Z) : option (list Z) :=
  m1 ← store8 m a (Z.land v 255);
  store8 m1 (a + 1) (Z.land (Z.shiftr v 8) 255).

Definition load32 (m : list Z) (a : Z) : option Z :=
  lo ← load16 m a; hi ← load16 m (a + 2); Some (Z.lor lo (Z.shiftl hi 16)).

Definition store32 (m : list Z) (a v : Z) : option (list Z) :=
  m1 ← store16 m a (Z.land v 65535);
  store16 m1 (a + 2) (Z.land (Z.shiftr v 16) 65535).

(** [n] bytes starting at [a]. *)
Definition load_bytes (m : list Z) (a n : Z) : option (list Z) :=
  if (0 <=? a) && (0 <=? n) && (a + n <=? Z.of_nat (length m))
  then Some (take (Z.to_nat n) (drop (Z.to_nat a) m)) else None.

(** [memcpy(&m[a], bs, |bs|)]. *)
Definition store_bytes (m : list Z) (a : Z) (bs : list Z) : option (list Z) :=
  if (0 <=? a) && (a + Z.of_nat (length bs) <=? Z.of_nat (length m))
  then Some (take (Z.to_nat a) m ++ bs ++ drop (Z.to_nat a + length bs) m)
  else None.

(** ** Constants of fat.h *)

(** Modelled from the spec: the header fat.h is not part of the sources;
    the spec gives the end-of-chain marker, the attribute bits and the
    sector size. *)
Definition FAT_END : Z := 0xFF8.
Definition FAT_DIR_DIRECTORY : Z := 0x10.
Definition FAT_DIR_LONGNAME : Z := 0x0F.
Definition BLOCK_SIZE : Z := 512.

(** Modelled from the spec: the directory bit of [st->mode] (dito.h is not
    part of the sources either).  The spec names the bit without its
    value; the value of POSIX's [S_IFDIR] stands for it. *)
Definition S_DIR : Z := 0x4000.

(** ** Boot parameter block and geometry *)

Record fat_bpb_t := mk_bpb {
  bytes_per_sector : Z;
  sectors_per_cluster : Z;
  reserved_sectors : Z;
  fat_count : Z;
  root_count : Z;
  total_sectors_small : Z;
  media_descriptor : Z;
  sectors_per_fat : Z;
  sectors_per_track : Z;
  num_heads : Z;
  hidden_sectors : Z;
  total_sectors_large : Z
}.

(** In-memory inode; the [next] pointer of the C struct is the list
    structure of [fs_inodes]. *)
Record fat_inode_t := mk_inode {
  ino_parent : Z;
  ino_type : Z;
  ino_cluster : Z;
  ino_size : Z;
  ino_atime : Z;
  ino_ctime : Z;
  ino_mtime : Z
}.

(** [struct fs_st] together with its [fat_data_t]: the partition [fs_p],
    the BPB, the FAT buffer, the inode list ([inodes] .. [last]) and the
    handle counter [next]. *)
Record fs_st := mk_fs {
  fs_p : list Z;
  fs_bpb : fat_bpb_t;
  fs_fat : list Z;
  fs_inodes : list fat_inode_t;
  fs_next : Z
}.

Definition set_p (fs : fs_st) (d : list Z) : fs_st :=
  mk_fs d (fs_bpb fs) (fs_fat fs) (fs_inodes fs) (fs_next fs).
Definition set_fat (fs : fs_st) (f : list Z) : fs_st :=
  mk_fs (fs_p fs) (fs_bpb fs) f (fs_inodes fs) (fs_next fs).
Definition set_inodes (fs : fs_st) (l : list fat_inode_t) : fs_st :=
  mk_fs (fs_p fs) (fs_bpb fs) (fs_fat fs) l (fs_next fs).
Definition set_next (fs : fs_st) (n : Z) : fs_st :=
  mk_fs (fs_p fs) (fs_bpb fs) (fs_fat fs) (fs_inodes fs) n.

(** Modelled from the spec: the geometry macros of fat.h (section 3,
    "Derived geometry").  [fat_first_data_sector] is what the spec calls
    [root_start]: [fat_readclusters] adds [fat_root_sectors] to it before
    it addresses a data cluster. *)
Definition fat_total_sectors (fs : fs_st) : Z :=
  if total_sectors_small (fs_bpb fs) =? 0
  then total_sectors_large (fs_bpb fs) else total_sectors_small (fs_bpb fs).

Definition fat_first_data_sector (fs : fs_st) : Z :=
  reserved_sectors (fs_bpb fs) + fat_count (fs_bpb fs) * sectors_per_fat (fs_bpb fs).

Definition fat_root_sectors (fs : fs_st) : Z :=
  (root_count (fs_bpb fs) * 32 + bytes_per_sector (fs_bpb fs) - 1)
  / bytes_per_sector (fs_bpb fs).

Definition fat_clustersize (fs : fs_st) : Z :=
  sectors_per_cluster (fs_bpb fs) * bytes_per_sector (fs_bpb fs).

Definition fat_num_clusters (fs : fs_st) : Z :=
  (fat_total_sectors fs - (fat_first_data_sector fs + fat_root_sectors fs))
  / sectors_per_cluster (fs_bpb fs).

(** ** fat_bits *)

Definition fat_bits (fs : fs_st) : Z :=
  if fat_num_clusters fs <? 4085 then 12
  else if fat_num_clusters fs <? 65525 then 16
  else 32.

(** ** The FAT table: fat_read_fat, fat_write_fat, fat_find_free *)

Definition fat_read_fat (fs : fs_st) (cluster : Z) : option Z :=
  if negb (fat_bits fs =? 12) then Some 0
  else
    let offset := u32 (cluster + cluster / 2) in
    value ← load16 (fs_fat fs) offset;
    Some (if negb (Z.land cluster 1 =? 0)
          then Z.shiftr value 4
          else Z.land value 0x0FFF).

Definition fat_write_fat (fs : fs_st) (cluster set : Z) : option fs_st :=
  if negb (fat_bits fs =? 12) then Some fs
  else
    let offset := u32 (cluster + cluster / 2) in
    value ← load16 (fs_fat fs) offset;
    let value' :=
      if negb (Z.land cluster 1 =? 0)
      then u16 (Z.lor (Z.land value 0x000F) (u32 (Z.shiftl set 4)))
      else u16 (Z.lor (Z.land value 0xF000) (Z.land set 0x0FFF)) in
    f ← store16 (fs_fat fs) offset value';
    Some (set_fat fs f).

(** The scan of [fat_find_free]; [i] only grows towards
    [fat_num_clusters], so [fat_num_clusters] rounds of fuel are never
    used up. *)
Fixpoint find_free_loop (fs : fs_st) (fuel : nat) (i : Z) : option Z :=
  if i <? fat_num_clusters fs then
    match fuel with
    | O => None
    | S fuel' =>
        v ← fat_read_fat fs i;
        if negb (v =? 0) then find_free_loop fs fuel' (i + 1) else Some i
    end
  else Some 0.

Definition fat_find_free (fs : fs_st) : option Z :=
  find_free_loop fs (Z.to_nat (fat_num_clusters fs)) 3.

(** ** In-memory inodes: fat_get_inode *)

(** The result is the C pointer: [None] is the null pointer.  Handle [ino]
    is the [ino]-th node of the list; a handle the list is too short for
    (or a negative one, such as the parent [-1] of an unlinked inode)
    runs off its end.  The list holds the root inode from [fat_hook_load]
    on; on an empty list ([inodes] null) the C loop reads [ret->next]
    through the null pointer for a handle above 1, where this lookup
    gives the null result. *)
Definition fat_get_inode (fs : fs_st) (ino : Z) : option fat_inode_t :=
  if ino <=? 0 then None else fs_inodes fs !! Z.to_nat (ino - 1).

(** ** Cluster chains: fat_clustercount, fat_get_clusters *)

(** The [while(cluster < FAT_END)] walk.  The C loop has no bound; it is
    run here for at most [fuel] steps. *)
Fixpoint chain_count (fs : fs_st) (fuel : nat) (cluster ret : Z) : option Z :=
  if cluster <? FAT_END then
    match fuel with
    | O => None
    | S fuel' =>
        c ← fat_read_fat fs cluster;
        chain_count fs fuel' c (ret + 1)
    end
  else Some ret.

(** Every FAT12 entry is below 4096, so a walk that has not met an
    end-of-chain value after 4097 steps has entered a cycle. *)
Definition chain_fuel : nat := 4097.

(** Handle 1 is the root directory of FAT12/16, which has no chain. *)
Definition fat_clustercount (fs : fs_st) (ino : Z) : option Z :=
  if ino =? 0 then Some 0
  else if ino =? 1 then
    if fat_clustersize fs =? 0 then None
    else Some (root_count (fs_bpb fs) * 32 / fat_clustersize fs)
  else
    inode ← fat_get_inode fs ino;
    chain_count fs chain_fuel (ino_cluster inode) 0.

Fixpoint get_clusters_loop (fs : fs_st) (n : nat) (cluster : Z) : option (list Z) :=
  match n with
  | O => Some []
  | S n' =>
      c ← fat_read_fat fs cluster;
      rest ← get_clusters_loop fs n' c;
      Some (cluster :: rest)
  end.

(** The array of [c_count + 1] cluster numbers; its last element is the
    zero [calloc] left there. *)
Definition fat_get_clusters (fs : fs_st) (ino : Z) : option (list Z) :=
  if ino =? 0 then None
  else
    c_count ← fat_clustercount fs ino;
    if ino =? 1 then Some (seqZ 0 c_count ++ [0])
    else
      inode ← fat_get_inode fs ino;
      l ← get_clusters_loop fs (Z.to_nat c_count) (ino_cluster inode);
      Some (l ++ [0]).

(** ** Cluster I/O: fat_readclusters, fat_writeclusters *)

(** Modelled from the spec: the partition layer is an external
    collaborator (section 6, "Block-layer contract"); offsets and counts
    are in 512-byte sectors.  A transfer that does not lie inside the
    partition moves nothing. *)
Definition partition_readblocks (p : list Z) (start len : Z) : option (list Z) :=
  load_bytes p (start * BLOCK_SIZE) (len * BLOCK_SIZE).

Definition partition_writeblocks (p : list Z) (bs : list Z) (start : Z) : list Z :=
  match store_bytes p (start * BLOCK_SIZE) bs with
  | Some p' => p'
  | None => p
  end.

Definition cluster_start (fs : fs_st) (cluster : Z) : Z :=
  if 2 <=? cluster
  then fat_first_data_sector fs + fat_root_sectors fs
       + (cluster - 2) * sectors_per_cluster (fs_bpb fs)
  else fat_first_data_sector fs.

(** [fat_readclusters(fs, &buffer[b], cluster, length)]: the new contents
    of [buffer].  The block count it returns is dropped by every caller. *)
Definition fat_readclusters (fs : fs_st) (buffer : list Z) (b cluster length : Z)
  : option (list Z) :=
  if length =? 0 then Some buffer
  else
    match partition_readblocks (fs_p fs) (cluster_start fs cluster)
            (length * sectors_per_cluster (fs_bpb fs)) with
    | Some bs => store_bytes buffer b bs
    | None => Some buffer
    end.

(** [fat_writeclusters(fs, &buffer[b], cluster, length)]. *)
Definition fat_writeclusters (fs : fs_st) (buffer : list Z) (b cluster length : Z)
  : option fs_st :=
  if length =? 0 then Some fs
  else
    bs ← load_bytes buffer b (length * sectors_per_cluster (fs_bpb fs) * BLOCK_SIZE);
    Some (set_p fs (partition_writeblocks (fs_p fs) bs (cluster_start fs cluster))).

(** ** fat_read and fat_write *)

(** [size = inode->size], or the size of the cluster chain when that is
    zero. *)
Definition file_size (fs : fs_st) (ino : Z) (inode : fat_inode_t) : option Z :=
  if ino_size inode =? 0
  then c ← fat_clustercount fs ino; Some (u32 (c * fat_clustersize fs))
  else Some (ino_size inode).

(** [if(offset + length > size) length = size - offset;] in [size_t]
    arithmetic. *)
Definition clamp_length (size length offset : Z) : Z :=
  if size_t (offset + length) >? size then size_t (size - offset) else length.

(** [num_clusters]: the clusters that [length] bytes from
    [cluster_offset] on span. *)
Definition span_clusters (fs : fs_st) (length cluster_offset : Z) : Z :=
  let n := u32 (size_t (length + cluster_offset) / fat_clustersize fs) in
  if negb (size_t (length + cluster_offset) mod fat_clustersize fs =? 0)
  then u32 (n + 1) else n.

(** The loop [while(i < start_cluster + num_clusters)] of [fat_read]; it
    runs [num_clusters] times, or not at all when the 32-bit sum wraps. *)
Fixpoint read_loop (fs : fs_st) (clusters : list Z) (fuel : nat)
    (i stop b : Z) (buff : list Z) : option (list Z) :=
  if i <? stop then
    match fuel with
    | O => None
    | S fuel' =>
        c ← clusters !! Z.to_nat i;
        buff' ← fat_readclusters fs buff b c 1;
        read_loop fs clusters fuel' (i + 1) stop (b + fat_clustersize fs) buff'
    end
  else Some buff.

(** [fat_read(fs, ino, buffer, length, offset)]: the caller's buffer after
    the call and the returned [int]. *)
Definition fat_read (fs : fs_st) (ino : Z) (buffer : list Z) (length offset : Z)
  : option (list Z * Z) :=
  if ino =? 0 then Some (buffer, 0)
  else if length =? 0 then Some (buffer, 0)
  else
    inode ← fat_get_inode fs ino;
    clusters ← fat_get_clusters fs ino;
    size ← file_size fs ino inode;
    let length := clamp_length size length offset in
    if fat_clustersize fs =? 0 then None
    else
      let start_cluster := u32 (offset / fat_clustersize fs) in
      let cluster_offset := u32 (offset mod fat_clustersize fs) in
      let num_clusters := span_clusters fs length cluster_offset in
      let buff := calloc (u32 (num_clusters * fat_clustersize fs)) in
      buff ← read_loop fs clusters (Z.to_nat num_clusters)
               start_cluster (u32 (start_cluster + num_clusters)) 0 buff;
      bs ← load_bytes buff cluster_offset length;
      buffer' ← store_bytes buffer 0 bs;
      Some (buffer', int32 length).

(** The same loop in [fat_write]. *)
Fixpoint write_loop (fs : fs_st) (clusters : list Z) (fuel : nat)
    (i stop b : Z) (buff : list Z) : option fs_st :=
  if i <? stop then
    match fuel with
    | O => None
    | S fuel' =>
        c ← clusters !! Z.to_nat i;
        fs' ← fat_writeclusters fs buff b c 1;
        write_loop fs' clusters fuel' (i + 1) stop (b + fat_clustersize fs) buff
    end
  else Some fs.

(** [fat_write(fs, ino, buffer, length, offset)]: the new state (only the
    partition changes) and the returned [int]. *)
Definition fat_write (fs : fs_st) (ino : Z) (buffer : list Z) (length offset : Z)
  : option (fs_st * Z) :=
  if ino =? 0 then Some (fs, 0)
  else
    inode ← fat_get_inode fs ino;
    clusters ← fat_get_clusters fs ino;
    size ← file_size fs ino inode;
    let length := clamp_length size length offset in
    if fat_clustersize fs =? 0 then None
    else
      let start_cluster := u32 (offset / fat_clustersize fs) in
      let cluster_offset := u32 (offset mod fat_clustersize fs) in
      let num_clusters := span_clusters fs length cluster_offset in
      let buff := calloc (u32 (num_clusters * fat_clustersize fs)) in
      r ← fat_read fs ino buff (u32 (num_clusters * fat_clustersize fs))
            (size_t (offset - cluster_offset));
      bs ← load_bytes buffer 0 length;
      buff ← store_bytes r.1 cluster_offset bs;
      fs' ← write_loop fs clusters (Z.to_nat num_clusters)
              start_cluster (u32 (start_cluster + num_clusters)) 0 buff;
      Some (fs', int32 length).

(** ** fat_touch *)

Record fstat_t := mk_fstat {
  st_size : Z;
  st_mode : Z;
  st_atime : Z;
  st_ctime : Z;
  st_mtime : Z
}.

(** The allocation loop [while(size > 0)]; [size] is an [int32_t]. *)
Fixpoint touch_loop (fs : fs_st) (fuel : nat) (current size : Z) : option fs_st :=
  if size >? 0 then
    match fuel with
    | O => None
    | S fuel' =>
        free ← fat_find_free fs;
        fs1 ← fat_write_fat fs current free;
        current' ← fat_read_fat fs1 current;
        fs2 ← fat_write_fat fs1 current' FAT_END;
        let size' :=
          if fat_clustersize fs >? size then 0 else size - fat_clustersize fs in
        touch_loop fs2 fuel' current' size'
    end
  else Some fs.

(** The new state and the handle returned.  With a positive cluster size
    every round of the loop takes at least one byte off [size], so
    [size / clustersize + 1] rounds of fuel are not used up; with a
    cluster size of zero the C loop does not end.  [last] points at the
    last inode of the list and is null while the list is empty (the state
    [fat_hook_create] leaves, [fat_hook_load] puts the root inode there):
    [last->next = ino] then goes through a null pointer. *)
Definition fat_touch (fs : fs_st) (st : fstat_t) : option (fs_st * Z) :=
  let ret := fs_next fs in
  let fs := set_next fs (fs_next fs + 1) in
  let type := if Z.land (st_mode st) S_DIR =? S_DIR then FAT_DIR_DIRECTORY else 0 in
  let size := int32 (u32 (st_size st) - fat_clustersize fs) in
  current ← fat_find_free fs;
  fs1 ← fat_write_fat fs current FAT_END;
  fs2 ← touch_loop fs1 (Z.to_nat (size / fat_clustersize fs) + 1) current size;
  let ino := mk_inode (-1) type current (u32 (st_size st))
               (st_atime st) (st_ctime st) (st_mtime st) in
  (* fat_data(fs)->last->next = ino; fat_data(fs)->last = ino; *)
  match fs_inodes fs2 with
  | [] => None
  | _ :: _ => Some (set_inodes fs2 (fs_inodes fs2 ++ [ino]), ret)
  end.

(** ** C strings *)

(** A [char *] is the list of bytes it points to; the characters of the
    string are the bytes before the first NUL.  Characters are taken as
    unsigned byte values.  Where the C code scans past the end of an
    object without a NUL (the 11-byte short name), the scan stops at the
    end of the list. *)
Definition cstr (s : string) : list Z :=
  map (fun c => Z.of_N (N_of_ascii c)) (list_ascii_of_string s).

Fixpoint cstring (m : list Z) : list Z :=
  match m with
  | [] => []
  | c :: r => if c =? 0 then [] else c :: cstring r
  end.

Definition strlen (m : list Z) : Z := Z.of_nat (length (cstring m)).

Fixpoint strchr (m : list Z) (c : Z) : option nat :=
  match m with
  | [] => None
  | x :: r =>
      if x =? c then Some O
      else if x =? 0 then None
      else S <$> strchr r c
  end.

Fixpoint strrchr (m : list Z) (c : Z) : option nat :=
  match m with
  | [] => None
  | x :: r =>
      if x =? 0 then None
      else match strrchr r c with
           | Some i => Some (S i)
           | None => if x =? c then Some O else None
           end
  end.

(** The [n] bytes that [strncpy(dst, src, n)] writes. *)
Definition strncpy_bytes (src : list Z) (n : nat) : list Z :=
  let s := take n (cstring src) in s ++ replicate (n - length s) 0.

Definition memcpy_at (m : list Z) (a : nat) (bs : list Z) : list Z :=
  take a m ++ bs ++ drop (a + length bs) m.

(** [while(i < n) m[i++] = ' ';] *)
Definition fill_spaces (m : list Z) (i n : Z) : list Z :=
  if i <? n
  then memcpy_at m (Z.to_nat i) (replicate (Z.to_nat (n - i)) 32)
  else m.

(** ** Short names and their checksum *)

(** [sum = ((sum & 1) << 7) + (sum >> 1) + *shortname++], eleven times,
    in a [uint8_t]. *)
Definition fat_checksum (shortname : list Z) : Z :=
  fold_left
    (fun sum c => u8 (Z.shiftl (Z.land sum 1) 7 + Z.shiftr sum 1 + c))
    (take 11 shortname) 0.

(** The 11 bytes [fat_make_shortname] allocates and fills. *)
Definition fat_make_shortname (longname : list Z) : list Z :=
  let shortname := calloc 11 in
  (* Copy first 8 characters *)
  let shortname := memcpy_at shortname 0 (strncpy_bytes longname 8) in
  (* Break string at the first . *)
  let shortname :=
    match strchr shortname 46 with
    | Some dot => <[dot := 0]> shortname
    | None => shortname
    end in
  (* Pad with spaces *)
  let shortname := fill_spaces shortname (strlen shortname) 8 in
  (* Find and copy extension *)
  let shortname :=
    match strrchr longname 46 with
    | Some dot => memcpy_at shortname 8 (strncpy_bytes (drop (S dot) longname) 3)
    | None => shortname
    end in
  (* Pad with spaces *)
  fill_spaces shortname (strlen shortname) 11.

(** ** Directory entries *)

(** Modelled from the spec: the packed structs [fat_dir_t] and
    [fat_longname_t] of fat.h (section 3).  A pointer to an entry is the
    offset of its first byte in the directory buffer; the fields are
    byte offsets from there. *)
Definition de_name : Z := 0.
Definition de_attrib : Z := 11.
Definition de_entry_type : Z := 12.
Definition de_csec : Z := 13.
Definition de_ctime : Z := 14.
Definition de_cdate : Z := 16.
Definition de_adate : Z := 18.
Definition de_cluster_high : Z := 20.
Definition de_mtime : Z := 22.
Definition de_mdate : Z := 24.
Definition de_cluster_low : Z := 26.
Definition de_size : Z := 28.

Definition ln_num : Z := 0.
Definition ln_name1 : Z := 1.
Definition ln_attrib : Z := 11.
Definition ln_entry_type : Z := 12.
Definition ln_checksum : Z := 13.
Definition ln_name2 : Z := 14.
Definition ln_cluster : Z := 26.
Definition ln_name3 : Z := 28.

(** ** Long names: fat_write_longname, fat_read_longname *)

(** [buffer[j] = name[i]; i++; j += 2;] *)
Fixpoint utf16_loop (name : list Z) (buffer : list Z) (j : nat) : list Z :=
  match name with
  | [] => buffer
  | c :: r => utf16_loop r (<[j := c]> buffer) (j + 2)
  end.

(** [while(j < entries*26) buffer[j++] = '\xff';] *)
Definition fill_ff (buffer : list Z) (j : nat) : list Z :=
  take j buffer ++ replicate (length buffer - j) 0xFF.

(** The body of the loop of [fat_write_longname]: the fields of the
    entry at [ln], in the order the C code assigns them.  The two bytes
    of its [cluster] field are not written. *)
Definition write_ln_entry (buf : list Z) (ln : Z) (buffer : list Z)
    (sum num k : Z) : option (list Z) :=
  buf ← store8 buf (ln + ln_attrib) FAT_DIR_LONGNAME;
  buf ← store8 buf (ln + ln_num) num;
  n1 ← load_bytes buffer k 10;
  buf ← store_bytes buf (ln + ln_name1) n1;
  n2 ← load_bytes buffer (k + 10) 12;
  buf ← store_bytes buf (ln + ln_name2) n2;
  n3 ← load_bytes buffer (k + 22) 4;
  buf ← store_bytes buf (ln + ln_name3) n3;
  buf ← store8 buf (ln + ln_entry_type) 0;
  store8 buf (ln + ln_checksum) sum.

(** The loop [while(i) { i--; ... }] over the entries [ln[i]]. *)
Fixpoint longname_loop (buf : list Z) (de : Z) (buffer : list Z) (sum : Z)
    (i : nat) (j k : Z) : option (list Z) :=
  match i with
  | O => Some buf
  | S i' =>
      buf ← write_ln_entry buf (de + 32 * Z.of_nat i') buffer sum (u8 j) k;
      longname_loop buf de buffer sum i' (j + 1) (k + 26)
  end.

Definition longname_entries (name : list Z) : Z :=
  strlen name / 13 + (if negb (strlen name mod 13 =? 0) then 1 else 0).

(** [fat_write_longname(&buf[de], name)]: the directory buffer after the
    call and the offset where the short entry goes. *)
Definition fat_write_longname (buf : list Z) (de : Z) (name : list Z)
  : option (list Z * Z) :=
  let shortname := fat_make_shortname name in
  let entries := longname_entries name in
  (* Convert chars to UTF-16 *)
  let buffer := calloc (entries * 26) in
  let buffer := utf16_loop (cstring name) buffer 0 in
  let buffer := fill_ff buffer (Z.to_nat (2 * strlen name + 2)) in
  buf ← longname_loop buf de buffer (fat_checksum shortname)
          (Z.to_nat entries) 1 0;
  num ← load8 buf (de + ln_num);
  buf ← store8 buf (de + ln_num) (Z.lor num 0x40);
  Some (buf, de + 32 * entries).

Definition ln_chars (buf : list Z) (ln : Z) : option (list Z) :=
  mapM (fun o => load8 buf (ln + o))
    [ln_name1; ln_name1 + 2; ln_name1 + 4; ln_name1 + 6; ln_name1 + 8;
     ln_name2; ln_name2 + 2; ln_name2 + 4; ln_name2 + 6; ln_name2 + 8;
     ln_name2 + 10; ln_name3; ln_name3 + 2].

(** [while(j) { j--; ... }] *)
Fixpoint read_longname_loop (buf : list Z) (de : Z) (j : nat) : option (list Z) :=
  match j with
  | O => Some []
  | S j' =>
      cs ← ln_chars buf (de + 32 * Z.of_nat j');
      rest ← read_longname_loop buf de j';
      Some (cs ++ rest)
  end.

(** [fat_read_longname(&buf[de])]: the inner [None] is the null pointer,
    otherwise the [entries*13 + 1] bytes of the allocated name. *)
Definition fat_read_longname (buf : list Z) (de : Z) : option (option (list Z)) :=
  attrib ← load8 buf (de + ln_attrib);
  if negb (attrib =? FAT_DIR_LONGNAME) then Some None
  else
    num ← load8 buf (de + ln_num);
    if Z.land num 0x40 =? 0 then Some None
    else
      let entries := Z.land num 0x1F in
      name ← read_longname_loop buf de (Z.to_nat entries);
      Some (Some (name ++ [0])).

(** ** Directory operations *)

Record dirent_t := mk_dirent {
  d_name : list Z;
  d_ino : Z
}.

(** The fields of [struct tm] the driver uses. *)
Record tm := mk_tm {
  tm_sec : Z;
  tm_min : Z;
  tm_hour : Z;
  tm_mday : Z;
  tm_mon : Z;
  tm_year : Z
}.

Definition encode_time (t : tm) : Z :=
  u16 (Z.lor (Z.lor (Z.shiftl (Z.land (tm_hour t) 0x1F) 11)
                    (Z.shiftl (Z.land (tm_min t) 0x3F) 5))
             (Z.land (tm_sec t) 0x1F)).

Definition encode_date (t : tm) : Z :=
  u16 (Z.lor (Z.lor (Z.shiftl (Z.land (tm_year t) 0x7F) 9)
                    (Z.shiftl (Z.land (tm_mon t) 0xF) 5))
             (Z.land (tm_mday t) 0x1F)).

Definition decode_date (d : Z) : tm :=
  mk_tm 0 0 0 (Z.land d 0x1F) (Z.land (Z.shiftr d 5) 0xF) (Z.land (Z.shiftr d 9) 0x7F).

Definition decode_time_date (t d : Z) : tm :=
  mk_tm (Z.land t 0x1F) (Z.land (Z.shiftr t 5) 0x3F) (Z.land (Z.shiftr t 11) 0x1F)
        (Z.land d 0x1F) (Z.land (Z.shiftr d 5) 0xF) (Z.land (Z.shiftr d 9) 0x7F).

(** The first loop of [fat_readdir]: the inner [None] is the [return 0]
    at the end-of-directory marker, otherwise the entry the loop stops
    at. *)
Fixpoint readdir_scan (buffer : list Z) (max : Z) (fuel : nat) (num de : Z)
  : option (option Z) :=
  if (num >? 2) && (de <? max) then
    match fuel with
    | O => None
    | S fuel' =>
        n0 ← load8 buffer (de + de_name);
        if n0 =? 0 then Some None
        else
          a ← load8 buffer (de + de_attrib);
          if (a =? FAT_DIR_LONGNAME) || (n0 =? 0xE5)
          then readdir_scan buffer max fuel' num (de + 32)
          else readdir_scan buffer max fuel' (u32 (num - 1)) (de + 32)
    end
  else Some (Some de).

(** [while(de->attrib == FAT_DIR_LONGNAME) de++;] *)
Fixpoint skip_longname (buffer : list Z) (fuel : nat) (de : Z) : option Z :=
  a ← load8 buffer (de + de_attrib);
  if a =? FAT_DIR_LONGNAME then
    match fuel with
    | O => None
    | S fuel' => skip_longname buffer fuel' (de + 32)
    end
  else Some de.

(** The scans of a directory buffer move on by one entry per round and
    fault when they leave the buffer. *)
Definition dir_fuel (buffer : list Z) : nat := S (length buffer).

(** The 8.3 branch of [fat_readdir]: the directory buffer (the first
    blank of the entry is overwritten) and the name.  [ret->name] is
    allocated with 8 bytes and written up to its 12th; the model keeps the
    bytes written behind the allocation and takes the memory there to be
    zero. *)
Definition parse_shortname (buffer : list Z) (de : Z) : option (list Z * list Z) :=
  let buffer :=
    match strchr (drop (Z.to_nat de) buffer) 32 with
    | Some c => <[(Z.to_nat de + c)%nat := 0]> buffer
    | None => buffer
    end in
  let name := calloc 13 in
  let name := memcpy_at name 0 (strncpy_bytes (drop (Z.to_nat de) buffer) 8) in
  let c := length (take 8 (cstring (drop (Z.to_nat de) buffer))) in
  attrib ← load8 buffer (de + de_attrib);
  let name := if negb (attrib =? FAT_DIR_DIRECTORY) then <[c := 46]> name else name in
  let c := if negb (attrib =? FAT_DIR_DIRECTORY) then S c else c in
  let name := memcpy_at name c (strncpy_bytes (drop (Z.to_nat (de + 8)) buffer) 3) in
  let name :=
    match strchr name 32 with
    | Some c => <[c := 0]> name
    | None => name
    end in
  Some (buffer, cstring name).

(** The scan of [fat_link] for a run of [entries] deleted slots. *)
Fixpoint link_scan (buffer : list Z) (entries : Z) (fuel : nat)
    (de found firstfree : Z) : option Z :=
  n0 ← load8 buffer (de + de_name);
  if negb (n0 =? 0) then
    match fuel with
    | O => None
    | S fuel' =>
        if n0 =? 0xE5 then
          let firstfree := if found =? 0 then de else firstfree in
          let found := u32 (found + 1) in
          if found =? entries then Some firstfree
          else link_scan buffer entries fuel' (de + 32) found firstfree
        else link_scan buffer entries fuel' (de + 32) 0 firstfree
    end
  else Some de.

(** [while(current != FAT_END) { last = current; current = fat_read_fat(fs, current); }] *)
Fixpoint last_cluster (fs : fs_st) (fuel : nat) (last current : Z) : option Z :=
  if negb (current =? FAT_END) then
    match fuel with
    | O => None
    | S fuel' =>
        c ← fat_read_fat fs current;
        last_cluster fs fuel' current c
    end
  else Some last.

(** The second loop of [fat_unlink]; it has no test for deleted slots. *)
Fixpoint unlink_scan (buffer : list Z) (max : Z) (fuel : nat) (num de : Z)
  : option (option Z) :=
  if (num >? 2) && (de <? max) then
    match fuel with
    | O => None
    | S fuel' =>
        n0 ← load8 buffer (de + de_name);
        if n0 =? 0 then Some None
        else
          a ← load8 buffer (de + de_attrib);
          if a =? FAT_DIR_LONGNAME
          then unlink_scan buffer max fuel' num (de + 32)
          else unlink_scan buffer max fuel' (u32 (num - 1)) (de + 32)
    end
  else Some (Some de).

(** [while(clusters[i]) { fat_write_fat(fs, clusters[i], 0); i++; }] *)
Fixpoint free_clusters (fs : fs_st) (clusters : list Z) : option fs_st :=
  match clusters with
  | [] => None
  | c :: r =>
      if c =? 0 then Some fs
      else fs' ← fat_write_fat fs c 0; free_clusters fs' r
  end.

Section Libc.

(** [gmtime] and [mktime] of the C library. *)
Variable gmtime : Z -> tm.
Variable mktime : tm -> Z.

(** ** fat_readdir *)

(** The new state (an inode is registered for the entry found) and the
    [dirent_t *] returned. *)
Definition fat_readdir (fs : fs_st) (dir num : Z)
  : option (fs_st * option dirent_t) :=
  if dir =? 0 then Some (fs, None)
  else
    match fat_get_inode fs dir with
    | None => Some (fs, None)
    | Some dir_ino =>
        if negb (ino_type dir_ino =? FAT_DIR_DIRECTORY) then Some (fs, None)
        else if num =? 0 then Some (fs, Some (mk_dirent (cstr ".") dir))
        else if num =? 1 then
          Some (fs, Some (mk_dirent (cstr "..") (ino_parent dir_ino)))
        else
          let num := if negb (dir =? 1) then u32 (num + 2) else num in
          (* Read directory entries *)
          c ← fat_clustercount fs dir;
          let size := u32 (c * fat_clustersize fs) in
          r ← fat_read fs dir (calloc size) size 0;
          let buffer := r.1 in
          scan ← readdir_scan buffer size (dir_fuel buffer) num 0;
          match scan with
          | None => Some (fs, None)
          | Some de =>
              (* at [de >= max] the entry byte is read behind the
                 buffer, but the test fails whatever it holds *)
              if size <=? de then Some (fs, None)
              else
                n0 ← load8 buffer (de + de_name);
                if n0 =? 0 then Some (fs, None)
                else
                  (* Read longname and skip longname entries *)
                  longname ← fat_read_longname buffer de;
                  de ← skip_longname buffer (dir_fuel buffer) de;
                  (* Now de is the entry we want *)
                  named ←
                    match longname with
                    | Some l => Some (buffer, cstring l)
                    | None => parse_shortname buffer de
                    end;
                  let buffer := named.1 in
                  (* Build inode *)
                  attrib ← load8 buffer (de + de_attrib);
                  high ← load16 buffer (de + de_cluster_high);
                  low ← load16 buffer (de + de_cluster_low);
                  size ← load32 buffer (de + de_size);
                  adate ← load16 buffer (de + de_adate);
                  ctime ← load16 buffer (de + de_ctime);
                  cdate ← load16 buffer (de + de_cdate);
                  mtime ← load16 buffer (de + de_mtime);
                  mdate ← load16 buffer (de + de_mdate);
                  let inode :=
                    mk_inode dir attrib (u32 (Z.shiftl high 16 + low)) size
                      (mktime (decode_date adate))
                      (mktime (decode_time_date ctime cdate))
                      (mktime (decode_time_date mtime mdate)) in
                  (* Insert new inode into list *)
                  Some (set_next (set_inodes fs (fs_inodes fs ++ [inode]))
                          (fs_next fs + 1),
                        Some (mk_dirent named.2 (fs_next fs)))
          end
    end.

(** ** fat_link *)

(** The short entry [fat_link] fills in at [de] for [iino]; the name
    bytes are already there. *)
Definition link_entry (buffer : list Z) (de : Z) (iino : fat_inode_t)
  : option (list Z) :=
  buffer ← store8 buffer (de + de_attrib) (u8 (ino_type iino));
  buffer ← store8 buffer (de + de_csec) 0;
  let ctime := gmtime (ino_ctime iino) in
  buffer ← store16 buffer (de + de_ctime) (encode_time ctime);
  buffer ← store16 buffer (de + de_cdate) (encode_date ctime);
  let atime := gmtime (ino_atime iino) in
  buffer ← store16 buffer (de + de_adate) (encode_date atime);
  let mtime := gmtime (ino_mtime iino) in
  buffer ← store16 buffer (de + de_mtime) (encode_time mtime);
  buffer ← store16 buffer (de + de_mdate) (encode_date mtime);
  buffer ← store16 buffer (de + de_cluster_high) (u16 (Z.shiftr (ino_cluster iino) 16));
  buffer ← store16 buffer (de + de_cluster_low) (u16 (Z.land (ino_cluster iino) 0xFF));
  store32 buffer (de + de_size) (u32 (ino_size iino)).

(** The new state and the status returned. *)
Definition fat_link (fs : fs_st) (ino dir : Z) (name : list Z)
  : option (fs_st * Z) :=
  if ino =? 0 then Some (fs, 1)
  else if dir =? 0 then Some (fs, 1)
  else
    iino ← fat_get_inode fs ino;
    (* iino->parent = dir *)
    let iino := mk_inode dir (ino_type iino) (ino_cluster iino) (ino_size iino)
                  (ino_atime iino) (ino_ctime iino) (ino_mtime iino) in
    let fs := set_inodes fs (<[Z.to_nat (ino - 1) := iino]> (fs_inodes fs)) in
    c ← fat_clustercount fs dir;
    let size := u32 (c * fat_clustersize fs) in
    r ← fat_read fs dir (calloc (u32 (size + fat_clustersize fs))) size 0;
    let buffer := r.1 in
    let entries := u32 (strlen name / 13 + 1) in
    de ← link_scan buffer entries (dir_fuel buffer) 0 0 0;
    (* de is the first free entry. *)
    named ←
      if negb (bool_decide (cstring name = cstr ".          "))
         && negb (bool_decide (cstring name = cstr "..         "))
      then
        w ← fat_write_longname buffer de name;
        buffer ← store_bytes w.1 (w.2 + de_name)
                   (strncpy_bytes (fat_make_shortname name) 11);
        Some (buffer, w.2)
      else
        (* . and .. shouldn't have longnames *)
        buffer ← store_bytes buffer (de + de_name) (cstring name ++ [0]);
        Some (buffer, de);
    let de := named.2 in
    buffer ← link_entry named.1 de iino;
    (* Increase size for directory if needed *)
    let de := de + 32 in
    grown ←
      if de >? size then
        dino ← fat_get_inode fs dir;
        last ← last_cluster fs chain_fuel 0 (ino_cluster dino);
        current ← fat_find_free fs;
        fs ← fat_write_fat fs last current;
        fs ← fat_write_fat fs current FAT_END;
        Some (fs, u32 (size + fat_clustersize fs))
      else Some (fs, size);
    w ← fat_write grown.1 dir buffer grown.2 0;
    Some (w.1, 0).

(** ** fat_unlink *)

(** The new state and the status returned; a null [dirent] from
    [fat_readdir] is dereferenced. *)
Definition fat_unlink (fs : fs_st) (dir num : Z) : option (fs_st * Z) :=
  if dir =? 0 then Some (fs, 1)
  else if num <? 2 then Some (fs, 1)
  else
    match fat_get_inode fs dir with
    | None => Some (fs, 1)
    | Some dir_ino =>
        if negb (ino_type dir_ino =? FAT_DIR_DIRECTORY) then Some (fs, 1)
        else
          rd ← fat_readdir fs dir num;
          dirent ← rd.2;
          let fs := rd.1 in
          let item := d_ino dirent in
          c ← fat_clustercount fs dir;
          let size := u32 (c * fat_clustersize fs) in
          r ← fat_read fs dir (calloc size) size 0;
          let buffer := r.1 in
          let num := if negb (dir =? 1) then u32 (num + 2) else num in
          (* Find the right entry *)
          scan ← unlink_scan buffer size (dir_fuel buffer) num 0;
          match scan with
          | None => Some (fs, 1)
          | Some de =>
              n0 ← load8 buffer (de + de_name);
              if n0 =? 0 then Some (fs, 1)
              else
                let start := de in
                (* Find start of next entry *)
                de ← skip_longname buffer (dir_fuel buffer) de;
                let next := de + 32 in
                (* Copy data, skipping the entries we want to remove. *)
                head ← load_bytes buffer 0 start;
                buffer2 ← store_bytes (calloc size) 0 head;
                tail ← load_bytes buffer next (size_t (size - next));
                buffer2 ← store_bytes buffer2 start tail;
                (* Write it back *)
                w ← fat_write fs dir buffer2 size 0;
                (* Mark the files clusters as free in the FAT *)
                clusters ← fat_get_clusters w.1 item;
                fs ← free_clusters w.1 clusters;
                Some (fs, 0)
          end
    end.

(** ** fat_rmdir *)

(** The new state and the status returned; the status of [fat_unlink]
    is dropped. *)
Definition fat_rmdir (fs : fs_st) (dir num : Z) : option (fs_st * Z) :=
  if dir =? 0 then Some (fs, 1)
  else
    rd ← fat_readdir fs dir num;
    de ← rd.2;
    let target := d_ino de in
    rd2 ← fat_readdir rd.1 target 2;
    match rd2.2 with
    | Some _ => Some (rd2.1, 1) (* Not empty *)
    | None =>
        ul ← fat_unlink rd2.1 dir num;
        Some (ul.1, 0)
    end.

End Libc.

(** ** fat_fstat *)

(** The [fstat_t *] returned: [None] is the null pointer.  [0777] is
    octal. *)
Definition fat_fstat (fs : fs_st) (ino : Z) : option fstat_t :=
  if ino =? 0 then None
  else
    match fat_get_inode fs ino with
    | None => None
    | Some inode =>
        let mode := if ino_type inode =? FAT_DIR_DIRECTORY then S_DIR else 0 in
        Some (mk_fstat (ino_size inode) (Z.lor mode 511)
                (ino_atime inode) (ino_ctime inode) (ino_mtime inode))
    end.

(** ** fat_mkdir *)

Section Mkdir.

Variable gmtime : Z -> tm.
(** What the three calls of [time(0)] return, in the order of the calls. *)
Variables time_a time_c time_m : Z.

(** The new state and the status returned.  [0755] is octal. *)
Definition fat_mkdir (fs : fs_st) (parent : Z) (name : list Z)
  : option (fs_st * Z) :=
  if parent =? 0 then Some (fs, 1)
  else
    let st := mk_fstat 0 (Z.lor S_DIR 493) time_a time_c time_m in
    t ← fat_touch fs st;
    let child := t.2 in
    l ← fat_link gmtime t.1 child parent name;
    if negb (l.2 =? 0) then Some (l.1, 1)
    else
      let de := calloc (fat_clustersize l.1) in
      w ← fat_write l.1 child de (fat_clustersize l.1) 0;
      l ← fat_link gmtime w.1 child child (cstr ".          ");
      l ← fat_link gmtime l.1 parent child (cstr "..         ");
      Some (l.1, 0).

End Mkdir.

(** ** Mounting and unmounting: fat_hook_load, fat_hook_close *)

(** Modelled from the spec: the packed struct [fat_bpb_t] of fat.h
    (section 3): a 3-byte jump, an 8-byte identifier, then the fields in
    the order of the record [fat_bpb_t], little-endian. *)
Definition bpb_bytes_per_sector : Z := 11.
Definition bpb_sectors_per_cluster : Z := 13.
Definition bpb_reserved_sectors : Z := 14.
Definition bpb_fat_count : Z := 16.
Definition bpb_root_count : Z := 17.
Definition bpb_total_sectors_small : Z := 19.
Definition bpb_media_descriptor : Z := 21.
Definition bpb_sectors_per_fat : Z := 22.
Definition bpb_sectors_per_track : Z := 24.
Definition bpb_num_heads : Z := 26.
Definition bpb_hidden_sectors : Z := 28.
Definition bpb_total_sectors_large : Z := 32.

(** The fields the driver reads through the [fat_bpb_t *] that points at
    the sector buffer. *)
Definition read_bpb (block : list Z) : option fat_bpb_t :=
  bps ← load16 block bpb_bytes_per_sector;
  spc ← load8 block bpb_sectors_per_cluster;
  reserved ← load16 block bpb_reserved_sectors;
  fats ← load8 block bpb_fat_count;
  root ← load16 block bpb_root_count;
  small ← load16 block bpb_total_sectors_small;
  media ← load8 block bpb_media_descriptor;
  spf ← load16 block bpb_sectors_per_fat;
  spt ← load16 block bpb_sectors_per_track;
  heads ← load16 block bpb_num_heads;
  hidden ← load32 block bpb_hidden_sectors;
  large ← load32 block bpb_total_sectors_large;
  Some (mk_bpb bps spc reserved fats root small media spf spt heads hidden large).

(** [partition_readblocks(p, buffer, start, len)] into a buffer that was
    just allocated. *)
Definition read_into (p : list Z) (buffer : list Z) (start len : Z)
  : option (list Z) :=
  match partition_readblocks p start len with
  | Some bs => store_bytes buffer 0 bs
  | None => Some buffer
  end.

(** The state [fat_hook_load] sets up for the partition [p]. *)
Definition fat_hook_load (p : list Z) : option fs_st :=
  (* Read BPB *)
  block ← read_into p (calloc BLOCK_SIZE) 0 1;
  bpb ← read_bpb block;
  (* Read FAT *)
  fat ← read_into p (calloc (sectors_per_fat bpb * BLOCK_SIZE))
          (reserved_sectors bpb) (sectors_per_fat bpb);
  (* Generate root inode *)
  Some (mk_fs p bpb fat [mk_inode 1 FAT_DIR_DIRECTORY 0 0 0 0 0] 2).

(** The loop of [fat_hook_close] over the copies of the FAT. *)
Fixpoint close_loop (fs : fs_st) (fuel : nat) (i offset : Z) (p : list Z)
  : option (list Z) :=
  if i <? fat_count (fs_bpb fs) then
    match fuel with
    | O => None
    | S fuel' =>
        bs ← load_bytes (fs_fat fs) 0 (sectors_per_fat (fs_bpb fs) * BLOCK_SIZE);
        close_loop fs fuel' (i + 1) (u32 (offset + sectors_per_fat (fs_bpb fs)))
          (partition_writeblocks p bs offset)
    end
  else Some p.

(** The partition [fat_hook_close] leaves behind; the in-memory state is
    freed.  The loop runs [fat_count] times. *)
Definition fat_hook_close (fs : fs_st) : option (list Z) :=
  close_loop fs (Z.to_nat (fat_count (fs_bpb fs))) 0
    (reserved_sectors (fs_bpb fs)) (fs_p fs).

Definition fat_hook_check (fs : fs_st) : Z := 0.

(** ** Formatting: fat_hook_create *)

(** [while(fs_size >= 0x1000000) { cluster_size *= 2; fs_size /= 2; }];
    [fs_size] is a [uint32_t], so 32 rounds are never used up. *)
Fixpoint create_cluster_size (fuel : nat) (cluster_size fs_size : Z)
  : option (Z * Z) :=
  if fs_size >=? 0x1000000 then
    match fuel with
    | O => None
    | S fuel' => create_cluster_size fuel' (int32 (cluster_size * 2)) (fs_size / 2)
    end
  else Some (cluster_size, fs_size).

(** The [calloc]ed BPB. *)
Definition zero_bpb : fat_bpb_t := mk_bpb 0 0 0 0 0 0 0 0 0 0 0 0.

(** The part of the state that [fat_bits], [fat_read_fat] and
    [fat_write_fat] look at. *)
Definition fat_view (bpb : fat_bpb_t) (fat : list Z) : fs_st :=
  mk_fs [] bpb fat [] 0.

(** [fat_hook_create] for a partition of [length] sectors
    ([fs->p->length]): the BPB and the FAT buffer it leaves in memory, the
    latter null ([None]) when the size is refused.  The inode list stays
    null.  The jump and the identifier are no fields of the record.  The
    last statement writes 512 bytes from the address of the BPB struct to
    sector 0; the struct is shorter than that and what lies behind it is
    not the program's to say, so the partition is left out here. *)
Definition fat_hook_create (length : Z) : option (fat_bpb_t * option (list Z)) :=
  let num_sectors := u32 length in
  let fs_size := u32 (num_sectors * BLOCK_SIZE) in
  (* What kind of FAT do we need? *)
  let bits :=
    if fs_size >=? 0x80000000 then 32
    else if fs_size >=? 0x1000000 then 16
    else 12 in
  (* All but FAT12 are unsupported *)
  if negb (bits =? 12) then Some (zero_bpb, None)
  else
    sz ← create_cluster_size 32 8 fs_size;
    let cluster_size := sz.1 in
    let fs_size := sz.2 in
    (* Set up boot parameter block *)
    let bps := 512 in
    let reserved := if bits =? 32 then 32 else 4 in
    let root :=
      if negb (bits =? 32)
      then (if fs_size >? 0x400000 then 512 else 240)
      else 0 in
    let small := if num_sectors >? 65535 then 0 else u16 num_sectors in
    let large := if num_sectors >? 65535 then num_sectors else 0 in
    let media := if fs_size >? 0x400000 then 0xF8 else 0xF0 in
    if u32 cluster_size =? 0 then None
    else
      let spf :=
        if negb (bits =? 32) then
          let fat_size := u32 (num_sectors / u32 cluster_size - reserved) in
          let entries_per_sector := bps * 8 / bits in
          let spf := u16 (fat_size / entries_per_sector) in
          if negb (fat_size mod entries_per_sector =? 0) then u16 (spf + 1) else spf
        else 0 in
      let bpb := mk_bpb bps (u8 cluster_size) reserved 2 root small media spf 32 64 0 large in
      (* Set up FAT tables *)
      let fat := calloc (spf * BLOCK_SIZE) in
      fs ← fat_write_fat (fat_view bpb fat) 0 (Z.lor 0xF00 media);
      fs ← fat_write_fat fs 1 0xFFF;
      Some (bpb, Some (fs_fat fs)).

(** * Notions used in the statements *)

(** ** Well-formed FAT12 volumes *)

Definition is_byte (b : Z) : Prop := 0 <= b < 256.
Definition bytes_ok (m : list Z) : Prop := Forall is_byte m.

(** The FAT buffer holds bytes and is addressable with 32-bit offsets. *)
Definition wf_fat (fs : fs_st) : Prop :=
  bytes_ok (fs_fat fs) /\ Z.of_nat (length (fs_fat fs)) <= 2 ^ 32.

(** [n] is an index of the table: both bytes of the [uint16_t] that
    entry [n] straddles lie inside the FAT buffer. *)
Definition in_fat (fs : fs_st) (n : Z) : Prop :=
  0 <= n /\ n + n / 2 + 1 < Z.of_nat (length (fs_fat fs)).

(** A FAT12 volume whose table has an entry for every cluster index that
    [fat_find_free] scans. *)
Definition fat12_volume (fs : fs_st) : Prop :=
  fat_bits fs = 12 /\ wf_fat fs /\
  forall j, 0 <= j < fat_num_clusters fs -> in_fat fs j.

Definition fat_readable (fs : fs_st) : Prop :=
  forall j, 3 <= j < fat_num_clusters fs -> exists v, fat_read_fat fs j = Some v.

(** The handle counter is one past the inode list, and the root inode is
    there (the state [fat_hook_load] sets up and every operation keeps). *)
Definition handles_ok (fs : fs_st) : Prop :=
  fs_next fs = Z.of_nat (length (fs_inodes fs)) + 1 /\ 2 <= fs_next fs.

(** Sectors of 512 bytes and a cluster size that fits its [uint8_t]. *)
Definition bpb_ok (fs : fs_st) : Prop :=
  bytes_per_sector (fs_bpb fs) = 512 /\ 0 < sectors_per_cluster (fs_bpb fs) < 256.

(** Arithmetic reading of a FAT12 entry and of the [uint16_t] that
    [fat_write_fat] stores. *)
Definition entry12 (c lo hi : Z) : Z :=
  if c mod 2 =? 0 then (lo + 256 * hi) mod 4096 else (lo + 256 * hi) / 16.

Definition newval12 (n v lo hi : Z) : Z :=
  if n mod 2 =? 0 then 4096 * ((lo + 256 * hi) / 4096) + v
  else (lo + 256 * hi) mod 16 + 16 * v.

(** ** Free entries and chains *)

Definition is_free (fs : fs_st) (j : Z) : Prop :=
  3 <= j < fat_num_clusters fs /\ fat_read_fat fs j = Some 0.

(** The free entries [fat_find_free] can find, in increasing order. *)
Definition free_list (fs : fs_st) : list Z :=
  filter (fun j => fat_read_fat fs j = Some 0) (seqZ 3 (fat_num_clusters fs - 3)).

Definition free_count (fs : fs_st) : Z := Z.of_nat (length (free_list fs)).

(** At least [n] distinct free entries. *)
Definition avail (fs : fs_st) (n : nat) : Prop :=
  exists l : list Z, NoDup l /\ (n <= length l)%nat /\ Forall (is_free fs) l.

(** [chain fs c l]: following the FAT from cluster [c] visits exactly the
    clusters [l] and then reads an end-of-chain value. *)
Fixpoint chain (fs : fs_st) (c : Z) (l : list Z) : Prop :=
  match l with
  | [] => FAT_END <= c
  | x :: l' =>
      x = c /\ c < FAT_END /\
      exists c', fat_read_fat fs c = Some c' /\ chain fs c' l'
  end.

(** Rounds of the allocation loop of [fat_touch] for a remaining [size]. *)
Definition rounds (C size : Z) : Z :=
  if size >? 0 then (size + C - 1) / C else 0.

(** [max(1, ceil(S / C))]. *)
Definition clusters_needed (C S : Z) : Z := Z.max 1 ((S + C - 1) / C).

(** ** Long-name blocks *)

(** Byte [x] of a scratch buffer. *)
Definition sc (buffer : list Z) (x : Z) : Z := default 0 (load8 buffer x).

(** Byte [o] of a long-name entry written from the 26 scratch bytes at
    [k]; [old] is what the slot held before. *)
Definition ln_byte (buffer : list Z) (sum num k o old : Z) : Z :=
  if o =? 0 then num
  else if o <? 11 then sc buffer (k + o - 1)
  else if o =? 11 then FAT_DIR_LONGNAME
  else if o =? 12 then 0
  else if o =? 13 then sum
  else if o <? 26 then sc buffer (k + o - 4)
  else if o <? 28 then old
  else sc buffer (k + o - 6).

(** The UTF-16 scratch buffer [fat_write_longname] builds for [name]. *)
Definition scratch (name : list Z) : list Z :=
  fill_ff (utf16_loop (cstring name) (calloc (longname_entries name * 26)) 0)
          (Z.to_nat (2 * strlen name + 2)).

(** The low bytes of the code units [a .. a + n) of the scratch buffer. *)
Definition evens (name : list Z) (a n : Z) : list Z :=
  map (fun c => sc (scratch name) (2 * c)) (seqZ a n).

(** The sequence bytes, attributes and checksums of a block, with the
    first and the last sequence byte as the spec words them. *)
Definition longname_block_claimed (buf : list Z) (de : Z) (name : list Z) : Prop :=
  let E := (strlen name + 12) / 13 in
  exists buf',
    fat_write_longname buf de name = Some (buf', de + 32 * E) /\
    load8 buf' (de + ln_num) = Some (Z.lor E 0x40) /\
    load8 buf' (de + 32 * (E - 1) + ln_num) = Some 1 /\
    forall t, 0 <= t < E ->
      load8 buf' (de + 32 * t + ln_attrib) = Some FAT_DIR_LONGNAME /\
      load8 buf' (de + 32 * t + ln_checksum)
        = Some (fat_checksum (fat_make_shortname name)).

(** Decoding what was encoded gives the name back. *)
Definition longname_roundtrip_claimed (buf : list Z) (de : Z) (name : list Z) : Prop :=
  exists w arr,
    fat_write_longname buf de name = Some w /\
    fat_read_longname w.1 de = Some (Some arr) /\
    cstring arr = name.

(** ** Example volumes *)

(** One reserved sector, one FAT of one sector, a root directory of 16
    entries and [n] data clusters of [spc] sectors, freshly formatted:
    entry 0 is [0xF00 | media_descriptor], entry 1 is [0xFFF], the root
    inode is handle 1. *)
Definition example_bpb (spc n : Z) : fat_bpb_t :=
  mk_bpb 512 spc 1 1 16 (3 + spc * n) 0xF0 1 32 64 0 0.

Definition fresh_fat : list Z := [0xF0; 0xFF; 0xFF] ++ replicate 509 0.

Definition root_inode : fat_inode_t := mk_inode 1 FAT_DIR_DIRECTORY 0 0 0 0 0.

Definition example_fs (spc n : Z) : fs_st :=
  mk_fs (calloc ((3 + spc * n) * 512)) (example_bpb spc n) fresh_fat [root_inode] 2.

(** [fstat_t] of a regular file of [size] bytes. *)
Definition reg (size : Z) : fstat_t := mk_fstat size 0 0 0 0.

(** A [mktime] for the examples. *)
Definition no_time (_ : tm) : Z := 0.

(** ** Notions for the further properties *)

(** What survives of a [struct tm] in a time and a date word. *)
Definition tm_bits (t : tm) : tm :=
  mk_tm (tm_sec t mod 32) (tm_min t mod 64) (tm_hour t mod 32)
        (tm_mday t mod 32) (tm_mon t mod 16) (tm_year t mod 128).

(** What survives of it in a date word alone. *)
Definition tm_date_bits (t : tm) : tm :=
  mk_tm 0 0 0 (tm_mday t mod 32) (tm_mon t mod 16) (tm_year t mod 128).

(** The bytes of [m] before the first [c]. *)
Fixpoint upto (c : Z) (m : list Z) : list Z :=
  match m with
  | [] => []
  | x :: r => if x =? c then [] else x :: upto c r
  end.

(** [l], filled up to [n] bytes with blanks. *)
Definition pad (n : nat) (l : list Z) : list Z := l ++ replicate (n - length l) 32.

(** The base of a short name: the first 8 characters of the name, cut at
    the first dot among them. *)
Definition short_base (name : list Z) : list Z := upto 46 (take 8 (cstring name)).

(** Its extension: the first 3 characters behind the last dot. *)
Definition short_ext (name : list Z) : list Z :=
  match strrchr name 46 with
  | Some dot => take 3 (cstring (drop (S dot) name))
  | None => []
  end.

(** The BPB [fat_hook_create] computes for a FAT12 partition of [n]
    sectors. *)
Definition format_bpb (n : Z) : fat_bpb_t :=
  mk_bpb 512 8 4 2 (if n >? 8192 then 512 else 240) n
    (if n >? 8192 then 0xF8 else 0xF0) ((n / 8 - 4 + 340) / 341) 32 64 0 0.

(** [fs'] has the BPB and the FAT of [fs]. *)
Definition same_tables (fs fs' : fs_st) : Prop :=
  fs_bpb fs' = fs_bpb fs /\ fs_fat fs' = fs_fat fs.

(** The sectors of cluster [c] lie inside the partition. *)
Definition cluster_in_partition (fs : fs_st) (c : Z) : Prop :=
  0 <= cluster_start fs c /\
  (cluster_start fs c + sectors_per_cluster (fs_bpb fs)) * BLOCK_SIZE
    <= Z.of_nat (length (fs_p fs)).

(** Byte [y] of the file whose chain is [cl]: byte [y mod C] of the
    cluster at position [y / C] of the chain. *)
Definition file_byte (fs : fs_st) (cl : list Z) (y : Z) : option Z :=
  c ← cl !! Z.to_nat (y / fat_clustersize fs);
  load8 (fs_p fs) (cluster_start fs c * BLOCK_SIZE + y mod fat_clustersize fs).

(** Address [z] of the partition lies in cluster [c]. *)
Definition in_cluster (fs : fs_st) (c z : Z) : Prop :=
  cluster_start fs c * BLOCK_SIZE <= z
  < cluster_start fs c * BLOCK_SIZE + fat_clustersize fs.

(** [iino->parent = dir]. *)
Definition with_parent (iino : fat_inode_t) (dir : Z) : fat_inode_t :=
  mk_inode dir (ino_type iino) (ino_cluster iino) (ino_size iino)
    (ino_atime iino) (ino_ctime iino) (ino_mtime iino).

(** ** Further example volumes *)

(** A volume on which entry 3 points at itself, with a file that starts
    there. *)
Definition looping_fs : fs_st :=
  mk_fs [] (example_bpb 1 5)
    ([0xF0; 0xFF; 0xFF; 0; 0x30; 0] ++ replicate 506 0)
    [root_inode; mk_inode 1 0 3 0 0 0 0] 3.

(** A volume with one file of two clusters, 3 and 4. *)
Definition two_cluster_fs : fs_st :=
  mk_fs [] (example_bpb 8 6)
    ([0xF0; 0xFF; 0xFF; 0; 0x40; 0; 0xF8; 0x0F] ++ replicate 504 0)
    [root_inode; mk_inode 1 0 3 5000 0 0 0] 3.

(** A [gmtime] for the examples. *)
Definition epoch (_ : Z) : tm := mk_tm 0 0 0 1 0 70.

(** A volume whose sector 0 holds its BPB; entry 3 of its FAT is an end
    marker. *)
Definition mounted_block : list Z :=
  [0xEB; 0x3C; 0x90; 109; 107; 100; 111; 115; 102; 115; 32;
   0; 2; 1; 1; 0; 2; 16; 0; 8; 0; 0xF0; 1; 0; 32; 0; 64; 0;
   0; 0; 0; 0; 0; 0; 0; 0] ++ replicate 476 0.

Definition mounted_fs : fs_st :=
  mk_fs (mounted_block ++ calloc (7 * 512))
    (mk_bpb 512 1 1 2 16 8 0xF0 1 32 64 0 0)
    ([0xF0; 0xFF; 0xFF; 0; 0x80; 0xFF] ++ replicate 506 0)
    [root_inode] 2.

(** A volume of 512-byte clusters with one file of 600 bytes in the
    clusters 3 and 4. *)
Definition file_fs : fs_st :=
  mk_fs (calloc 4096) (example_bpb 1 5)
    ([0xF0; 0xFF; 0xFF; 0; 0x40; 0; 0xF8; 0x0F] ++ replicate 504 0)
    [root_inode; mk_inode 1 0 3 600 0 0 0] 3.

(** A volume whose root directory holds one entry, [A], for a file of 5
    bytes in cluster 3. *)
Definition listed_fs : fs_st :=
  mk_fs (calloc 1024
           ++ ([65] ++ replicate 10 32 ++ [0x20] ++ replicate 14 0 ++ [3; 0; 5; 0; 0; 0])
           ++ calloc 3040)
    (example_bpb 1 5)
    ([0xF0; 0xFF; 0xFF; 0; 0x80; 0xFF] ++ replicate 506 0)
    [root_inode] 2.

(** * Proofs *)

(** Division and remainder by constants, then linear arithmetic. *)
Ltac zlia := Z.div_mod_to_equations; lia.

(** One step of a run of monadic code in hypothesis [H]. *)
Ltac run_step H :=
  lazymatch type of H with
  | mbind _ ?m = _ =>
      let E := fresh "E" in
      destruct m eqn:E; cbn [mbind option_bind] in H; [|discriminate H]
  | (if ?b then _ else _) = _ =>
      let E := fresh "E" in destruct b eqn:E
  | match ?x with _ => _ end = _ =>
      let E := fresh "E" in destruct x eqn:E
  end.

(** ** Appending to the inode list *)

(** [last->next = ino] on a list that is not empty. *)
Lemma last_next_ok {A B} (l : list A) (x : B) :
  l <> [] -> match l with [] => None | _ :: _ => Some x end = Some x.
Proof. by destruct l. Qed.

Lemma last_next_inv {A B} (l : list A) (x y : B) :
  match l with [] => None | _ :: _ => Some x end = Some y -> l <> [] /\ x = y.
Proof. destruct l; [discriminate|]. intros H. by injection H as <-. Qed.


(** ** Bit arithmetic *)

(** [a | (b << k)] is a sum when [a] has at most [k] bits. *)
Lemma lor_low_high a b k :
  0 <= k -> 0 <= a < 2 ^ k -> Z.lor a (Z.shiftl b k) = a + b * 2 ^ k.
Proof.
  intros Hk Ha.
  pose proof (Z.add_lor_land a (Z.shiftl b k)) as E.
  assert (Z.land a (Z.shiftl b k) = 0) as E0; [|rewrite E0 in E; rewrite (Z.shiftl_mul_pow2 b k) in E at 2 by lia; lia].
  apply Z.bits_inj'. intros n Hn.
  rewrite Z.land_spec, Z.bits_0.
  destruct (Z.lt_ge_cases n k).
  - rewrite (Z.shiftl_spec_low b k n) by lia. apply andb_false_r.
  - replace (Z.testbit a n) with false; [reflexivity|].
    symmetry. destruct (Z.eq_dec a 0) as [->|]; [apply Z.bits_0|].
    apply Z.bits_above_log2; [lia|].
    apply Z.log2_lt_pow2; [lia|]. 
    assert (2 ^ k <= 2 ^ n) by (apply Z.pow_le_mono_r; lia). lia.
Qed.

(** The mask [0xF000] keeps the top nibble of a [uint16_t]. *)
Lemma land_F000 x : 0 <= x < 65536 -> Z.land x 0xF000 = 4096 * (x / 4096).
Proof.
  intros Hx.
  assert (E : Z.land x 0xF000 = Z.ldiff (Z.land x (Z.ones 16)) (Z.ones 12)).
  { apply Z.bits_inj'. intros n Hn.
    rewrite Z.ldiff_spec, !Z.land_spec.
    rewrite !Z.testbit_ones_nonneg by lia.
    change 0xF000 with (Z.shiftl (Z.ones 4) 12).
    destruct (Z.lt_ge_cases n 12).
    - rewrite Z.shiftl_spec_low by lia.
      destruct (Z.ltb_spec n 12); [|lia].
      destruct (Z.testbit x n), (n <? 16); reflexivity.
    - rewrite Z.shiftl_spec by lia. rewrite Z.testbit_ones_nonneg by lia.
      destruct (Z.ltb_spec n 12); [lia|].
      destruct (Z.ltb_spec (n-12) 4), (Z.ltb_spec n 16); try lia;
        destruct (Z.testbit x n); reflexivity. }
  rewrite E. rewrite Z.land_ones by lia. rewrite Z.ldiff_ones_r by lia.
  rewrite Z.shiftl_mul_pow2, Z.shiftr_div_pow2 by lia.
  change (2^16) with 65536. change (2^12) with 4096.
  rewrite Z.mod_small by lia. lia.
Qed.

(** ** Single bytes and 16-bit words in a buffer *)

Lemma load8_lookup m a : 0 <= a -> load8 m a = m !! Z.to_nat a.
Proof. intros. unfold load8. destruct (Z.leb_spec 0 a); [done|lia]. Qed.

Lemma load8_in_range m a :
  0 <= a < Z.of_nat (length m) -> exists b, load8 m a = Some b.
Proof.
  intros H. rewrite load8_lookup by lia.
  destruct (lookup_lt_is_Some_2 m (Z.to_nat a)) as [b Hb]; [lia|]. eauto.
Qed.

Lemma load8_byte m a b : bytes_ok m -> load8 m a = Some b -> is_byte b.
Proof.
  unfold load8. intros Hm H. destruct (0 <=? a); [|done].
  eapply Forall_lookup_1 in Hm; eauto.
Qed.

Lemma load8_Some_range m a b : load8 m a = Some b -> 0 <= a < Z.of_nat (length m).
Proof.
  unfold load8. destruct (Z.leb_spec 0 a); [|done].
  intros Hb. apply lookup_lt_Some in Hb. lia.
Qed.

(** A store inside the buffer succeeds, keeps the length and changes the
    one byte. *)
Lemma store8_spec m a v :
  0 <= a < Z.of_nat (length m) ->
  exists m', store8 m a v = Some m' /\ length m' = length m /\
    forall b, load8 m' b = if b =? a then Some v else load8 m b.
Proof.
  intros H. unfold store8.
  destruct (Z.leb_spec 0 a); [|lia]. destruct (Z.ltb_spec a (Z.of_nat (length m))); [|lia].
  eexists; split; [reflexivity|]. split; [apply length_insert|].
  intros b. unfold load8. destruct (Z.leb_spec 0 b).
  - destruct (Z.eqb_spec b a) as [->|Hne].
    + apply list_lookup_insert_eq. lia.
    + apply list_lookup_insert_ne. lia.
  - destruct (Z.eqb_spec b a); [lia|done].
Qed.

Lemma store8_bytes_ok m a v m' :
  bytes_ok m -> is_byte v -> store8 m a v = Some m' -> bytes_ok m'.
Proof.
  unfold store8. intros Hm Hv H.
  destruct ((0 <=? a) && (a <? Z.of_nat (length m))); [|done].
  injection H as <-. by apply Forall_insert.
Qed.

Lemma land_255 x : Z.land x 255 = x mod 256.
Proof. change 255 with (Z.ones 8). by rewrite Z.land_ones. Qed.

Lemma store16_spec m a v :
  0 <= a -> a + 1 < Z.of_nat (length m) ->
  exists m', store16 m a v = Some m' /\ length m' = length m /\
    (bytes_ok m -> bytes_ok m') /\
    forall b, load8 m' b =
      if b =? a then Some (v mod 256)
      else if b =? a + 1 then Some (v / 256 mod 256)
      else load8 m b.
Proof.
  intros H0 H1. unfold store16.
  destruct (store8_spec m a (Z.land v 255)) as (m1 & E1 & L1 & S1); [lia|].
  destruct (store8_spec m1 (a + 1) (Z.land (Z.shiftr v 8) 255)) as (m2 & E2 & L2 & S2); [lia|].
  rewrite E1. simpl. rewrite E2. eexists; split; [reflexivity|].
  split; [congruence|]. split.
  - intros Hm. eapply store8_bytes_ok; [|  |exact E2].
    + eapply store8_bytes_ok; [exact Hm| |exact E1].
      rewrite land_255. unfold is_byte. apply Z.mod_pos_bound. lia.
    + rewrite land_255. unfold is_byte. apply Z.mod_pos_bound. lia.
  - intros b. rewrite S2, S1. rewrite !land_255, Z.shiftr_div_pow2 by lia.
    change (2 ^ 8) with 256.
    destruct (Z.eqb_spec b (a+1)), (Z.eqb_spec b a); try lia; reflexivity.
Qed.

Lemma lor_bytes lo hi : is_byte lo -> Z.lor lo (Z.shiftl hi 8) = lo + 256 * hi.
Proof. intros H. rewrite lor_low_high by (unfold is_byte in H; lia). lia. Qed.

Lemma land_1 c : Z.land c 1 = c mod 2.
Proof. change 1 with (Z.ones 1) at 1. by rewrite Z.land_ones. Qed.

(** ** FAT12 entries *)

(** An entry read, in terms of the two bytes it straddles. *)
Lemma fat_read_fat_arith fs c :
  fat_bits fs = 12 -> wf_fat fs -> in_fat fs c ->
  fat_read_fat fs c =
    (lo ← load8 (fs_fat fs) (c + c / 2);
     hi ← load8 (fs_fat fs) (c + c / 2 + 1);
     Some (entry12 c lo hi)).
Proof.
  intros Hb [Hok Hlen] [Hc0 Hc]. unfold fat_read_fat, load16. rewrite Hb. simpl.
  unfold u32, wrap. rewrite Z.mod_small by (Z.div_mod_to_equations; lia).
  destruct (load8 (fs_fat fs) (c + c/2)) as [lo|] eqn:Elo; [|done]. simpl.
  destruct (load8 (fs_fat fs) (c + c/2 + 1)) as [hi|] eqn:Ehi; [|done]. simpl.
  f_equal. rewrite lor_bytes by (eapply load8_byte; eauto).
  unfold entry12. rewrite land_1.
  destruct (Z.eqb_spec (c mod 2) 0); simpl.
  - change 0x0FFF with (Z.ones 12). by rewrite Z.land_ones.
  - by rewrite Z.shiftr_div_pow2.
Qed.

(** An entry write, in terms of the two bytes it stores. *)
Lemma fat_write_fat_arith fs n v :
  fat_bits fs = 12 -> wf_fat fs -> in_fat fs n -> 0 <= v < 4096 ->
  exists f lo hi,
    fat_write_fat fs n v = Some (set_fat fs f) /\
    length f = length (fs_fat fs) /\ bytes_ok f /\
    load8 (fs_fat fs) (n + n / 2) = Some lo /\
    load8 (fs_fat fs) (n + n / 2 + 1) = Some hi /\
    forall b, load8 f b =
      if b =? n + n / 2 then Some (newval12 n v lo hi mod 256)
      else if b =? n + n / 2 + 1 then Some (newval12 n v lo hi / 256 mod 256)
      else load8 (fs_fat fs) b.
Proof.
  intros Hb [Hok Hlen] [Hn0 Hn] Hv.
  assert (Eo : u32 (n + n / 2) = n + n / 2)
    by (unfold u32, wrap; apply Z.mod_small; zlia).
  destruct (load8_in_range (fs_fat fs) (n + n / 2)) as [lo Elo]; [zlia|].
  destruct (load8_in_range (fs_fat fs) (n + n / 2 + 1)) as [hi Ehi]; [zlia|].
  assert (Blo : is_byte lo) by (eapply load8_byte; eauto).
  assert (Bhi : is_byte hi) by (eapply load8_byte; eauto).
  unfold fat_write_fat, load16. rewrite Hb, Eo, Elo. simpl. rewrite Ehi. simpl.
  rewrite lor_bytes by done.
  set (value := lo + 256 * hi).
  assert (Hval : 0 <= value < 65536) by (unfold value, is_byte in *; lia).
  match goal with |- context [store16 _ _ ?w] => set (v' := w) end.
  assert (Ev' : v' = newval12 n v lo hi).
  { unfold v', newval12. fold value. rewrite land_1.
    destruct (Z.eqb_spec (n mod 2) 0); simpl.
    - rewrite land_F000 by done.
      change 0x0FFF with (Z.ones 12). rewrite Z.land_ones by lia.
      change (2 ^ 12) with 4096. rewrite (Z.mod_small v) by lia.
      rewrite Z.lor_comm.
      replace (4096 * (value / 4096)) with (Z.shiftl (value / 4096) 12)
        by (rewrite Z.shiftl_mul_pow2 by lia; lia).
      rewrite lor_low_high by lia.
      unfold u16, wrap. change (2 ^ 12) with 4096. change (2 ^ 16) with 65536.
      rewrite Z.mod_small by zlia. rewrite Z.shiftl_mul_pow2 by lia.
      change (2 ^ 12) with 4096. lia.
    - change 0x000F with (Z.ones 4). rewrite Z.land_ones by lia.
      unfold u32, wrap. rewrite Z.shiftl_mul_pow2 by lia.
      rewrite (Z.mod_small (v * 2 ^ 4)) by lia.
      replace (v * 2 ^ 4) with (Z.shiftl v 4) by (rewrite Z.shiftl_mul_pow2 by lia; lia).
      rewrite lor_low_high by (change (2 ^ 4) with 16; zlia).
      unfold u16, wrap. change (2 ^ 4) with 16. change (2 ^ 16) with 65536.
      rewrite Z.mod_small by zlia. lia. }
  destruct (store16_spec (fs_fat fs) (n + n / 2) v') as (f & Ef & Lf & Of & Sf); [zlia|lia|].
  rewrite Ef. simpl. exists f, lo, hi. rewrite <- Ev'.
  split; [done|]. split; [done|]. split; [by apply Of|]. auto.
Qed.

(** ** The scan for a free entry *)

Lemma find_free_loop_spec fs :
  fat_readable fs ->
  forall fuel i, 3 <= i -> fat_num_clusters fs - i <= Z.of_nat fuel ->
  exists r, find_free_loop fs fuel i = Some r /\
    ((i <= r < fat_num_clusters fs /\ fat_read_fat fs r = Some 0 /\
      forall j, i <= j < r -> fat_read_fat fs j <> Some 0) \/
     (r = 0 /\ forall j, i <= j < fat_num_clusters fs -> fat_read_fat fs j <> Some 0)).
Proof.
  intros Hr. induction fuel as [|fuel IH]; intros i Hi Hf.
  - exists 0. simpl. destruct (Z.ltb_spec i (fat_num_clusters fs)); [lia|].
    split; [done|]. right. split; [done|]. intros; lia.
  - simpl. destruct (Z.ltb_spec i (fat_num_clusters fs)) as [Hlt|Hge].
    + destruct (Hr i) as [v Hv]; [lia|]. rewrite Hv. simpl.
      destruct (Z.eqb_spec v 0) as [->|Hne]; simpl.
      * exists i. split; [done|]. left. split; [lia|]. split; [done|]. intros; lia.
      * destruct (IH (i + 1)) as (r & Er & Hspec); [lia|lia|].
        exists r. split; [done|].
        assert (Hi' : fat_read_fat fs i <> Some 0) by (rewrite Hv; congruence).
        destruct Hspec as [(Hrange & Hz & Hbefore)|(-> & Hnone)].
        -- left. split; [lia|]. split; [done|].
           intros j Hj. destruct (Z.eq_dec j i) as [->|]; [done|]. apply Hbefore. lia.
        -- right. split; [done|].
           intros j Hj. destruct (Z.eq_dec j i) as [->|]; [done|]. apply Hnone. lia.
    + exists 0. split; [done|]. right. split; [done|]. intros; lia.
Qed.

Lemma find_free_spec fs :
  fat_readable fs ->
  exists r, fat_find_free fs = Some r /\ r <> 2 /\
    ((3 <= r < fat_num_clusters fs /\ fat_read_fat fs r = Some 0 /\
      forall j, 3 <= j < r -> fat_read_fat fs j <> Some 0) \/
     (r = 0 /\ forall j, 3 <= j < fat_num_clusters fs -> fat_read_fat fs j <> Some 0)).
Proof.
  intros Hr. unfold fat_find_free.
  destruct (find_free_loop_spec fs Hr (Z.to_nat (fat_num_clusters fs)) 3) as (r & Er & Hs);
    [lia|lia|].
  exists r. split; [done|]. split; [|done]. destruct Hs as [[? _]|[-> _]]; lia.
Qed.

(** ** Writing one entry of a FAT12 table *)

(** The entry written reads back; every other entry of the table reads
    as before. *)
Lemma fat12_write_spec fs n v :
  fat_bits fs = 12 -> wf_fat fs -> in_fat fs n -> 0 <= v < 4096 ->
  exists f,
    fat_write_fat fs n v = Some (set_fat fs f) /\
    length f = length (fs_fat fs) /\ bytes_ok f /\
    fat_read_fat (set_fat fs f) n = Some v /\
    forall m, in_fat fs m -> m <> n ->
      fat_read_fat (set_fat fs f) m = fat_read_fat fs m.
Proof.
  intros Hb Hwf Hn Hv.
  destruct (fat_write_fat_arith fs n v Hb Hwf Hn Hv)
    as (f & lo & hi & Ew & Lf & Of & Elo & Ehi & Sf).
  assert (Blo : is_byte lo) by (exact (load8_byte _ _ _ (proj1 Hwf) Elo)).
  assert (Bhi : is_byte hi) by (exact (load8_byte _ _ _ (proj1 Hwf) Ehi)).
  assert (Hb' : fat_bits (set_fat fs f) = 12) by exact Hb.
  assert (Hwf' : wf_fat (set_fat fs f)).
  { split; simpl; [done|]. rewrite Lf. apply Hwf. }
  exists f. split; [done|]. split; [done|]. split; [done|]. split.
  - rewrite fat_read_fat_arith; [|done|done|].
    2:{ destruct Hn. split; simpl; [done|]. rewrite Lf. done. }
    simpl. rewrite !Sf. rewrite Z.eqb_refl.
    destruct (Z.eqb_spec (n + n / 2 + 1) (n + n / 2)); [lia|]. rewrite Z.eqb_refl. simpl.
    f_equal. unfold entry12, newval12, is_byte in *.
    destruct (Z.eqb_spec (n mod 2) 0); zlia.
  - intros m Hm Hne.
    rewrite !fat_read_fat_arith; try done.
    2:{ destruct Hm. split; simpl; [done|]. rewrite Lf. done. }
    simpl. rewrite !Sf.
    destruct Hm as [Hm0 Hm]. destruct Hn as [Hn0 Hn].
    destruct (load8_in_range (fs_fat fs) (m + m / 2)) as [lo' Elo']; [zlia|].
    destruct (load8_in_range (fs_fat fs) (m + m / 2 + 1)) as [hi' Ehi']; [zlia|].
    assert (Blo' : is_byte lo') by (exact (load8_byte _ _ _ (proj1 Hwf) Elo')).
    assert (Bhi' : is_byte hi') by (exact (load8_byte _ _ _ (proj1 Hwf) Ehi')).
    rewrite Elo', Ehi'.
    destruct (Z.eqb_spec (m + m / 2) (n + n / 2)) as [E1|E1].
    { exfalso. zlia. }
    destruct (Z.eqb_spec (m + m / 2) (n + n / 2 + 1)) as [E2|E2];
    destruct (Z.eqb_spec (m + m / 2 + 1) (n + n / 2)) as [E3|E3];
    destruct (Z.eqb_spec (m + m / 2 + 1) (n + n / 2 + 1)) as [E4|E4];
      try (exfalso; lia); simpl; f_equal.
    + rewrite E2 in Elo'. assert (lo' = hi) by congruence. subst lo'.
      assert (n mod 2 = 0 /\ m mod 2 = 1) as [P1 P2] by zlia.
      unfold entry12, newval12, is_byte in *. rewrite P1, P2. simpl. zlia.
    + rewrite E3 in Ehi'. assert (hi' = lo) by congruence. subst hi'.
      assert (n mod 2 = 1 /\ m mod 2 = 0) as [P1 P2] by zlia.
      unfold entry12, newval12, is_byte in *. rewrite P1, P2. simpl. zlia.
Qed.

Lemma volume_write fs c v :
  fat12_volume fs -> 0 <= c < fat_num_clusters fs -> 0 <= v < 4096 ->
  exists fs',
    fat_write_fat fs c v = Some fs' /\ fat12_volume fs' /\
    fs_bpb fs' = fs_bpb fs /\ fs_inodes fs' = fs_inodes fs /\
    fs_next fs' = fs_next fs /\ fs_p fs' = fs_p fs /\
    fat_num_clusters fs' = fat_num_clusters fs /\
    fat_read_fat fs' c = Some v /\
    forall m, 0 <= m < fat_num_clusters fs -> m <> c ->
      fat_read_fat fs' m = fat_read_fat fs m.
Proof.
  intros (Hb & Hwf & Hcov) Hc Hv.
  destruct (fat12_write_spec fs c v Hb Hwf (Hcov c Hc) Hv) as (f & Ew & Lf & Of & Rc & Rm).
  exists (set_fat fs f). split; [done|]. split.
  { split; [exact Hb|]. split.
    - split; simpl; [done|]. rewrite Lf. apply Hwf.
    - intros j Hj. destruct (Hcov j Hj) as [? ?]. split; simpl; [done|]. by rewrite Lf. }
  repeat (split; [reflexivity|]). split; [done|].
  intros m Hm Hne. apply Rm; [by apply Hcov|done].
Qed.

Lemma volume_readable fs : fat12_volume fs -> fat_readable fs.
Proof.
  intros (Hb & Hwf & Hcov) j Hj.
  rewrite fat_read_fat_arith by (try done; apply Hcov; lia).
  destruct (Hcov j) as [Hj0 Hj1]; [lia|].
  destruct (load8_in_range (fs_fat fs) (j + j / 2)) as [lo ->]; [zlia|].
  destruct (load8_in_range (fs_fat fs) (j + j / 2 + 1)) as [hi ->]; [zlia|].
  simpl. eauto.
Qed.

(** ** Free entries *)

Lemma avail_free_count fs n : Z.of_nat n <= free_count fs -> avail fs n.
Proof.
  intros H. exists (free_list fs). split; [|split].
  - apply NoDup_filter, NoDup_seqZ.
  - unfold free_count in H. lia.
  - apply Forall_forall. intros j Hj. unfold free_list in Hj.
    apply list_elem_of_filter in Hj as [Hz Hin]. apply elem_of_seqZ in Hin.
    split; [lia|done].
Qed.

Lemma free_count_bound fs : free_count fs <= Z.max 0 (fat_num_clusters fs - 3).
Proof.
  unfold free_count, free_list.
  pose proof (length_filter (fun j => fat_read_fat fs j = Some 0) (seqZ 3 (fat_num_clusters fs - 3))) as H.
  rewrite length_seqZ in H. lia.
Qed.

Lemma avail_find_free fs n :
  fat_readable fs -> avail fs (S n) ->
  exists r, fat_find_free fs = Some r /\ is_free fs r.
Proof.
  intros Hr (l & _ & Hlen & Hfree).
  destruct (find_free_spec fs Hr) as (r & Er & _ & [(Hrange & Hz & _)|(-> & Hnone)]).
  - exists r. split; [done|]. split; done.
  - destruct l as [|j l]; [simpl in Hlen; lia|].
    apply Forall_cons in Hfree as [[Hj Hz] _]. exfalso. by apply (Hnone j).
Qed.

(** Writing a non-free entry keeps the free entries; writing any entry
    takes at most one of them. *)
Lemma avail_write_used fs fs' c n :
  fat_num_clusters fs' = fat_num_clusters fs ->
  (forall m, 0 <= m < fat_num_clusters fs -> m <> c -> fat_read_fat fs' m = fat_read_fat fs m) ->
  fat_read_fat fs c <> Some 0 ->
  avail fs n -> avail fs' n.
Proof.
  intros HN Hframe Hc (l & Hnd & Hlen & Hfree).
  exists l. split; [done|]. split; [done|].
  eapply Forall_impl; [exact Hfree|]. intros j [Hj Hz]. split; [lia|].
  rewrite Hframe; [done|lia|]. intros ->. done.
Qed.

Lemma length_filter_ne (c : Z) (l : list Z) :
  NoDup l -> (length l <= S (length (filter (fun j => j <> c) l)))%nat.
Proof.
  induction 1 as [|x l Hx Hnd IH]; [simpl; lia|].
  destruct (decide (x = c)) as [->|Hne].
  - rewrite filter_cons_False by (intros ?; done).
    assert (E : filter (fun j => j <> c) l = l).
    { clear IH Hnd. induction l as [|y l IHl]; [done|].
      rewrite filter_cons_True.
      - f_equal. apply IHl. intros ?. apply Hx. by right.
      - intros ->. apply Hx. by left. }
    rewrite E. simpl. lia.
  - rewrite filter_cons_True by done. simpl. lia.
Qed.

Lemma avail_write_free fs fs' c n :
  fat_num_clusters fs' = fat_num_clusters fs ->
  (forall m, 0 <= m < fat_num_clusters fs -> m <> c -> fat_read_fat fs' m = fat_read_fat fs m) ->
  avail fs (S n) -> avail fs' n.
Proof.
  intros HN Hframe (l & Hnd & Hlen & Hfree).
  exists (filter (fun j => j <> c) l). split; [by apply NoDup_filter|]. split.
  - pose proof (length_filter_ne c l Hnd). lia.
  - apply Forall_forall. intros j Hj. apply list_elem_of_filter in Hj as [Hne Hin].
    rewrite Forall_forall in Hfree. destruct (Hfree j Hin) as [Hj Hz].
    split; [lia|]. rewrite Hframe; [done|lia|done].
Qed.

(** ** Chains *)

Lemma chain_ext fs fs' :
  (forall c, fat_read_fat fs' c = fat_read_fat fs c) ->
  forall l c, chain fs c l -> chain fs' c l.
Proof.
  intros H. induction l as [|x l IH]; intros c; simpl; [done|].
  intros (-> & Hc & c' & Hr & Hl). split; [done|]. split; [done|].
  exists c'. rewrite H. auto.
Qed.

(** [fat_clustercount] and [fat_get_clusters] walk a chain to its end. *)
Lemma chain_count_chain fs l :
  forall fuel c r, chain fs c l -> (length l <= fuel)%nat ->
  chain_count fs fuel c r = Some (r + Z.of_nat (length l)).
Proof.
  induction l as [|x l IH]; intros fuel c r Hc Hf; simpl in Hc.
  - destruct fuel; simpl; destruct (Z.ltb_spec c FAT_END); try lia; f_equal; lia.
  - destruct Hc as (-> & Hlt & c' & Hr & Hl).
    destruct fuel as [|fuel]; [simpl in Hf; lia|]. simpl.
    destruct (Z.ltb_spec c FAT_END); [|lia]. rewrite Hr. simpl.
    rewrite (IH fuel c' (r + 1) Hl) by (simpl in Hf; lia). f_equal. lia.
Qed.

Lemma get_clusters_chain fs l :
  forall c, chain fs c l -> get_clusters_loop fs (length l) c = Some l.
Proof.
  induction l as [|x l IH]; intros c Hc; simpl in *; [done|].
  destruct Hc as (-> & Hlt & c' & Hr & Hl). rewrite Hr. simpl.
  by rewrite (IH c' Hl).
Qed.

(** Linking the free cluster [j] behind the last cluster [cur] of a
    chain extends the chain by [j]. *)
Lemma chain_append fs fs2 cur j :
  (forall m, 3 <= m < fat_num_clusters fs -> m <> cur -> m <> j ->
     fat_read_fat fs2 m = fat_read_fat fs m) ->
  fat_read_fat fs2 cur = Some j ->
  fat_read_fat fs2 j = Some FAT_END ->
  fat_read_fat fs cur = Some FAT_END ->
  fat_read_fat fs j = Some 0 ->
  j < FAT_END ->
  forall pre head,
    Forall (fun x => 3 <= x < fat_num_clusters fs) (pre ++ [cur]) ->
    chain fs head (pre ++ [cur]) ->
    chain fs2 head (pre ++ [cur; j]).
Proof.
  intros Hframe Hcur2 Hj2 Hcur Hj Hjlt.
  induction pre as [|x pre IH]; intros head Hall Hc; simpl in *.
  - destruct Hc as (-> & Hlt & _). split; [done|]. split; [done|].
    exists j. split; [done|]. split; [done|]. split; [done|].
    exists FAT_END. split; [done|]. lia.
  - destruct Hc as (-> & Hlt & c' & Hr & Hl).
    apply Forall_cons in Hall as [Hx Hall].
    split; [done|]. split; [done|]. exists c'.
    assert (Hc' : 3 <= c' < FAT_END).
    { destruct pre as [|y pre]; simpl in Hl, Hall.
      - destruct Hl as (<- & ? & _). apply Forall_cons in Hall as [? _]. lia.
      - destruct Hl as (<- & ? & _). apply Forall_cons in Hall as [? _]. lia. }
    split; [|by apply IH].
    rewrite Hframe; [done|done| |].
    + intros ->. rewrite Hcur in Hr. injection Hr as <-. lia.
    + intros ->. rewrite Hj in Hr. injection Hr as <-. lia.
Qed.

(** ** The allocation loop of fat_touch *)

Lemma fat12_num_clusters fs : fat_bits fs = 12 -> fat_num_clusters fs < 4085.
Proof.
  unfold fat_bits. destruct (Z.ltb_spec (fat_num_clusters fs) 4085); [done|].
  destruct (fat_num_clusters fs <? 65525); discriminate.
Qed.

(** With enough free entries and fuel the loop allocates [rounds C size]
    clusters behind [cur]; they were free, and no entry off the chain
    changes. *)
Lemma touch_loop_spec C :
  0 < C ->
  forall fuel fs cur size pre head,
    fat12_volume fs -> fat_clustersize fs = C ->
    rounds C size <= Z.of_nat fuel ->
    avail fs (Z.to_nat (rounds C size)) ->
    chain fs head (pre ++ [cur]) ->
    fat_read_fat fs cur = Some FAT_END ->
    Forall (fun x => 3 <= x < fat_num_clusters fs) (pre ++ [cur]) ->
    exists fs' new,
      touch_loop fs fuel cur size = Some fs' /\
      fat12_volume fs' /\ fs_bpb fs' = fs_bpb fs /\
      fs_inodes fs' = fs_inodes fs /\ fs_next fs' = fs_next fs /\
      Z.of_nat (length new) = rounds C size /\
      chain fs' head (pre ++ cur :: new) /\
      Forall (is_free fs) new /\
      (forall m, 0 <= m < fat_num_clusters fs -> m <> cur -> m ∉ new ->
         fat_read_fat fs' m = fat_read_fat fs m) /\
      exists z, last (cur :: new) = Some z /\ fat_read_fat fs' z = Some FAT_END.
Proof.
  intros HC. induction fuel as [|fuel IH]; intros fs cur size pre head Hvol HCs Hfuel Hav Hch Hend Hall.
  - assert (Hsz : rounds C size = 0).
    { unfold rounds in *. destruct (Z.gtb_spec size 0); [|done]. zlia. }
    assert (Hle : ~ 0 < size).
    { intros Hp. unfold rounds in Hsz. destruct (Z.gtb_spec size 0); [|lia]. zlia. }
    exists fs, []. simpl. destruct (Z.gtb_spec size 0); [lia|].
    rewrite Hsz. split_and!; try done. exists cur. split; [reflexivity|done].
  - simpl. destruct (Z.gtb_spec size 0) as [Hpos|Hle].
    2:{ exists fs, [].
        assert (rounds C size = 0) as ->
          by (unfold rounds; destruct (Z.gtb_spec size 0); [lia|done]).
        split_and!; try done. exists cur. split; [reflexivity|done]. }
    assert (Hrd : 1 <= rounds C size).
    { unfold rounds. destruct (Z.gtb_spec size 0); [|lia]. zlia. }
    set (size' := if fat_clustersize fs >? size then 0 else size - fat_clustersize fs).
    assert (Hrd' : rounds C size' = rounds C size - 1).
    { unfold size', rounds. rewrite HCs.
      destruct (Z.gtb_spec size 0); [|lia].
      destruct (Z.gtb_spec C size).
      - simpl. replace (size + C - 1) with (size - 1 + 1 * C) by lia.
        rewrite Z.div_add by lia. rewrite Z.div_small by lia. lia.
      - destruct (Z.gtb_spec (size - C) 0).
        + replace (size - C + C - 1) with (size + C - 1 + (-1) * C) by lia.
          rewrite Z.div_add by lia. lia.
        + assert (size = C) by lia. subst size.
          replace (C + C - 1) with (C - 1 + 1 * C) by lia.
          rewrite Z.div_add by lia. rewrite Z.div_small by lia. lia. }
    replace (Z.to_nat (rounds C size)) with (S (Z.to_nat (rounds C size'))) in Hav by lia.
    pose proof (fat12_num_clusters fs (proj1 Hvol)) as HN.
    destruct (avail_find_free fs _ (volume_readable fs Hvol) Hav) as (j & Ej & Hj & Hjz).
    rewrite Ej. simpl.
    assert (Hcur : 3 <= cur < fat_num_clusters fs).
    { apply Forall_app in Hall as [_ Hc]. by apply Forall_cons in Hc as [? _]. }
    assert (Hne : j <> cur).
    { intros ->. rewrite Hend in Hjz. discriminate. }
    destruct (volume_write fs cur j Hvol) as (fs1 & E1 & Hvol1 & Hb1 & Hi1 & Hn1 & Hp1 & HN1 & Hr1 & Hf1);
      [lia|lia|].
    rewrite E1. simpl. rewrite Hr1. simpl.
    destruct (volume_write fs1 j FAT_END Hvol1) as (fs2 & E2 & Hvol2 & Hb2 & Hi2 & Hn2 & Hp2 & HN2 & Hr2 & Hf2);
      [lia|unfold FAT_END; lia|].
    rewrite E2. simpl.
    assert (Hav1 : avail fs1 (S (Z.to_nat (rounds C size')))).
    { eapply (avail_write_used fs fs1 cur); eauto. rewrite Hend. discriminate. }
    assert (Hav2 : avail fs2 (Z.to_nat (rounds C size'))).
    { eapply (avail_write_free fs1 fs2 j); eauto. }
    assert (Hch2 : chain fs2 head (pre ++ [cur; j])).
    { apply (chain_append fs fs2 cur j); try done.
      - intros m Hm Hm1 Hm2. rewrite Hf2 by lia. apply Hf1; [lia|done].
      - rewrite Hf2 by lia. done.
      - unfold FAT_END. lia. }
    destruct (IH fs2 j size' (pre ++ [cur]) head)
      as (fs' & new & El & Hvol' & Hb' & Hi' & Hn' & Hlen & Hch' & Hfr & Hframe & z & Hz & Hzr).
    + done.
    + unfold fat_clustersize in *. rewrite Hb2, Hb1. done.
    + lia.
    + done.
    + by rewrite <- app_assoc.
    + done.
    + rewrite HN2, HN1. rewrite <- app_assoc. simpl.
      apply Forall_app. split.
      * apply Forall_app in Hall as [Hpre _]. done.
      * repeat constructor; lia.
    + assert (Hr2cur : fat_read_fat fs2 cur = Some j) by (rewrite Hf2 by lia; done).
      exists fs', (j :: new). split; [exact El|]. split; [done|].
      split; [congruence|]. split; [congruence|]. split; [congruence|].
      split; [simpl length; lia|]. split.
      { rewrite <- app_assoc in Hch'. exact Hch'. }
      split.
      { constructor; [split; done|].
        eapply Forall_impl; [exact Hfr|]. intros x [Hx Hxz].
        rewrite HN2, HN1 in Hx. split; [done|].
        assert (x <> j) by (intros ->; rewrite Hr2 in Hxz; discriminate).
        assert (x <> cur).
        { intros ->. rewrite Hr2cur in Hxz. injection Hxz as ->. lia. }
        rewrite <- Hf1 by lia. rewrite <- Hf2 by lia. done. }
      split.
      { intros m Hm Hmc Hmn. apply not_elem_of_cons in Hmn as [Hmj Hmn].
        rewrite Hframe; [|lia|done|done].
        rewrite Hf2 by lia. apply Hf1; [lia|done]. }
      exists z. split; [|done]. by rewrite last_cons_cons.
Qed.

Lemma int32_small z : - 2 ^ 31 <= z < 2 ^ 31 -> int32 z = z.
Proof.
  intros H. unfold int32, wrap.
  destruct (Z.ltb_spec (z mod 2 ^ 32) (2 ^ 31)); zlia.
Qed.

Lemma u32_small z : 0 <= z < 2 ^ 32 -> u32 z = z.
Proof. intros H. unfold u32, wrap. by apply Z.mod_small. Qed.

(** ** Copies between buffers *)

Lemma store_bytes_spec m a bs :
  0 <= a -> a + Z.of_nat (length bs) <= Z.of_nat (length m) ->
  exists m', store_bytes m a bs = Some m' /\ length m' = length m /\
    forall b, load8 m' b =
      if (a <=? b) && (b <? a + Z.of_nat (length bs))
      then bs !! Z.to_nat (b - a) else load8 m b.
Proof.
  intros Ha Hlen. unfold store_bytes.
  destruct (Z.leb_spec 0 a); [|lia].
  destruct (Z.leb_spec (a + Z.of_nat (length bs)) (Z.of_nat (length m))); [|lia].
  simpl. eexists; split; [reflexivity|]. split.
  - rewrite !length_app, length_take, length_drop. lia.
  - intros b. unfold load8. destruct (Z.leb_spec 0 b) as [Hb|Hb].
    + destruct (Z.leb_spec a b) as [Hab|Hab]; simpl.
      * destruct (Z.ltb_spec b (a + Z.of_nat (length bs))) as [Hlt|Hge].
        -- rewrite lookup_app_r by (rewrite length_take; lia).
           rewrite length_take. rewrite lookup_app_l by lia.
           f_equal. lia.
        -- rewrite lookup_app_r by (rewrite length_take; lia).
           rewrite length_take. rewrite lookup_app_r by lia.
           rewrite lookup_drop. f_equal. lia.
      * rewrite lookup_app_l by (rewrite length_take; lia).
        rewrite lookup_take_lt by lia. done.
    + destruct (Z.leb_spec a b); [lia|]. done.
Qed.

Lemma load_bytes_spec m a n :
  0 <= a -> 0 <= n -> a + n <= Z.of_nat (length m) ->
  exists bs, load_bytes m a n = Some bs /\ Z.of_nat (length bs) = n /\
    forall x, (x < Z.to_nat n)%nat -> bs !! x = load8 m (a + Z.of_nat x).
Proof.
  intros Ha Hn Hlen. unfold load_bytes.
  destruct (Z.leb_spec 0 a); [|lia]. destruct (Z.leb_spec 0 n); [|lia].
  destruct (Z.leb_spec (a + n) (Z.of_nat (length m))); [|lia].
  simpl. eexists; split; [reflexivity|]. split.
  - rewrite length_take, length_drop. lia.
  - intros x Hx. rewrite lookup_take_lt by lia. rewrite lookup_drop.
    rewrite load8_lookup by lia. f_equal. lia.
Qed.

Lemma load8_sc buffer x :
  0 <= x < Z.of_nat (length buffer) -> load8 buffer x = Some (sc buffer x).
Proof.
  intros H. unfold sc. destruct (load8_in_range buffer x H) as [b ->]. done.
Qed.

(** ** Long-name entries, byte by byte *)

(** The 32 bytes of an entry after the body of the loop has run on it. *)
Lemma write_ln_entry_spec buf ln buffer sum num k :
  0 <= ln -> ln + 32 <= Z.of_nat (length buf) ->
  0 <= k -> k + 26 <= Z.of_nat (length buffer) ->
  exists buf', write_ln_entry buf ln buffer sum num k = Some buf' /\
    length buf' = length buf /\
    forall b, load8 buf' b =
      if (ln <=? b) && (b <? ln + 32)
      then Some (ln_byte buffer sum num k (b - ln) (sc buf b))
      else load8 buf b.
Proof.
  intros Hln Hlen Hk Hsc. unfold write_ln_entry.
  unfold ln_attrib, ln_num, ln_name1, ln_name2, ln_name3, ln_entry_type, ln_checksum.
  destruct (store8_spec buf (ln + 11) FAT_DIR_LONGNAME) as (b1 & E1 & L1 & S1); [lia|].
  rewrite E1. cbn [mbind option_bind].
  destruct (store8_spec b1 (ln + 0) num) as (b2 & E2 & L2 & S2); [lia|].
  rewrite E2. cbn [mbind option_bind].
  destruct (load_bytes_spec buffer k 10) as (n1 & En1 & Ln1 & Sn1); [lia..|].
  rewrite En1. cbn [mbind option_bind].
  destruct (store_bytes_spec b2 (ln + 1) n1) as (b3 & E3 & L3 & S3); [lia..|].
  rewrite E3. cbn [mbind option_bind].
  destruct (load_bytes_spec buffer (k + 10) 12) as (n2 & En2 & Ln2 & Sn2); [lia..|].
  rewrite En2. cbn [mbind option_bind].
  destruct (store_bytes_spec b3 (ln + 14) n2) as (b4 & E4 & L4 & S4); [lia..|].
  rewrite E4. cbn [mbind option_bind].
  destruct (load_bytes_spec buffer (k + 22) 4) as (n3 & En3 & Ln3 & Sn3); [lia..|].
  rewrite En3. cbn [mbind option_bind].
  destruct (store_bytes_spec b4 (ln + 28) n3) as (b5 & E5 & L5 & S5); [lia..|].
  rewrite E5. cbn [mbind option_bind].
  destruct (store8_spec b5 (ln + 12) 0) as (b6 & E6 & L6 & S6); [lia|].
  rewrite E6. cbn [mbind option_bind].
  destruct (store8_spec b6 (ln + 13) sum) as (b7 & E7 & L7 & S7); [lia|].
  rewrite E7. exists b7. split; [done|]. split; [congruence|].
  intros b. rewrite S7, S6, S5, S4, S3, S2, S1. rewrite Ln1, Ln2, Ln3.
  unfold ln_byte.
  destruct (Z.leb_spec ln b) as [Hb1|Hb1]; simpl.
  2:{ repeat match goal with
        | |- context [?x =? ?y] => destruct (Z.eqb_spec x y); [lia|]
        | |- context [?x <=? ?y] => destruct (Z.leb_spec x y); [lia|]
        end; simpl; done. }
  destruct (Z.ltb_spec b (ln + 32)) as [Hb2|Hb2].
  2:{ repeat match goal with
        | |- context [?x =? ?y] => destruct (Z.eqb_spec x y); [lia|]
        | |- context [(?x <=? ?y) && (?u <? ?v)] =>
            destruct (Z.ltb_spec u v); [lia|]; rewrite andb_false_r
        end; done. }
  destruct (Z.eqb_spec b (ln + 13)) as [->|N13].
  { replace (ln + 13 - ln) with 13 by lia. reflexivity. }
  destruct (Z.eqb_spec b (ln + 12)) as [->|N12].
  { replace (ln + 12 - ln) with 12 by lia. reflexivity. }
  destruct (Z.leb_spec (ln + 28) b) as [H28|H28]; simpl.
  { destruct (Z.ltb_spec b (ln + 28 + 4)); [|lia].
    rewrite Sn3 by lia. rewrite load8_sc by lia.
    destruct (Z.eqb_spec (b - ln) 0); [lia|].
    destruct (Z.ltb_spec (b - ln) 11); [lia|].
    destruct (Z.eqb_spec (b - ln) 11); [lia|].
    destruct (Z.eqb_spec (b - ln) 12); [lia|].
    destruct (Z.eqb_spec (b - ln) 13); [lia|].
    destruct (Z.ltb_spec (b - ln) 26); [lia|].
    destruct (Z.ltb_spec (b - ln) 28); [lia|].
    do 2 f_equal. lia. }
  destruct (Z.leb_spec (ln + 14) b) as [H14|H14]; simpl.
  { destruct (Z.ltb_spec b (ln + 14 + 12)) as [H26|H26].
    - rewrite Sn2 by lia. rewrite load8_sc by lia.
      destruct (Z.eqb_spec (b - ln) 0); [lia|].
      destruct (Z.ltb_spec (b - ln) 11); [lia|].
      destruct (Z.eqb_spec (b - ln) 11); [lia|].
      destruct (Z.eqb_spec (b - ln) 12); [lia|].
      destruct (Z.eqb_spec (b - ln) 13); [lia|].
      destruct (Z.ltb_spec (b - ln) 26); [|lia].
      do 2 f_equal. lia.
    - destruct (Z.leb_spec (ln + 1) b); [|lia]. simpl.
      destruct (Z.ltb_spec b (ln + 1 + 10)); [lia|].
      destruct (Z.eqb_spec b (ln + 0)); [lia|].
      destruct (Z.eqb_spec b (ln + 11)); [lia|].
      destruct (Z.eqb_spec (b - ln) 0); [lia|].
      destruct (Z.ltb_spec (b - ln) 11); [lia|].
      destruct (Z.eqb_spec (b - ln) 11); [lia|].
      destruct (Z.eqb_spec (b - ln) 12); [lia|].
      destruct (Z.eqb_spec (b - ln) 13); [lia|].
      destruct (Z.ltb_spec (b - ln) 26); [lia|].
      destruct (Z.ltb_spec (b - ln) 28); [|lia].
      rewrite load8_sc by lia. done. }
  destruct (Z.leb_spec (ln + 1) b) as [H1|H1]; simpl.
  { destruct (Z.ltb_spec b (ln + 1 + 10)) as [H11|H11].
    - rewrite Sn1 by lia. rewrite load8_sc by lia.
      destruct (Z.eqb_spec (b - ln) 0); [lia|].
      destruct (Z.ltb_spec (b - ln) 11); [|lia].
      do 2 f_equal. lia.
    - assert (b = ln + 11) as -> by lia.
      destruct (Z.eqb_spec (ln + 11) (ln + 0)); [lia|].
      rewrite Z.eqb_refl. replace (ln + 11 - ln) with 11 by lia. reflexivity. }
  assert (b = ln) as -> by lia.
  replace (ln + 0) with ln by lia. rewrite Z.eqb_refl.
  replace (ln - ln) with 0 by lia. reflexivity.
Qed.

(** The bytes of the [i] entries the loop writes: entry [t] carries
    sequence number [j + (i - 1 - t)] and the scratch bytes at
    [k + 26 * (i - 1 - t)]. *)
Lemma longname_loop_spec buffer sum de :
  0 <= de ->
  forall i buf j k,
    de + 32 * Z.of_nat i <= Z.of_nat (length buf) ->
    0 <= k -> k + 26 * Z.of_nat i <= Z.of_nat (length buffer) ->
    exists buf', longname_loop buf de buffer sum i j k = Some buf' /\
      length buf' = length buf /\
      forall b, load8 buf' b =
        if (de <=? b) && (b <? de + 32 * Z.of_nat i)
        then Some (ln_byte buffer sum
                     (u8 (j + (Z.of_nat i - 1 - (b - de) / 32)))
                     (k + 26 * (Z.of_nat i - 1 - (b - de) / 32))
                     ((b - de) mod 32) (sc buf b))
        else load8 buf b.
Proof.
  intros Hde. induction i as [|i IH]; intros buf j k Hlen Hk Hsc.
  - exists buf. split; [done|]. split; [done|]. intros b.
    destruct (Z.leb_spec de b), (Z.ltb_spec b (de + 32 * Z.of_nat 0)); simpl; try done; lia.
  - cbn [longname_loop].
    destruct (write_ln_entry_spec buf (de + 32 * Z.of_nat i) buffer sum (u8 j) k)
      as (buf1 & E1 & L1 & S1); [lia..|].
    rewrite E1. cbn [mbind option_bind].
    destruct (IH buf1 (j + 1) (k + 26)) as (buf' & E' & L' & S'); [lia..|].
    rewrite E'. exists buf'. split; [done|]. split; [congruence|].
    intros b. rewrite S'.
    destruct (Z.leb_spec de b) as [Hb|Hb]; simpl.
    + destruct (Z.ltb_spec b (de + 32 * Z.of_nat i)) as [Hlo|Hhi].
      * destruct (Z.ltb_spec b (de + 32 * Z.of_nat (S i))); [|lia].
        assert (Hsame : sc buf1 b = sc buf b).
        { unfold sc. rewrite S1.
          destruct (Z.leb_spec (de + 32 * Z.of_nat i) b); [lia|]. done. }
        rewrite Hsame. do 2 f_equal; [f_equal|]; lia.
      * rewrite S1. destruct (Z.leb_spec (de + 32 * Z.of_nat i) b); [|lia]. simpl.
        destruct (Z.ltb_spec b (de + 32 * Z.of_nat i + 32)) as [Hin|Hout].
        -- destruct (Z.ltb_spec b (de + 32 * Z.of_nat (S i))); [|lia].
           assert (Ht : (b - de) / 32 = Z.of_nat i) by zlia.
           assert (Ho : (b - de) mod 32 = b - (de + 32 * Z.of_nat i)) by zlia.
           rewrite Ht, Ho. do 2 f_equal; [f_equal|]; lia.
        -- destruct (Z.ltb_spec b (de + 32 * Z.of_nat (S i))); [lia|]. done.
    + rewrite S1. destruct (Z.leb_spec (de + 32 * Z.of_nat i) b); [lia|]. done.
Qed.

(** ** What fat_write_longname leaves in the directory buffer *)

Lemma length_utf16_loop name : forall buffer j,
  length (utf16_loop name buffer j) = length buffer.
Proof.
  induction name as [|c r IH]; intros buffer j; simpl; [done|].
  rewrite IH. apply length_insert.
Qed.

Lemma length_fill_ff buffer j : length (fill_ff buffer j) = length buffer.
Proof. unfold fill_ff. rewrite length_app, length_take, length_replicate. lia. Qed.

Lemma strlen_nonneg name : 0 <= strlen name.
Proof. unfold strlen. lia. Qed.

Lemma longname_entries_ceil name : longname_entries name = (strlen name + 12) / 13.
Proof.
  unfold longname_entries. pose proof (strlen_nonneg name).
  destruct (Z.eqb_spec (strlen name mod 13) 0); simpl; zlia.
Qed.

Lemma length_scratch name :
  Z.of_nat (length (scratch name)) = 26 * longname_entries name.
Proof.
  unfold scratch. rewrite length_fill_ff, length_utf16_loop. unfold calloc.
  rewrite length_replicate. rewrite longname_entries_ceil.
  pose proof (strlen_nonneg name). zlia.
Qed.

Lemma fat_write_longname_spec buf de name :
  1 <= strlen name -> 0 <= de ->
  de + 32 * longname_entries name <= Z.of_nat (length buf) ->
  exists buf',
    fat_write_longname buf de name = Some (buf', de + 32 * longname_entries name) /\
    length buf' = length buf /\
    forall b, load8 buf' b =
      if (de <=? b) && (b <? de + 32 * longname_entries name)
      then Some (if b =? de then Z.lor (u8 (longname_entries name)) 0x40
                 else ln_byte (scratch name)
                        (fat_checksum (fat_make_shortname name))
                        (u8 (longname_entries name - (b - de) / 32))
                        (26 * (longname_entries name - 1 - (b - de) / 32))
                        ((b - de) mod 32) (sc buf b))
      else load8 buf b.
Proof.
  intros HL Hde Hlen. unfold fat_write_longname. fold (scratch name).
  set (E := longname_entries name) in *.
  assert (HE : 1 <= E) by (unfold E; rewrite longname_entries_ceil; zlia).
  destruct (longname_loop_spec (scratch name) (fat_checksum (fat_make_shortname name))
              de Hde (Z.to_nat E) buf 1 0) as (buf1 & E1 & L1 & S1).
  { lia. } { lia. } { rewrite length_scratch. fold E. lia. }
  rewrite E1. cbn [mbind option_bind]. unfold ln_num.
  replace (de + 0) with de by lia.
  assert (Hnum : load8 buf1 de = Some (u8 E)).
  { rewrite S1. destruct (Z.leb_spec de de); [|lia].
    destruct (Z.ltb_spec de (de + 32 * Z.of_nat (Z.to_nat E))); [|lia]. simpl.
    replace (de - de) with 0 by lia. simpl. f_equal. unfold ln_byte. simpl.
    f_equal. change (0 / 32) with 0. lia. }
  rewrite Hnum. cbn [mbind option_bind].
  destruct (store8_spec buf1 de (Z.lor (u8 E) 64)) as (buf2 & E2 & L2 & S2); [lia|].
  rewrite E2. cbn [mbind option_bind]. exists buf2. split; [done|]. split; [congruence|].
  intros b. rewrite S2, S1. rewrite Z2Nat.id by lia.
  destruct (Z.eqb_spec b de) as [->|Hne].
  - destruct (Z.leb_spec de de); [|lia].
    destruct (Z.ltb_spec de (de + 32 * E)); [|lia]. done.
  - destruct ((de <=? b) && (b <? de + 32 * E)); [|done].
    f_equal. f_equal; try f_equal; lia.
Qed.

(** Sequence bytes, attributes and checksums of the block. *)
Lemma written_block_fields buf de name :
  1 <= strlen name -> 0 <= de ->
  de + 32 * longname_entries name <= Z.of_nat (length buf) ->
  longname_entries name = (strlen name + 12) / 13 /\
  exists buf',
    fat_write_longname buf de name = Some (buf', de + 32 * longname_entries name) /\
    load8 buf' (de + ln_num) = Some (Z.lor (u8 (longname_entries name)) 0x40) /\
    (longname_entries name <= 255 ->
     load8 buf' (de + ln_num) = Some (Z.lor (longname_entries name) 0x40)) /\
    (2 <= longname_entries name ->
     load8 buf' (de + 32 * (longname_entries name - 1) + ln_num) = Some 1) /\
    forall t, 0 <= t < longname_entries name ->
      load8 buf' (de + 32 * t + ln_attrib) = Some FAT_DIR_LONGNAME /\
      load8 buf' (de + 32 * t + ln_checksum)
        = Some (fat_checksum (fat_make_shortname name)).
Proof.
  intros HL Hde Hlen. split; [apply longname_entries_ceil|].
  destruct (fat_write_longname_spec buf de name HL Hde Hlen) as (buf' & Ew & Lb & Sb).
  set (E := longname_entries name) in *.
  assert (HE : 1 <= E) by (unfold E; rewrite longname_entries_ceil; zlia).
  exists buf'. split; [done|]. unfold ln_num, ln_attrib, ln_checksum.
  assert (H0 : load8 buf' (de + 0) = Some (Z.lor (u8 E) 64)).
  { rewrite Sb. destruct (Z.leb_spec de (de + 0)); [|lia].
    destruct (Z.ltb_spec (de + 0) (de + 32 * E)); [|lia]. simpl.
    destruct (Z.eqb_spec (de + 0) de); [done|lia]. }
  split; [done|]. split.
  { intros H255. rewrite H0. unfold u8, wrap. rewrite Z.mod_small by lia. done. }
  split.
  { intros H2. rewrite Sb.
    destruct (Z.leb_spec de (de + 32 * (E - 1) + 0)); [|lia].
    destruct (Z.ltb_spec (de + 32 * (E - 1) + 0) (de + 32 * E)); [|lia]. simpl.
    destruct (Z.eqb_spec (de + 32 * (E - 1) + 0) de); [lia|].
    replace (de + 32 * (E - 1) + 0 - de) with ((E - 1) * 32) by lia.
    rewrite Z.div_mul, Z.mod_mul by lia. unfold ln_byte. simpl.
    replace (E - (E - 1)) with 1 by lia. done. }
  intros t Ht. split.
  - rewrite Sb.
    destruct (Z.leb_spec de (de + 32 * t + 11)); [|lia].
    destruct (Z.ltb_spec (de + 32 * t + 11) (de + 32 * E)); [|lia]. simpl.
    destruct (Z.eqb_spec (de + 32 * t + 11) de); [lia|].
    replace (de + 32 * t + 11 - de) with (11 + t * 32) by lia.
    rewrite Z.mod_add by lia. done.
  - rewrite Sb.
    destruct (Z.leb_spec de (de + 32 * t + 13)); [|lia].
    destruct (Z.ltb_spec (de + 32 * t + 13) (de + 32 * E)); [|lia]. simpl.
    destruct (Z.eqb_spec (de + 32 * t + 13) de); [lia|].
    replace (de + 32 * t + 13 - de) with (13 + t * 32) by lia.
    rewrite Z.mod_add by lia. done.
Qed.

(** ** Reading a block back *)

(** The 13 characters [fat_read_longname] takes from entry [t]. *)
Lemma ln_chars_written buf de name buf' t :
  1 <= strlen name -> 0 <= de ->
  de + 32 * longname_entries name <= Z.of_nat (length buf) ->
  fat_write_longname buf de name = Some (buf', de + 32 * longname_entries name) ->
  0 <= t < longname_entries name ->
  ln_chars buf' (de + 32 * t) = Some (evens name (13 * (longname_entries name - 1 - t)) 13).
Proof.
  intros HL Hde Hlen Hw Ht.
  destruct (fat_write_longname_spec buf de name HL Hde Hlen) as (buf2 & Ew & Lb & Sb).
  rewrite Ew in Hw. injection Hw as <-.
  set (E := longname_entries name) in *.
  assert (Hb : forall o, 1 <= o < 32 ->
            load8 buf2 (de + 32 * t + o) =
            Some (ln_byte (scratch name) (fat_checksum (fat_make_shortname name))
                    (u8 (E - t)) (26 * (E - 1 - t)) o (sc buf (de + 32 * t + o)))).
  { intros o Ho. rewrite Sb.
    destruct (Z.leb_spec de (de + 32 * t + o)); [|lia].
    destruct (Z.ltb_spec (de + 32 * t + o) (de + 32 * E)); [|lia]. simpl.
    destruct (Z.eqb_spec (de + 32 * t + o) de); [lia|].
    replace (de + 32 * t + o - de) with (o + t * 32) by lia.
    rewrite Z.div_add, Z.mod_add by lia.
    rewrite Z.div_small, Z.mod_small by lia.
    replace (0 + t) with t by lia. done. }
  unfold ln_chars, ln_name1, ln_name2, ln_name3. cbn [mapM].
  change (1 + 2) with 3. change (1 + 4) with 5. change (1 + 6) with 7.
  change (1 + 8) with 9. change (14 + 2) with 16. change (14 + 4) with 18.
  change (14 + 6) with 20. change (14 + 8) with 22. change (14 + 10) with 24.
  change (28 + 2) with 30.
  rewrite !Hb by lia. cbn [mbind option_bind mret option_ret].
  unfold evens. f_equal.
  change 13 with (Z.of_nat 13) at 2.
  rewrite !seqZ_S. change (seqZ (13 * (E - 1 - t)) (Z.of_nat 0)) with (@nil Z).
  cbn [app map]. unfold ln_byte.
  cbn [Z.eqb Z.ltb Z.compare Pos.compare Pos.compare_cont Pos.eqb].
  repeat (f_equal; [f_equal; lia|]). do 2 f_equal. lia.
Qed.

Lemma read_longname_loop_written buf de name buf' :
  1 <= strlen name -> 0 <= de ->
  de + 32 * longname_entries name <= Z.of_nat (length buf) ->
  fat_write_longname buf de name = Some (buf', de + 32 * longname_entries name) ->
  forall j, Z.of_nat j <= longname_entries name ->
    read_longname_loop buf' de j
    = Some (evens name (13 * (longname_entries name - Z.of_nat j)) (13 * Z.of_nat j)).
Proof.
  intros HL Hde Hlen Hw. induction j as [|j IH]; intros Hj.
  - reflexivity.
  - cbn [read_longname_loop].
    rewrite (ln_chars_written buf de name buf' (Z.of_nat j) HL Hde Hlen Hw) by lia.
    cbn [mbind option_bind]. rewrite IH by lia. cbn [mbind option_bind].
    f_equal. unfold evens. rewrite <- map_app. f_equal.
    replace (13 * Z.of_nat (S j)) with (13 + 13 * Z.of_nat j) by lia.
    rewrite seqZ_app by lia. f_equal; f_equal; lia.
Qed.

(** ** The scratch buffer *)

Lemma utf16_loop_miss name : forall buffer j x,
  (x < j \/ j + 2 * length name <= x)%nat ->
  utf16_loop name buffer j !! x = buffer !! x.
Proof.
  induction name as [|c r IH]; intros buffer j x Hx; [done|].
  cbn [utf16_loop]. simpl length in Hx.
  rewrite IH by lia. apply list_lookup_insert_ne. lia.
Qed.

Lemma utf16_loop_hit name : forall buffer j c,
  (c < length name)%nat -> (j + 2 * length name <= length buffer + 1)%nat ->
  utf16_loop name buffer j !! (j + 2 * c)%nat = name !! c.
Proof.
  induction name as [|a r IH]; intros buffer j c Hc Hlen; simpl length in *; [lia|].
  cbn [utf16_loop]. destruct c as [|c].
  - rewrite utf16_loop_miss by lia. replace (j + 2 * 0)%nat with j by lia.
    rewrite list_lookup_insert_eq by lia. done.
  - replace (j + 2 * S c)%nat with (j + 2 + 2 * c)%nat by lia.
    rewrite IH; [done|lia|]. rewrite length_insert. lia.
Qed.

(** ** C strings *)

Lemma cstring_no_nul name : Forall (fun c => 1 <= c <= 255) name -> cstring name = name.
Proof.
  induction 1 as [|c r Hc _ IH]; [done|]. simpl.
  destruct (Z.eqb_spec c 0); [lia|]. by rewrite IH.
Qed.

Lemma cstring_app_nul name rest :
  Forall (fun c => 1 <= c <= 255) name -> cstring (name ++ 0 :: rest) = name.
Proof.
  induction 1 as [|c r Hc _ IH]; [done|]. simpl.
  destruct (Z.eqb_spec c 0); [lia|]. by rewrite IH.
Qed.

(** The even bytes of the scratch buffer are the characters of the name,
    followed by a NUL when there is room. *)
Lemma sc_scratch_name name c :
  Forall (fun c => 1 <= c <= 255) name ->
  (c < length name)%nat ->
  Some (sc (scratch name) (2 * Z.of_nat c)) = name !! c.
Proof.
  intros Hn Hc. pose proof (length_scratch name) as Hls.
  assert (HL : strlen name = Z.of_nat (length name))
    by (unfold strlen; by rewrite cstring_no_nul).
  rewrite longname_entries_ceil, HL in Hls.
  rewrite <- load8_sc by zlia.
  rewrite load8_lookup by lia. unfold scratch, fill_ff.
  rewrite lookup_app_l by (rewrite length_take, length_utf16_loop; unfold calloc;
    rewrite length_replicate, longname_entries_ceil, HL; zlia).
  rewrite lookup_take_lt by lia.
  rewrite cstring_no_nul by done.
  replace (Z.to_nat (2 * Z.of_nat c)) with (0 + 2 * c)%nat by lia.
  apply utf16_loop_hit; [done|]. unfold calloc. rewrite length_replicate.
  rewrite longname_entries_ceil, HL. zlia.
Qed.

Lemma sc_scratch_nul name :
  Forall (fun c => 1 <= c <= 255) name ->
  Z.of_nat (length name) < 13 * longname_entries name ->
  sc (scratch name) (2 * Z.of_nat (length name)) = 0.
Proof.
  intros Hn Hc.
  assert (HL : strlen name = Z.of_nat (length name))
    by (unfold strlen; by rewrite cstring_no_nul).
  unfold sc. rewrite load8_lookup by lia. unfold scratch, fill_ff.
  rewrite lookup_app_l by (rewrite length_take, length_utf16_loop; unfold calloc;
    rewrite length_replicate, HL; lia).
  rewrite lookup_take_lt by lia.
  rewrite cstring_no_nul by done.
  rewrite utf16_loop_miss by lia.
  unfold calloc. rewrite lookup_replicate_2 by lia. done.
Qed.

Lemma evens_name name :
  Forall (fun c => 1 <= c <= 255) name ->
  evens name 0 (Z.of_nat (length name)) = name.
Proof.
  intros Hn. apply list_eq. intros i. unfold evens.
  rewrite list_lookup_fmap.
  destruct (decide (i < length name)%nat) as [Hi|Hi].
  - rewrite lookup_seqZ_lt by lia. simpl. replace (0 + Z.of_nat i) with (Z.of_nat i) by lia.
    by apply sc_scratch_name.
  - rewrite lookup_seqZ_ge by lia. simpl. symmetry. apply lookup_ge_None. lia.
Qed.

Lemma cstring_evens name :
  Forall (fun c => 1 <= c <= 255) name ->
  cstring (evens name 0 (13 * longname_entries name) ++ [0]) = name.
Proof.
  intros Hn.
  assert (HL : strlen name = Z.of_nat (length name))
    by (unfold strlen; by rewrite cstring_no_nul).
  assert (HE : Z.of_nat (length name) <= 13 * longname_entries name)
    by (rewrite longname_entries_ceil, HL; zlia).
  replace (13 * longname_entries name)
    with (Z.of_nat (length name) + (13 * longname_entries name - Z.of_nat (length name)))
    by lia.
  unfold evens. rewrite seqZ_app by lia. rewrite map_app.
  fold (evens name 0 (Z.of_nat (length name))). rewrite evens_name by done.
  rewrite <- app_assoc.
  destruct (Z.eq_dec (13 * longname_entries name) (Z.of_nat (length name))) as [E|E].
  - rewrite E. replace (Z.of_nat (length name) - Z.of_nat (length name)) with 0 by lia.
    simpl. by apply cstring_app_nul.
  - rewrite seqZ_cons by lia. cbn [map app].
    replace (0 + Z.of_nat (length name)) with (Z.of_nat (length name)) by lia.
    rewrite sc_scratch_nul by (done || lia). by apply cstring_app_nul.
Qed.

(** Bit 0x40 and the 5-bit count of the first sequence byte. *)
Lemma seq_byte_bits E :
  1 <= E <= 31 ->
  (Z.land (Z.lor (u8 E) 0x40) 0x40 =? 0) = false /\
  Z.land (Z.lor (u8 E) 0x40) 0x1F = E.
Proof.
  intros HE.
  assert (H : exists n : nat, E = Z.of_nat n /\ (n < 32)%nat)
    by (exists (Z.to_nat E); lia).
  destruct H as (n & -> & Hn).
  do 32 (destruct n as [|n]; [split; reflexivity|]). lia.
Qed.

(** ** Directory operations *)

Section Dir.
Variable mktime : tm -> Z.

(** A [fat_readdir] that returns null registers nothing. *)
Lemma fat_readdir_null fs dir num fs' :
  fat_readdir mktime fs dir num = Some (fs', None) -> fs' = fs.
Proof.
  unfold fat_readdir. intros H.
  repeat (run_step H; try (injection H as <-; reflexivity); try discriminate H).
Qed.

(** [fat_unlink] rejects the entries [.] and [..]. *)
Lemma fat_unlink_low fs dir num :
  num < 2 -> fat_unlink mktime fs dir num = Some (fs, 1).
Proof.
  intros Hn. unfold fat_unlink.
  destruct (dir =? 0); [done|].
  destruct (Z.ltb_spec num 2); [done|lia].
Qed.

End Dir.

(** ** What fat_write leaves alone *)

Lemma fat_writeclusters_frame fs buff b c n fs' :
  fat_writeclusters fs buff b c n = Some fs' ->
  fs_bpb fs' = fs_bpb fs /\ fs_fat fs' = fs_fat fs /\
  fs_inodes fs' = fs_inodes fs /\ fs_next fs' = fs_next fs.
Proof.
  unfold fat_writeclusters. intros H.
  destruct (n =? 0); [by injection H as <-|].
  destruct (load_bytes _ _ _); [|done]. by injection H as <-.
Qed.

Lemma write_loop_frame clusters buff stop : forall fuel fs i b fs',
  write_loop fs clusters fuel i stop b buff = Some fs' ->
  fs_bpb fs' = fs_bpb fs /\ fs_fat fs' = fs_fat fs /\
  fs_inodes fs' = fs_inodes fs /\ fs_next fs' = fs_next fs.
Proof.
  induction fuel as [|fuel IH]; intros fs i b fs' H; simpl in H.
  - destruct (i <? stop); [done|]. by injection H as <-.
  - destruct (i <? stop); [|by injection H as <-].
    destruct (clusters !! Z.to_nat i); [|done]. cbn [mbind option_bind] in H.
    destruct (fat_writeclusters fs buff b z 1) as [fs1|] eqn:E1; [|done].
    cbn [mbind option_bind] in H.
    apply IH in H. apply fat_writeclusters_frame in E1.
    destruct H as (-> & -> & -> & ->). done.
Qed.

(** Every [fat_write] that returns leaves the BPB, the FAT buffer, the
    inode list and the handle counter as they were. *)
Lemma fat_write_frame fs ino buffer len off fs' ret :
  fat_write fs ino buffer len off = Some (fs', ret) ->
  fs_bpb fs' = fs_bpb fs /\ fs_fat fs' = fs_fat fs /\
  fs_inodes fs' = fs_inodes fs /\ fs_next fs' = fs_next fs.
Proof.
  unfold fat_write. intros H.
  repeat (run_step H; try (injection H as <- <-; done); try discriminate H).
  injection H as <- <-. eapply write_loop_frame; eauto.
Qed.

(** ** Lengths returned by fat_read and fat_write *)

Lemma load_bytes_Some m a n bs :
  load_bytes m a n = Some bs ->
  0 <= a /\ 0 <= n /\ a + n <= Z.of_nat (length m) /\ Z.of_nat (length bs) = n.
Proof.
  unfold load_bytes. intros H.
  destruct (Z.leb_spec 0 a); [|done]. destruct (Z.leb_spec 0 n); [|done].
  destruct (Z.leb_spec (a + n) (Z.of_nat (length m))); [|done].
  injection H as <-. rewrite length_take, length_drop. lia.
Qed.

Lemma store_bytes_Some m a bs m' :
  store_bytes m a bs = Some m' ->
  0 <= a /\ a + Z.of_nat (length bs) <= Z.of_nat (length m) /\ length m' = length m.
Proof.
  unfold store_bytes. intros H.
  destruct (Z.leb_spec 0 a); [|done].
  destruct (Z.leb_spec (a + Z.of_nat (length bs)) (Z.of_nat (length m))); [|done].
  injection H as <-. rewrite !length_app, length_take, length_drop. lia.
Qed.

Lemma length_calloc n : length (calloc n) = Z.to_nat n.
Proof. apply length_replicate. Qed.

Lemma fat_readclusters_length fs buff b c n buff' :
  fat_readclusters fs buff b c n = Some buff' -> length buff' = length buff.
Proof.
  unfold fat_readclusters. intros H. destruct (n =? 0); [by injection H as <-|].
  destruct (partition_readblocks _ _ _); [|by injection H as <-].
  by apply store_bytes_Some in H as (_ & _ & ?).
Qed.

Lemma read_loop_length fs clusters stop : forall fuel i b buff buff',
  read_loop fs clusters fuel i stop b buff = Some buff' -> length buff' = length buff.
Proof.
  induction fuel as [|fuel IH]; intros i b buff buff' H; simpl in H.
  - destruct (i <? stop); [done|]. by injection H as <-.
  - destruct (i <? stop); [|by injection H as <-].
    destruct (clusters !! Z.to_nat i); [|done]. cbn [mbind option_bind] in H.
    destruct (fat_readclusters fs buff b z 1) as [b1|] eqn:E1; [|done].
    cbn [mbind option_bind] in H. apply IH in H.
    apply fat_readclusters_length in E1. congruence.
Qed.

(** The clamp in exact arithmetic, for an offset inside the file. *)
Lemma clamp_length_inside size len off :
  0 <= off <= size -> 0 <= len -> off + len < 2 ^ 64 ->
  clamp_length size len off = Z.min len (size - off).
Proof.
  intros Ho Hl Hs. unfold clamp_length, size_t, wrap.
  rewrite (Z.mod_small (off + len)) by lia.
  destruct (Z.gtb_spec (off + len) size).
  - rewrite Z.mod_small by lia. lia.
  - lia.
Qed.

(** A clamped length that fits a buffer comes from an offset inside the
    file. *)
Lemma clamp_length_fits size len off :
  0 <= off < 2 ^ 63 -> 0 <= len < 2 ^ 64 -> 0 <= size < 2 ^ 32 ->
  clamp_length size len off < 2 ^ 32 ->
  off <= size /\ clamp_length size len off = Z.min len (size - off).
Proof.
  intros Ho Hl Hs. unfold clamp_length, size_t, wrap.
  destruct (Z.gtb_spec ((off + len) mod 2 ^ 64) size) as [Hgt|Hle]; intros Hc.
  - destruct (Z.le_gt_cases off size) as [Hin|Hout].
    + split; [done|]. rewrite Z.mod_small in * by lia.
      destruct (Z.lt_ge_cases (off + len) (2 ^ 64)).
      * rewrite Z.mod_small in Hgt by lia. lia.
      * lia.
    + exfalso.
      replace (size - off) with (2 ^ 64 - (off - size) + (-1) * 2 ^ 64) in Hc by lia.
      rewrite Z.mod_add in Hc by lia. rewrite Z.mod_small in Hc by lia. lia.
  - destruct (Z.lt_ge_cases (off + len) (2 ^ 64)).
    + rewrite Z.mod_small in Hle by lia. lia.
    + lia.
Qed.

(** What a [fat_read] that returns has returned. *)
Lemma fat_read_result fs ino buffer len off buffer' ret :
  ino <> 0 -> len <> 0 ->
  fat_read fs ino buffer len off = Some (buffer', ret) ->
  exists inode size,
    fat_get_inode fs ino = Some inode /\
    file_size fs ino inode = Some size /\
    ret = int32 (clamp_length size len off) /\
    0 <= clamp_length size len off < 2 ^ 32 /\
    clamp_length size len off <= Z.of_nat (length buffer) /\
    length buffer' = length buffer.
Proof.
  intros Hino Hlen H. unfold fat_read in H.
  destruct (Z.eqb_spec ino 0); [done|]. destruct (Z.eqb_spec len 0); [done|].
  destruct (fat_get_inode fs ino) as [inode|] eqn:Eino; cbn [mbind option_bind] in H; [|discriminate H].
  destruct (fat_get_clusters fs ino) as [clusters|] eqn:Ecl; cbn [mbind option_bind] in H; [|discriminate H].
  destruct (file_size fs ino inode) as [size|] eqn:Esz; cbn [mbind option_bind] in H; [|discriminate H].
  destruct (fat_clustersize fs =? 0); [done|].
  destruct (read_loop _ _ _ _ _ _ _) as [buff|] eqn:Eloop; cbn [mbind option_bind] in H; [|discriminate H].
  destruct (load_bytes buff _ _) as [bs|] eqn:Eload; cbn [mbind option_bind] in H; [|discriminate H].
  destruct (store_bytes buffer 0 bs) as [b'|] eqn:Estore; cbn [mbind option_bind] in H; [|discriminate H].
  injection H as <- <-. exists inode, size.
  apply load_bytes_Some in Eload as (Ha & Hn & Hfit & Hbs).
  apply store_bytes_Some in Estore as (_ & Hst & Hl').
  apply read_loop_length in Eloop. rewrite length_calloc in Eloop.
  assert (Hu : 0 <= u32 (span_clusters fs (clamp_length size len off)
                            (u32 (off mod fat_clustersize fs)) * fat_clustersize fs) < 2 ^ 32)
    by (unfold u32, wrap; apply Z.mod_pos_bound; lia).
  repeat (split; [first [done | lia]|]). done.
Qed.

(** What a [fat_write] that returns has returned. *)
Lemma fat_write_result fs ino buffer len off fs' ret :
  ino <> 0 ->
  fat_write fs ino buffer len off = Some (fs', ret) ->
  exists inode size,
    fat_get_inode fs ino = Some inode /\
    file_size fs ino inode = Some size /\
    ret = int32 (clamp_length size len off) /\
    0 <= clamp_length size len off < 2 ^ 32 /\
    clamp_length size len off <= Z.of_nat (length buffer).
Proof.
  intros Hino H. unfold fat_write in H.
  destruct (Z.eqb_spec ino 0); [done|].
  destruct (fat_get_inode fs ino) as [inode|] eqn:Eino; cbn [mbind option_bind] in H; [|discriminate H].
  destruct (fat_get_clusters fs ino) as [clusters|] eqn:Ecl; cbn [mbind option_bind] in H; [|discriminate H].
  destruct (file_size fs ino inode) as [size|] eqn:Esz; cbn [mbind option_bind] in H; [|discriminate H].
  destruct (fat_clustersize fs =? 0) eqn:EC; [done|].
  set (nb := u32 (span_clusters fs (clamp_length size len off)
                   (u32 (off mod fat_clustersize fs)) * fat_clustersize fs)) in *.
  assert (Hn : 0 <= nb < 2 ^ 32) by (unfold nb, u32, wrap; apply Z.mod_pos_bound; lia).
  destruct (fat_read fs ino (calloc nb) nb _) as [[buff r]|] eqn:Eread; cbn [mbind option_bind fst] in H; [|discriminate H].
  destruct (load_bytes buffer 0 _) as [bs|] eqn:Eload; cbn [mbind option_bind] in H; [|discriminate H].
  destruct (store_bytes buff _ bs) as [b'|] eqn:Estore; cbn [mbind option_bind] in H; [|discriminate H].
  destruct (write_loop _ _ _ _ _ _ _) as [fs2|]; cbn [mbind option_bind] in H; [|discriminate H].
  injection H as <- <-. exists inode, size.
  apply load_bytes_Some in Eload as (Ha & Hn' & Hfit & Hbs).
  apply store_bytes_Some in Estore as (Hco & Hst & Hl').
  assert (Hbuff : length buff = length (calloc nb)).
  { destruct (Z.eq_dec nb 0) as [E0|E0].
    - unfold fat_read in Eread. rewrite E0 in Eread. rewrite E0.
      destruct (ino =? 0); [injection Eread as Hb _; by rewrite <- Hb|].
      simpl in Eread. injection Eread as Hb _. by rewrite <- Hb.
    - by destruct (fat_read_result _ _ _ _ _ _ _ Hino E0 Eread) as (_ & _ & _ & _ & _ & _ & _ & ?). }
  rewrite length_calloc in Hbuff.
  repeat (split; [first [done | lia]|]). lia.
Qed.

(** Every [fat_read] that returns was given an offset inside the file
    and has returned the length clamped to what is left of it. *)
Lemma fat_read_clamped fs ino buffer len off buffer' ret :
  ino <> 0 -> 0 < len < 2 ^ 64 -> 0 <= off < 2 ^ 63 ->
  fat_read fs ino buffer len off = Some (buffer', ret) ->
  exists inode size,
    fat_get_inode fs ino = Some inode /\
    file_size fs ino inode = Some size /\
    (0 <= size < 2 ^ 31 ->
     off <= size /\ ret = Z.min len (size - off) /\ (off = size -> ret = 0)).
Proof.
  intros Hino Hlen Hoff H.
  destruct (fat_read_result fs ino buffer len off buffer' ret Hino ltac:(lia) H)
    as (inode & size & Hi & Hs & -> & Hc & _ & _).
  exists inode, size. split; [done|]. split; [done|]. intros Hsz.
  destruct (clamp_length_fits size len off) as [Hin Hmin]; [lia..|].
  split; [done|]. rewrite Hmin. rewrite int32_small by lia.
  split; [done|]. lia.
Qed.

(** The same for [fat_write]. *)
Lemma fat_write_clamped fs ino buffer len off fs' ret :
  ino <> 0 -> 0 <= len < 2 ^ 64 -> 0 <= off < 2 ^ 63 ->
  fat_write fs ino buffer len off = Some (fs', ret) ->
  exists inode size,
    fat_get_inode fs ino = Some inode /\
    file_size fs ino inode = Some size /\
    (0 <= size < 2 ^ 31 -> off <= size /\ ret = Z.min len (size - off)).
Proof.
  intros Hino Hlen Hoff H.
  destruct (fat_write_result _ _ _ _ _ _ _ Hino H)
    as (inode & size & Hi & Hs & -> & Hc & _).
  exists inode, size. split; [done|]. split; [done|]. intros Hsz.
  destruct (clamp_length_fits size len off) as [Hin Hmin]; [lia..|].
  split; [done|]. rewrite Hmin. rewrite int32_small by lia. done.
Qed.

(** The step of [fat_checksum] rotates the 8-bit sum right by one bit
    before it adds the next byte. *)
Lemma checksum_step_rotates sum :
  0 <= sum < 256 ->
  Z.shiftl (Z.land sum 1) 7 + Z.shiftr sum 1
  = Z.lor (Z.shiftr sum 1) (Z.land (Z.shiftl sum 7) 0xFF).
Proof.
  intros H.
  assert (Hn : exists n : nat, sum = Z.of_nat n /\ (n < 256)%nat)
    by (exists (Z.to_nat sum); lia).
  destruct Hn as (n & -> & Hn).
  do 256 (destruct n as [|n]; [reflexivity|]). lia.
Qed.

(** * The properties *)

(** ** Supporting facts about the example volumes *)

Lemma fresh_fat_ok : bytes_ok fresh_fat /\ length fresh_fat = 512%nat.
Proof.
  split; [|reflexivity]. unfold fresh_fat. apply Forall_app. split.
  - repeat constructor; unfold is_byte; lia.
  - apply Forall_replicate. unfold is_byte. lia.
Qed.

Lemma example_volume spc n :
  fat_num_clusters (example_fs spc n) = n -> 0 <= n <= 300 ->
  fat12_volume (example_fs spc n).
Proof.
  intros HN Hn. split; [|split].
  - unfold fat_bits. rewrite HN. destruct (Z.ltb_spec n 4085); [done|lia].
  - unfold wf_fat. change (fs_fat (example_fs spc n)) with fresh_fat.
    split; [apply fresh_fat_ok|]. rewrite (proj2 fresh_fat_ok). lia.
  - intros j Hj. rewrite HN in Hj. unfold in_fat.
    change (fs_fat (example_fs spc n)) with fresh_fat.
    rewrite (proj2 fresh_fat_ok). zlia.
Qed.

(** ** FAT entries *)

(** C3: on a FAT12 volume, for every index [n] of the table and every
    12-bit value [v], [fat_write_fat] followed by [fat_read_fat] at [n]
    gives [v] back, and every other entry [m] of the table, the neighbour
    sharing a byte with entry [n] included, reads as before. *)
Theorem fat12_set_get fs n v :
  fat_bits fs = 12 -> wf_fat fs -> in_fat fs n -> 0 <= v < 4096 ->
  exists fs',
    fat_write_fat fs n v = Some fs' /\
    fat_read_fat fs' n = Some v /\
    forall m, in_fat fs m -> m <> n -> fat_read_fat fs' m = fat_read_fat fs m.
Proof.
  intros Hb Hwf Hn Hv.
  destruct (fat12_write_spec fs n v Hb Hwf Hn Hv) as (f & Ew & _ & _ & Rn & Rm).
  exists (set_fat fs f). auto.
Qed.

Lemma fat12_set_get_witness :
  exists fs',
    fat_write_fat (example_fs 1 5) 3 0xABC = Some fs' /\
    fat_read_fat fs' 3 = Some 0xABC /\
    forall m, in_fat (example_fs 1 5) m -> m <> 3 ->
      fat_read_fat fs' m = fat_read_fat (example_fs 1 5) m.
Proof.
  apply (fat12_set_get (example_fs 1 5) 3 0xABC).
  - reflexivity.
  - apply (example_volume 1 5); [reflexivity|lia].
  - split; [lia|vm_compute; reflexivity].
  - lia.
Defined.

(** C9, the code at an input where it departs from the claim: after two
    one-cluster files on a volume of five clusters (the data clusters 2
    to 6 of a partition of 8 sectors) the entries 5 and 6 read 0 and their
    clusters lie inside the partition, but the scan [i < fat_num_clusters]
    stops behind index 4 and [fat_find_free] returns 0, not 5. *)
Lemma find_free_misses_free_clusters :
  match fat_touch (example_fs 1 5) (reg 0) with
  | Some (fs1, _) =>
      match fat_touch fs1 (reg 0) with
      | Some (fs2, _) =>
          fat_num_clusters fs2 = 5 /\
          Z.of_nat (length (fs_p fs2)) = 8 * BLOCK_SIZE /\
          fat_read_fat fs2 3 = Some FAT_END /\ fat_read_fat fs2 4 = Some FAT_END /\
          fat_read_fat fs2 5 = Some 0 /\ fat_read_fat fs2 6 = Some 0 /\
          cluster_start fs2 5 = 6 /\ cluster_start fs2 6 = 7 /\
          cluster_in_partition fs2 5 /\ cluster_in_partition fs2 6 /\
          fat_find_free fs2 = Some 0
      | None => False
      end
  | None => False
  end.
Proof.
  vm_compute. repeat split; discriminate.
Qed.

(** ** Allocation *)



(** C2, the code at an input where it departs from the claim: after two
    one-cluster files on a volume of five clusters no index that
    [fat_find_free] scans is free and it returns 0; the next [fat_touch]
    does not fail: it returns the handle 4, appends an inode whose first
    cluster is 0 and overwrites entry 0 of the FAT ([0xFF0] before) with
    [FAT_END]. *)
Lemma touch_on_full_volume :
  match fat_touch (example_fs 1 5) (reg 0) with
  | Some (fs1, _) =>
      match fat_touch fs1 (reg 0) with
      | Some (fs2, _) =>
          fat_find_free fs2 = Some 0 /\
          match fat_touch fs2 (reg 0) with
          | Some (fs3, h) =>
              h = 4 /\ fs_next fs3 = 5 /\
              length (fs_inodes fs3) = S (length (fs_inodes fs2)) /\
              fat_get_inode fs3 h = Some (mk_inode (-1) 0 0 0 0 0 0) /\
              fat_read_fat fs2 0 = Some 0xFF0 /\
              fat_read_fat fs3 0 = Some FAT_END
          | None => False
          end
      | None => False
      end
  | None => False
  end.
Proof. vm_compute. repeat split. Qed.

(** ** Long names *)

(** C5, as the claim words it, fails for a name of one entry: the only
    entry is the first and the last one, and its sequence byte is
    [0x41], not 1. *)
Lemma longname_block_single_entry :
  ~ longname_block_claimed (calloc 64) 0 (cstr "a").
Proof.
  intros (buf' & Hw & _ & Hlast & _).
  vm_compute in Hw. injection Hw as <-.
  vm_compute in Hlast. discriminate.
Qed.

(** C5, amended: for a name of length [L >= 1], [fat_write_longname]
    writes [E = ceil(L / 13)] entries; the first on disk has sequence byte
    [(E mod 256) | 0x40], which is [E | 0x40] for [E <= 255]; for [E >= 2]
    the last on disk has sequence byte 1; every entry has attribute
    [0x0F] and the checksum of the short name [fat_make_shortname]
    gives. *)
Theorem write_longname_block buf de name :
  1 <= strlen name -> 0 <= de ->
  de + 32 * longname_entries name <= Z.of_nat (length buf) ->
  longname_entries name = (strlen name + 12) / 13 /\
  exists buf',
    fat_write_longname buf de name = Some (buf', de + 32 * longname_entries name) /\
    load8 buf' (de + ln_num) = Some (Z.lor (u8 (longname_entries name)) 0x40) /\
    (longname_entries name <= 255 ->
     load8 buf' (de + ln_num) = Some (Z.lor (longname_entries name) 0x40)) /\
    (2 <= longname_entries name ->
     load8 buf' (de + 32 * (longname_entries name - 1) + ln_num) = Some 1) /\
    forall t, 0 <= t < longname_entries name ->
      load8 buf' (de + 32 * t + ln_attrib) = Some FAT_DIR_LONGNAME /\
      load8 buf' (de + 32 * t + ln_checksum)
        = Some (fat_checksum (fat_make_shortname name)).
Proof. apply written_block_fields. Qed.

Lemma write_longname_block_witness :
  longname_entries (cstr "hello-world-name.txt") = 2 /\
  exists buf',
    fat_write_longname (calloc 96) 0 (cstr "hello-world-name.txt") = Some (buf', 64) /\
    load8 buf' 0 = Some 0x42 /\ load8 buf' 32 = Some 1.
Proof.
  destruct (write_longname_block (calloc 96) 0 (cstr "hello-world-name.txt"))
    as (HE & buf' & Hw & H0 & _ & Hlast & _).
  - vm_compute. discriminate.
  - lia.
  - vm_compute. discriminate.
  - split; [reflexivity|]. exists buf'. split; [exact Hw|]. split.
    + exact H0.
    + apply Hlast. vm_compute. discriminate.
Defined.

(** C6, as the claim words it, fails for a name of 404 characters: it
    takes 32 entries, the 5-bit count the decoder reads is 0, and the
    name read back is empty. *)
Lemma longname_roundtrip_32_entries :
  ~ longname_roundtrip_claimed (calloc 1024) 0 (replicate 404 97).
Proof.
  intros (w & arr & Hw & Hr & Hc).
  vm_compute in Hw. injection Hw as <-.
  vm_compute in Hr. injection Hr as <-.
  vm_compute in Hc. discriminate.
Qed.

(** C6, amended: for every name of 1 to 403 non-NUL 8-bit characters (up
    to 31 entries), [fat_read_longname] applied to the block
    [fat_write_longname] wrote returns a string equal to the name. *)
Theorem longname_roundtrip buf de name :
  Forall (fun c => 1 <= c <= 255) name ->
  (1 <= length name <= 403)%nat ->
  0 <= de ->
  de + 32 * longname_entries name <= Z.of_nat (length buf) ->
  exists buf' arr,
    fat_write_longname buf de name = Some (buf', de + 32 * longname_entries name) /\
    fat_read_longname buf' de = Some (Some arr) /\
    cstring arr = name.
Proof.
  intros Hn Hlen Hde Hbuf.
  assert (HL : strlen name = Z.of_nat (length name))
    by (unfold strlen; by rewrite cstring_no_nul).
  assert (HL1 : 1 <= strlen name) by lia.
  assert (HE : 1 <= longname_entries name <= 31)
    by (rewrite longname_entries_ceil, HL; zlia).
  destruct (written_block_fields buf de name HL1 Hde Hbuf)
    as (_ & buf' & Ew & Hnum & _ & _ & Hall).
  exists buf', (evens name 0 (13 * longname_entries name) ++ [0]).
  split; [done|]. split; [|by apply cstring_evens].
  unfold fat_read_longname.
  destruct (Hall 0) as [Hattr _]; [lia|].
  replace (de + 32 * 0 + ln_attrib) with (de + ln_attrib) in Hattr by lia.
  rewrite Hattr. cbn [mbind option_bind]. rewrite Z.eqb_refl. cbn [negb].
  rewrite Hnum. cbn [mbind option_bind].
  destruct (seq_byte_bits _ HE) as [Hb1 Hb2]. rewrite Hb1, Hb2.
  rewrite (read_longname_loop_written buf de name buf' HL1 Hde Hbuf Ew) by lia.
  cbn [mbind option_bind]. do 3 f_equal.
  rewrite Z2Nat.id by lia. f_equal; lia.
Qed.

Lemma longname_roundtrip_witness :
  exists buf' arr,
    fat_write_longname (calloc 96) 0 (cstr "hello-world-name.txt") = Some (buf', 64) /\
    fat_read_longname buf' 0 = Some (Some arr) /\
    cstring arr = cstr "hello-world-name.txt".
Proof.
  apply (longname_roundtrip (calloc 96) 0 (cstr "hello-world-name.txt")).
  - vm_compute. repeat constructor; discriminate.
  - simpl. lia.
  - lia.
  - vm_compute. discriminate.
Defined.

(** ** Reading and writing *)

(** C7, the code at an input where it departs from the claim: on a file
    of 600 bytes a read that crosses the end is clamped and a read at the
    end returns 0, but for a read of one byte at offset 602 the clamp
    [size - offset] wraps round to [2^64 - 2] (as an [int], -2); the copy
    of that many bytes out of the one-cluster staging buffer has no
    defined result. *)
Lemma read_past_end :
  match fat_touch (example_fs 1 5) (reg 600) with
  | Some (fs, h) =>
      fat_read fs h (calloc 10) 10 595 = Some (calloc 10, 5) /\
      fat_read fs h (calloc 10) 10 600 = Some (calloc 10, 0) /\
      clamp_length 600 1 602 = 2 ^ 64 - 2 /\
      int32 (clamp_length 600 1 602) = -2 /\
      fat_read fs h (calloc 10) 1 602 = None
  | None => False
  end.
Proof. vm_compute. repeat split. Qed.

(** C8, the code at an input where it departs from the claim: a write
    that crosses the end of a file of 600 bytes is clamped and leaves the
    FAT and the inodes alone, but a write of one byte at offset 602
    computes the length [2^64 - 2] with the same clamp as [fat_read] and
    copies that many bytes into the one-cluster staging buffer, which has
    no defined result. *)
Lemma write_past_end :
  match fat_touch (example_fs 1 5) (reg 600) with
  | Some (fs, h) =>
      match fat_write fs h [1; 2; 3] 3 598 with
      | Some (fs', ret) =>
          ret = 2 /\ fs_fat fs' = fs_fat fs /\ fs_inodes fs' = fs_inodes fs
      | None => False
      end /\
      clamp_length 600 1 602 = 2 ^ 64 - 2 /\
      fat_write fs h [1] 1 602 = None
  | None => False
  end.
Proof. vm_compute. repeat split. Qed.

(** ** Directory entries *)

(** C1, the code at an input where it departs from the claim: [fat_link]
    of an inode whose first cluster is 256 writes
    [cluster_low = 256 & 0xFF = 0] next to [cluster_high = 0]; the two
    fields no longer give the first cluster, and [fat_readdir] of the
    entry registers an inode with first cluster 0. *)
Lemma link_first_cluster_256 :
  forall gmtime mktime,
  match fat_touch (example_fs 1 300) (reg (253 * 512)) with
  | Some (fs1, _) =>
      match fat_touch fs1 (reg 10) with
      | Some (fs2, h) =>
          (ino_cluster <$> fat_get_inode fs2 h) = Some 256 /\
          match fat_link gmtime fs2 h 1 (cstr "a") with
          | Some (fs3, r) =>
              r = 0 /\
              load16 (fs_p fs3) (2 * 512 + 32 + de_cluster_high) = Some 0 /\
              load16 (fs_p fs3) (2 * 512 + 32 + de_cluster_low) = Some 0 /\
              Z.land 256 0xFFFF = 256 /\
              match fat_readdir mktime fs3 1 2 with
              | Some (fs4, Some d) =>
                  d_name d = cstr "a" /\
                  (ino_cluster <$> fat_get_inode fs4 (d_ino d)) = Some 0
              | _ => False
              end
          | None => False
          end
      | None => False
      end
  | None => False
  end.
Proof. intros gmtime mktime. vm_compute. repeat split. Qed.

(** C10: when [fat_readdir(dir, num)] finds an entry and
    [fat_readdir(target, 2)] finds nothing, [fat_rmdir] returns 0 whatever
    [fat_unlink] returns; for [num] 0 or 1 [fat_unlink] returns 1 and
    [fat_rmdir] returns 0 with the volume as it was. *)
Theorem fat_rmdir_discards_unlink (mktime : tm -> Z) fs dir num fs1 de fs2 :
  dir <> 0 ->
  fat_readdir mktime fs dir num = Some (fs1, Some de) ->
  fat_readdir mktime fs1 (d_ino de) 2 = Some (fs2, None) ->
  (forall fs3 status,
     fat_unlink mktime fs2 dir num = Some (fs3, status) ->
     fat_rmdir mktime fs dir num = Some (fs3, 0)) /\
  (0 <= num < 2 ->
   fat_unlink mktime fs2 dir num = Some (fs2, 1) /\
   fat_rmdir mktime fs dir num = Some (fs2, 0) /\ fs2 = fs).
Proof.
  intros Hdir H1 H2.
  assert (Hrm : forall fs3 status,
     fat_unlink mktime fs2 dir num = Some (fs3, status) ->
     fat_rmdir mktime fs dir num = Some (fs3, 0)).
  { intros fs3 status H3. unfold fat_rmdir.
    destruct (Z.eqb_spec dir 0); [done|].
    rewrite H1. cbn [mbind option_bind fst snd]. rewrite H2.
    cbn [mbind option_bind fst snd]. rewrite H3. done. }
  split; [exact Hrm|].
  intros Hn. pose proof (fat_unlink_low mktime fs2 dir num ltac:(lia)) as Hu.
  split; [done|]. split; [by apply (Hrm fs2 1)|].
  apply fat_readdir_null in H2. subst fs2.
  unfold fat_readdir in H1.
  destruct (dir =? 0); [done|].
  destruct (fat_get_inode fs dir); [|done].
  destruct (negb _); [done|].
  destruct (Z.eqb_spec num 0); [by injection H1|].
  destruct (Z.eqb_spec num 1); [by injection H1|].
  lia.
Qed.

Lemma fat_rmdir_discards_unlink_witness :
  fat_unlink no_time (example_fs 1 5) 1 0 = Some (example_fs 1 5, 1) /\
  fat_rmdir no_time (example_fs 1 5) 1 0 = Some (example_fs 1 5, 0).
Proof.
  destruct (fat_rmdir_discards_unlink no_time (example_fs 1 5) 1 0
              (example_fs 1 5) (mk_dirent (cstr ".") 1) (example_fs 1 5))
    as [_ H].
  - lia.
  - reflexivity.
  - vm_compute. reflexivity.
  - destruct H as (Hu & Hr & _); [lia|]. split; [exact Hu|exact Hr].
Defined.

(** * Further properties of the driver *)

(** ** Values that do not fit an entry *)

Lemma u16_lor a b : u16 (Z.lor a b) = Z.lor (u16 a) (u16 b).
Proof.
  unfold u16, wrap. rewrite <- !Z.land_ones by lia.
  apply Z.land_lor_distr_l.
Qed.

(** [fat_write_fat] looks at the low 12 bits of [set] only. *)
Lemma fat_write_fat_low12 fs n v :
  fat_write_fat fs n v = fat_write_fat fs n (v mod 4096).
Proof.
  unfold fat_write_fat.
  destruct (negb (fat_bits fs =? 12)); [reflexivity|].
  destruct (load16 (fs_fat fs) (u32 (n + n / 2))) as [value|]; [|reflexivity].
  cbn [mbind option_bind].
  replace (u16 (Z.lor (Z.land value 15) (u32 (Z.shiftl (v mod 4096) 4))))
    with (u16 (Z.lor (Z.land value 15) (u32 (Z.shiftl v 4)))).
  2:{ rewrite !u16_lor. f_equal. unfold u16, u32, wrap.
      rewrite !Z.shiftl_mul_pow2 by lia.
      change (2 ^ 4) with 16. change (2 ^ 16) with 65536.
      change (2 ^ 32) with 4294967296. zlia. }
  replace (Z.land (v mod 4096) 4095) with (Z.land v 4095).
  2:{ change 4095 with (Z.ones 12). rewrite !Z.land_ones by lia.
      change (2 ^ 12) with 4096. zlia. }
  reflexivity.
Qed.

Lemma fat_write_fat_any fs n v :
  fat_bits fs = 12 -> wf_fat fs -> in_fat fs n ->
  exists fs',
    fat_write_fat fs n v = Some fs' /\
    fat_read_fat fs' n = Some (v mod 4096) /\
    forall m, in_fat fs m -> m <> n -> fat_read_fat fs' m = fat_read_fat fs m.
Proof.
  intros Hb Hwf Hn. rewrite fat_write_fat_low12.
  destruct (fat12_write_spec fs n (v mod 4096) Hb Hwf Hn ltac:(zlia))
    as (f & Ew & _ & _ & Rn & Rm).
  exists (set_fat fs f). auto.
Qed.

(** ** Volumes that are not FAT12 *)

Lemma not_fat12_read fs c : fat_bits fs <> 12 -> fat_read_fat fs c = Some 0.
Proof.
  intros H. unfold fat_read_fat.
  destruct (Z.eqb_spec (fat_bits fs) 12); [done|reflexivity].
Qed.

Lemma not_fat12_write fs c v : fat_bits fs <> 12 -> fat_write_fat fs c v = Some fs.
Proof.
  intros H. unfold fat_write_fat.
  destruct (Z.eqb_spec (fat_bits fs) 12); [done|reflexivity].
Qed.

Lemma not_fat12_clusters fs : fat_bits fs <> 12 -> 4085 <= fat_num_clusters fs.
Proof.
  unfold fat_bits. destruct (Z.ltb_spec (fat_num_clusters fs) 4085); [done|lia].
Qed.

Lemma not_fat12_find_free fs : fat_bits fs <> 12 -> fat_find_free fs = Some 3.
Proof.
  intros H. pose proof (not_fat12_clusters fs H) as HN.
  unfold fat_find_free.
  destruct (Z.to_nat (fat_num_clusters fs)) as [|fuel] eqn:E; [lia|].
  cbn [find_free_loop].
  destruct (Z.ltb_spec 3 (fat_num_clusters fs)); [|lia].
  rewrite (not_fat12_read fs 3 H). reflexivity.
Qed.

(** ** Allocation moves forward *)

Lemma find_free_after_write fs r v :
  fat12_volume fs -> fat_find_free fs = Some r -> r <> 0 ->
  v mod 4096 <> 0 ->
  exists fs' r',
    fat_write_fat fs r v = Some fs' /\
    fat_find_free fs' = Some r' /\ (r' = 0 \/ r < r').
Proof.
  intros Hvol Hr Hr0 Hv.
  destruct (find_free_spec fs (volume_readable fs Hvol)) as (r0 & E0 & _ & Hcase).
  rewrite Hr in E0. injection E0 as <-.
  destruct Hcase as [(Hrange & Hz & Hbefore)|[-> _]]; [|done].
  rewrite fat_write_fat_low12.
  destruct (volume_write fs r (v mod 4096) Hvol ltac:(lia) ltac:(zlia))
    as (fs' & Ew & Hvol' & _ & _ & _ & _ & HN & Hrd & Hframe).
  destruct (find_free_spec fs' (volume_readable fs' Hvol')) as (r' & E' & _ & Hcase').
  exists fs', r'. split; [done|]. split; [done|].
  destruct Hcase' as [(Hrange' & Hz' & _)|[-> _]]; [|by left].
  right. destruct (Z.lt_trichotomy r' r) as [Hlt|[->|Hgt]]; [| |done].
  - exfalso. apply (Hbefore r'); [lia|]. rewrite <- Hframe by lia. done.
  - rewrite Hrd in Hz'. injection Hz' as Hz'. done.
Qed.

(** ** Chains that end and chains that do not *)

Lemma chain_count_inv fs : forall fuel c r n,
  chain_count fs fuel c r = Some n ->
  exists l, chain fs c l /\ n = r + Z.of_nat (length l) /\ (length l <= fuel)%nat.
Proof.
  induction fuel as [|fuel IH]; intros c r n H; cbn [chain_count] in H.
  - destruct (Z.ltb_spec c FAT_END); [discriminate|].
    injection H as <-. exists []. simpl. split; [done|]. split; lia.
  - destruct (Z.ltb_spec c FAT_END).
    + destruct (fat_read_fat fs c) as [c'|] eqn:E; [|discriminate].
      cbn [mbind option_bind] in H.
      destruct (IH _ _ _ H) as (l & Hl & -> & Hlen).
      exists (c :: l). split; [|split; simpl; lia].
      simpl. split; [done|]. split; [done|]. by exists c'.
    + injection H as <-. exists []. simpl. split; [done|]. split; lia.
Qed.

Lemma chain_det fs : forall l1 l2 c, chain fs c l1 -> chain fs c l2 -> l1 = l2.
Proof.
  induction l1 as [|x l1 IH]; intros [|y l2] c H1 H2; simpl in *.
  - done.
  - destruct H2 as (_ & ? & _). lia.
  - destruct H1 as (_ & ? & _). lia.
  - destruct H1 as (-> & _ & c1 & E1 & H1), H2 as (-> & _ & c2 & E2 & H2).
    rewrite E1 in E2. injection E2 as <-. f_equal. eauto.
Qed.

Lemma chain_suffix fs : forall a x d c,
  chain fs c (a ++ x :: d) -> chain fs x (x :: d).
Proof.
  induction a as [|y a IH]; intros x d c H; simpl in H.
  - destruct H as (-> & H). simpl. split; [done|exact H].
  - destruct H as (_ & _ & c' & _ & H). eauto.
Qed.

Lemma chain_NoDup fs : forall l c, chain fs c l -> NoDup l.
Proof.
  induction l as [|x l IH]; intros c H; [constructor|].
  pose proof H as H0. simpl in H. destruct H as (-> & Hlt & c' & E & H).
  constructor; [|eauto].
  intros Hin. apply list_elem_of_split in Hin as (a & d & ->).
  pose proof (chain_suffix fs a c d c' H) as Hs.
  pose proof (chain_det fs _ _ _ H0 Hs) as Heq.
  apply (f_equal length) in Heq. simpl in Heq. rewrite length_app in Heq. simpl in Heq. lia.
Qed.

Lemma chain_below fs : forall l c, chain fs c l -> Forall (fun x => x < FAT_END) l.
Proof.
  induction l as [|x l IH]; intros c H; [constructor|].
  simpl in H. destruct H as (-> & Hlt & c' & E & H). constructor; eauto.
Qed.

(** A walk that stays inside a set of clusters below the end marker
    uses up any amount of fuel. *)
Lemma chain_count_closed fs (P : Z -> Prop) :
  (forall x, P x -> x < FAT_END /\ exists y, fat_read_fat fs x = Some y /\ P y) ->
  forall fuel c r, P c -> chain_count fs fuel c r = None.
Proof.
  intros Hclosed. induction fuel as [|fuel IH]; intros c r Hc;
    destruct (Hclosed c Hc) as (Hlt & y & Ey & Hy); cbn [chain_count];
    destruct (Z.ltb_spec c FAT_END); try lia; [reflexivity|].
  rewrite Ey. cbn [mbind option_bind]. eauto.
Qed.

(** The same chain when the entries it passes read the same. *)
Lemma chain_ext_on fs fs' : forall l c,
  (forall x, x ∈ l -> fat_read_fat fs' x = fat_read_fat fs x) ->
  chain fs c l -> chain fs' c l.
Proof.
  induction l as [|x l IH]; intros c Hagree H; [exact H|].
  simpl in *. destruct H as (-> & Hlt & c' & E & H).
  split; [done|]. split; [done|]. exists c'. split.
  - rewrite Hagree; [done|]. apply elem_of_cons. by left.
  - apply IH; [|done]. intros y Hy. apply Hagree. apply elem_of_cons. by right.
Qed.

(** ** What fat_touch leaves alone *)

Lemma fat_write_fat_frame fs c v fs' :
  fat_write_fat fs c v = Some fs' ->
  fs_p fs' = fs_p fs /\ fs_bpb fs' = fs_bpb fs /\
  fs_inodes fs' = fs_inodes fs /\ fs_next fs' = fs_next fs.
Proof.
  unfold fat_write_fat. intros H.
  destruct (negb (fat_bits fs =? 12)); [by injection H as <-|].
  destruct (load16 (fs_fat fs) (u32 (c + c / 2))); [|discriminate].
  cbn [mbind option_bind] in H.
  destruct (store16 (fs_fat fs) _ _); [|discriminate].
  cbn [mbind option_bind] in H. by injection H as <-.
Qed.

Lemma touch_loop_frame : forall fuel fs cur size fs',
  touch_loop fs fuel cur size = Some fs' ->
  fs_p fs' = fs_p fs /\ fs_bpb fs' = fs_bpb fs /\
  fs_inodes fs' = fs_inodes fs /\ fs_next fs' = fs_next fs.
Proof.
  induction fuel as [|fuel IH]; intros fs cur size fs' H; cbn [touch_loop] in H.
  - destruct (size >? 0); [discriminate|]. by injection H as <-.
  - destruct (size >? 0); [|by injection H as <-].
    destruct (fat_find_free fs) as [free|]; [|discriminate].
    cbn [mbind option_bind] in H.
    destruct (fat_write_fat fs cur free) as [fs1|] eqn:E1; [|discriminate].
    cbn [mbind option_bind] in H.
    destruct (fat_read_fat fs1 cur) as [cur'|]; [|discriminate].
    cbn [mbind option_bind] in H.
    destruct (fat_write_fat fs1 cur' FAT_END) as [fs2|] eqn:E2; [|discriminate].
    cbn [mbind option_bind] in H.
    apply IH in H as (-> & -> & -> & ->).
    apply fat_write_fat_frame in E1 as (<- & <- & <- & <-).
    apply fat_write_fat_frame in E2 as (<- & <- & <- & <-). done.
Qed.

Lemma fat_touch_inv fs st fs' h :
  fat_touch fs st = Some (fs', h) ->
  h = fs_next fs /\ fs_next fs' = fs_next fs + 1 /\
  fs_p fs' = fs_p fs /\ fs_bpb fs' = fs_bpb fs /\
  exists c,
    fs_inodes fs' = fs_inodes fs ++
      [mk_inode (-1)
         (if Z.land (st_mode st) S_DIR =? S_DIR then FAT_DIR_DIRECTORY else 0)
         c (u32 (st_size st)) (st_atime st) (st_ctime st) (st_mtime st)].
Proof.
  unfold fat_touch. intros H.
  destruct (fat_find_free _) as [c|]; [|discriminate].
  cbn [mbind option_bind] in H.
  destruct (fat_write_fat _ c FAT_END) as [fs1|] eqn:E1; [|discriminate].
  cbn [mbind option_bind] in H.
  destruct (touch_loop fs1 _ c _) as [fs2|] eqn:E2; [|discriminate].
  cbn [mbind option_bind] in H. apply last_next_inv in H as [_ H].
  injection H as <- <-.
  apply touch_loop_frame in E2 as (Hp & Hb & Hi & Hn).
  apply fat_write_fat_frame in E1 as (Hp1 & Hb1 & Hi1 & Hn1).
  simpl in *. rewrite Hn, Hn1, Hp, Hp1, Hb, Hb1, Hi, Hi1.
  split; [done|]. split; [done|]. split; [done|]. split; [done|].
  by exists c.
Qed.

Lemma get_inode_last fs l ino n :
  fs_next fs = Z.of_nat (length (fs_inodes fs)) + 1 ->
  fat_get_inode (mk_fs (fs_p fs) (fs_bpb fs) l (fs_inodes fs ++ [ino]) n) (fs_next fs)
  = Some ino.
Proof.
  intros Hn. unfold fat_get_inode.
  destruct (Z.leb_spec (fs_next fs) 0); [lia|]. simpl.
  replace (Z.to_nat (fs_next fs - 1)) with (length (fs_inodes fs)) by lia.
  by rewrite list_lookup_middle.
Qed.

(** The allocation of [fat_touch], with everything it does to the
    state. *)
Lemma fat_touch_spec fs st :
  fat12_volume fs -> handles_ok fs -> bpb_ok fs ->
  0 <= st_size st < 2 ^ 32 ->
  clusters_needed (fat_clustersize fs) (st_size st) <= free_count fs ->
  exists fs' c l,
    fat_touch fs st = Some (fs', fs_next fs) /\
    fat12_volume fs' /\ handles_ok fs' /\
    fs_bpb fs' = fs_bpb fs /\ fs_p fs' = fs_p fs /\
    fs_inodes fs' = fs_inodes fs ++
      [mk_inode (-1)
         (if Z.land (st_mode st) S_DIR =? S_DIR then FAT_DIR_DIRECTORY else 0)
         c (st_size st) (st_atime st) (st_ctime st) (st_mtime st)] /\
    chain fs' c l /\
    Z.of_nat (length l) = clusters_needed (fat_clustersize fs) (st_size st) /\
    Forall (is_free fs) l /\
    forall m, 0 <= m < fat_num_clusters fs -> m ∉ l ->
      fat_read_fat fs' m = fat_read_fat fs m.
Proof.
  intros Hvol [Hnext Hnext2] [Hbps Hspc] HS Hfree.
  set (C := fat_clustersize fs) in *.
  assert (HC : 0 < C <= 130560) by (unfold C, fat_clustersize; rewrite Hbps; lia).
  pose proof (fat12_num_clusters fs (proj1 Hvol)) as HN.
  pose proof (free_count_bound fs) as Hfb.
  set (k := clusters_needed C (st_size st)) in *.
  assert (Hk : 1 <= k <= 4082) by (unfold k, clusters_needed in *; lia).
  assert (HSb : st_size st <= k * C).
  { unfold k, clusters_needed.
    pose proof (Z.div_mod (st_size st + C - 1) C ltac:(lia)) as Hd.
    pose proof (Z.mod_pos_bound (st_size st + C - 1) C ltac:(lia)) as Hm.
    nia. }
  assert (HS31 : st_size st < 2 ^ 31) by nia.
  set (size := int32 (u32 (st_size st) - C)).
  assert (Hsize : size = st_size st - C).
  { unfold size. rewrite u32_small by lia. apply int32_small. lia. }
  assert (Hrounds : rounds C size + 1 = k).
  { unfold rounds, k, clusters_needed. rewrite Hsize.
    destruct (Z.gtb_spec (st_size st - C) 0).
    - replace (st_size st - C + C - 1) with (st_size st + C - 1 + (-1) * C) by lia.
      rewrite Z.div_add by lia.
      assert (1 <= (st_size st + C - 1) / C).
      { replace (st_size st + C - 1) with (st_size st - 1 + 1 * C) by lia.
        rewrite Z.div_add by lia.
        pose proof (Z.div_pos (st_size st - 1) C). lia. }
      lia.
    - assert ((st_size st + C - 1) / C < 2)
        by (apply Z.div_lt_upper_bound; lia).
      lia. }
  set (fsa := set_next fs (fs_next fs + 1)).
  assert (Hvola : fat12_volume fsa) by exact Hvol.
  assert (Hava : avail fsa (S (Z.to_nat (rounds C size)))).
  { apply (avail_free_count fs). fold C in Hfree. lia. }
  destruct (avail_find_free fsa _ (volume_readable fsa Hvola) Hava) as (c1 & E1 & Hc1 & Hz1).
  destruct (volume_write fsa c1 FAT_END Hvola) as (fs1 & Ew & Hvol1 & Hb1 & Hi1 & Hn1 & Hp1 & HN1 & Hr1 & Hf1);
    [lia|unfold FAT_END; lia|].
  assert (HNa : fat_num_clusters fsa = fat_num_clusters fs) by reflexivity.
  destruct (touch_loop_spec C ltac:(lia) (Z.to_nat (size / C) + 1) fs1 c1 size [] c1)
    as (fs2 & new & El & Hvol2 & Hb2 & Hi2 & Hn2 & Hlen & Hch & Hfr & Hframe & z & Hz & Hzr).
  - done.
  - unfold fat_clustersize. rewrite Hb1. reflexivity.
  - unfold rounds. destruct (Z.gtb_spec size 0); [|lia].
    replace (size + C - 1) with (size - 1 + 1 * C) by lia.
    rewrite Z.div_add by lia.
    assert ((size - 1) / C <= size / C) by (apply Z.div_le_mono; lia).
    assert (0 <= size / C) by (apply Z.div_pos; lia). lia.
  - eapply (avail_write_free fsa fs1 c1); eauto.
  - simpl. split; [done|]. split; [unfold FAT_END; lia|].
    exists FAT_END. split; [done|]. lia.
  - done.
  - repeat constructor; lia.
  - pose proof (touch_loop_frame _ _ _ _ _ El) as (Hp2 & _).
    set (ino := mk_inode (-1)
                  (if Z.land (st_mode st) S_DIR =? S_DIR then FAT_DIR_DIRECTORY else 0)
                  c1 (st_size st) (st_atime st) (st_ctime st) (st_mtime st)).
    set (fs' := set_inodes fs2 (fs_inodes fs2 ++ [ino])).
    exists fs', c1, (c1 :: new).
    split.
    { unfold fat_touch. fold fsa. fold C.
      change (fat_clustersize fsa) with C. fold size.
      rewrite E1. simpl. rewrite Ew. simpl. rewrite El. simpl.
      rewrite u32_small by lia.
      apply last_next_ok. rewrite Hi2, Hi1. simpl.
      intros E0. rewrite E0 in Hnext. simpl in Hnext. lia. }
    split; [exact Hvol2|].
    split.
    { unfold handles_ok, fs'. simpl. rewrite Hn2, Hn1, Hi2, Hi1, length_app. simpl. lia. }
    split; [unfold fs'; simpl; by rewrite Hb2, Hb1|].
    split; [unfold fs'; simpl; by rewrite Hp2, Hp1|].
    split; [unfold fs'; simpl; by rewrite Hi2, Hi1|].
    split; [eapply chain_ext; [|exact Hch]; done|].
    split; [simpl length; lia|].
    split.
    { constructor; [split; done|].
      eapply Forall_impl; [exact Hfr|]. intros x [Hx Hxz].
      rewrite HN1 in Hx. split; [done|].
      assert (x <> c1) by (intros ->; rewrite Hr1 in Hxz; discriminate).
      change (fat_read_fat fs x) with (fat_read_fat fsa x).
      rewrite <- (Hf1 x) by (done || lia). done. }
    intros m Hm Hml. apply not_elem_of_cons in Hml as [Hmc Hmn].
    change (fat_read_fat fs' m) with (fat_read_fat fs2 m).
    rewrite Hframe; [|rewrite HN1; exact Hm|done|done].
    apply Hf1; [exact Hm|done].
Qed.

Lemma bind_Some {A B} (f : A -> option B) (x : A) : (Some x ≫= f) = f x.
Proof. reflexivity. Qed.

Lemma bind_None {A B} (f : A -> option B) : (None ≫= f) = None.
Proof. reflexivity. Qed.

Lemma fat_clustercount_file fs ino :
  ino <> 0 -> ino <> 1 ->
  fat_clustercount fs ino =
    (inode ← fat_get_inode fs ino; chain_count fs chain_fuel (ino_cluster inode) 0).
Proof.
  intros H0 H1. unfold fat_clustercount.
  destruct (Z.eqb_spec ino 0); [done|]. destruct (Z.eqb_spec ino 1); [done|].
  reflexivity.
Qed.

(** Counting and listing a chain that ends. *)
Lemma clusters_of_chain fs ino inode l :
  ino <> 0 -> ino <> 1 ->
  fat_get_inode fs ino = Some inode ->
  chain fs (ino_cluster inode) l -> (length l <= chain_fuel)%nat ->
  fat_clustercount fs ino = Some (Z.of_nat (length l)) /\
  fat_get_clusters fs ino = Some (l ++ [0]).
Proof.
  intros H0 H1 Hget Hch Hlen.
  assert (Hcnt : fat_clustercount fs ino = Some (Z.of_nat (length l))).
  { rewrite fat_clustercount_file by done.
    rewrite Hget, bind_Some.
    rewrite (chain_count_chain fs l _ _ _ Hch Hlen). reflexivity. }
  split; [exact Hcnt|].
  unfold fat_get_clusters. rewrite Hcnt.
  destruct (Z.eqb_spec ino 0); [done|]. destruct (Z.eqb_spec ino 1); [done|].
  rewrite bind_Some, Hget, bind_Some.
  rewrite Nat2Z.id. rewrite (get_clusters_chain fs l _ Hch). reflexivity.
Qed.

(** ** fat_touch on a volume that is not FAT12 *)

Lemma touch_loop_not_fat12 : forall fuel fs cur size,
  fat_bits fs <> 12 -> 0 < fat_clustersize fs ->
  size <= Z.of_nat fuel * fat_clustersize fs ->
  touch_loop fs fuel cur size = Some fs.
Proof.
  induction fuel as [|fuel IH]; intros fs cur size Hb HC Hs; cbn [touch_loop].
  - destruct (Z.gtb_spec size 0); [lia|done].
  - destruct (Z.gtb_spec size 0); [|done].
    rewrite (not_fat12_find_free fs Hb). cbn [mbind option_bind].
    rewrite (not_fat12_write fs _ _ Hb). cbn [mbind option_bind].
    rewrite (not_fat12_read fs _ Hb). cbn [mbind option_bind].
    rewrite (not_fat12_write fs _ _ Hb). cbn [mbind option_bind].
    apply IH; [done|done|].
    destruct (Z.gtb_spec (fat_clustersize fs) size); nia.
Qed.

(** ** Properties of the table and of chains *)

(** X1: On a FAT12 volume fat_write_fat stores only the low 12 bits of its
    value: after writing v to an entry inside the table, fat_read_fat
    returns v mod 4096 for that entry and what it returned before for every
    other entry. *)
Theorem fat_write_fat_truncates fs n v :
  fat_bits fs = 12 -> wf_fat fs -> in_fat fs n ->
  exists fs',
    fat_write_fat fs n v = Some fs' /\
    fat_read_fat fs' n = Some (v mod 4096) /\
    forall m, in_fat fs m -> m <> n -> fat_read_fat fs' m = fat_read_fat fs m.
Proof. apply fat_write_fat_any. Qed.

Lemma fat_write_fat_truncates_witness :
  exists fs',
    fat_write_fat (example_fs 1 5) 3 0x12345 = Some fs' /\
    fat_read_fat fs' 3 = Some 0x345 /\
    forall m, in_fat (example_fs 1 5) m -> m <> 3 ->
      fat_read_fat fs' m = fat_read_fat (example_fs 1 5) m.
Proof.
  apply (fat_write_fat_truncates (example_fs 1 5) 3 0x12345).
  - reflexivity.
  - apply (example_volume 1 5); [reflexivity|lia].
  - split; [lia|vm_compute; reflexivity].
Defined.

(** X2: On a volume that fat_bits does not class as FAT12, fat_read_fat
    returns 0 for every entry, fat_write_fat returns without changing
    anything, and fat_find_free returns 3. *)
Theorem not_fat12_table fs :
  fat_bits fs <> 12 ->
  (forall c, fat_read_fat fs c = Some 0) /\
  (forall c v, fat_write_fat fs c v = Some fs) /\
  fat_find_free fs = Some 3.
Proof.
  intros H. split; [|split].
  - intros c. by apply not_fat12_read.
  - intros c v. by apply not_fat12_write.
  - by apply not_fat12_find_free.
Qed.

Lemma not_fat12_table_witness :
  (forall c, fat_read_fat (fat_view (example_bpb 1 5000) fresh_fat) c = Some 0) /\
  (forall c v, fat_write_fat (fat_view (example_bpb 1 5000) fresh_fat) c v
               = Some (fat_view (example_bpb 1 5000) fresh_fat)) /\
  fat_find_free (fat_view (example_bpb 1 5000) fresh_fat) = Some 3.
Proof.
  apply (not_fat12_table (fat_view (example_bpb 1 5000) fresh_fat)).
  vm_compute. discriminate.
Defined.

(** X3: On a volume that is not FAT12, with a positive cluster size and
    an inode list that is not empty (as after fat_hook_load), fat_touch
    changes only the handles: it returns the old handle counter and
    registers an inode whose first cluster is 3, while partition, BPB and
    FAT stay as they were. *)
Theorem fat_touch_not_fat12 fs st :
  fat_bits fs <> 12 -> 0 < fat_clustersize fs -> fs_inodes fs <> [] ->
  fat_touch fs st =
    Some (mk_fs (fs_p fs) (fs_bpb fs) (fs_fat fs)
            (fs_inodes fs ++
               [mk_inode (-1)
                  (if Z.land (st_mode st) S_DIR =? S_DIR then FAT_DIR_DIRECTORY else 0)
                  3 (u32 (st_size st)) (st_atime st) (st_ctime st) (st_mtime st)])
            (fs_next fs + 1),
          fs_next fs).
Proof.
  intros Hb HC Hne. unfold fat_touch.
  set (fsa := set_next fs (fs_next fs + 1)).
  assert (Hba : fat_bits fsa <> 12) by exact Hb.
  rewrite (not_fat12_find_free fsa Hba). cbn [mbind option_bind].
  rewrite (not_fat12_write fsa _ _ Hba). cbn [mbind option_bind].
  rewrite touch_loop_not_fat12; [exact (last_next_ok _ _ Hne)|done|exact HC|].
  change (fat_clustersize fsa) with (fat_clustersize fs).
  set (size := int32 _). set (C := fat_clustersize fs) in *.
  destruct (Z.le_gt_cases size 0) as [Hle|Hgt].
  - assert (0 <= Z.of_nat (Z.to_nat (size / C) + 1) * C) by nia. lia.
  - assert (0 <= size / C) by (apply Z.div_pos; lia).
    rewrite Nat2Z.inj_add, Z2Nat.id by lia.
    pose proof (Z.div_mod size C ltac:(lia)).
    pose proof (Z.mod_pos_bound size C ltac:(lia)). nia.
Qed.

Lemma fat_touch_not_fat12_witness :
  fat_touch (mk_fs [] (example_bpb 1 5000) fresh_fat [root_inode] 2) (reg 2000) =
    Some (mk_fs [] (example_bpb 1 5000) fresh_fat
            [root_inode; mk_inode (-1) 0 3 2000 0 0 0] 3, 2).
Proof.
  apply (fat_touch_not_fat12 (mk_fs [] (example_bpb 1 5000) fresh_fat [root_inode] 2)
           (reg 2000)).
  - vm_compute. discriminate.
  - reflexivity.
  - discriminate.
Defined.

(** X29: On a volume whose entries 3 .. fat_num_clusters - 1 can be read,
    fat_find_free returns the smallest index in that range whose entry
    reads 0, and 0 when none of them reads 0; it never returns 2. *)
Theorem fat_find_free_first fs :
  fat_readable fs ->
  exists r, fat_find_free fs = Some r /\ r <> 2 /\
    ((3 <= r < fat_num_clusters fs /\ fat_read_fat fs r = Some 0 /\
      forall j, 3 <= j < r -> fat_read_fat fs j <> Some 0) \/
     (r = 0 /\ forall j, 3 <= j < fat_num_clusters fs -> fat_read_fat fs j <> Some 0)).
Proof. apply find_free_spec. Qed.

Lemma fat_find_free_first_witness :
  exists r, fat_find_free (example_fs 1 5) = Some r /\ r <> 2 /\
    ((3 <= r < fat_num_clusters (example_fs 1 5) /\
      fat_read_fat (example_fs 1 5) r = Some 0 /\
      forall j, 3 <= j < r -> fat_read_fat (example_fs 1 5) j <> Some 0) \/
     (r = 0 /\ forall j, 3 <= j < fat_num_clusters (example_fs 1 5) ->
        fat_read_fat (example_fs 1 5) j <> Some 0)).
Proof.
  apply (fat_find_free_first (example_fs 1 5)).
  apply volume_readable, (example_volume 1 5); [reflexivity|lia].
Defined.

(** X4: On a FAT12 volume whose table covers every cluster, when
    fat_find_free has returned r (not 0) and a value with non-zero low 12
    bits is written to entry r, the next fat_find_free returns 0 or an index
    above r. *)
Theorem fat_find_free_advances fs r v :
  fat12_volume fs -> fat_find_free fs = Some r -> r <> 0 ->
  v mod 4096 <> 0 ->
  exists fs' r',
    fat_write_fat fs r v = Some fs' /\
    fat_find_free fs' = Some r' /\ (r' = 0 \/ r < r').
Proof. apply find_free_after_write. Qed.

Lemma fat_find_free_advances_witness :
  exists fs' r',
    fat_write_fat (example_fs 1 5) 3 FAT_END = Some fs' /\
    fat_find_free fs' = Some r' /\ (r' = 0 \/ 3 < r').
Proof.
  apply (fat_find_free_advances (example_fs 1 5) 3 FAT_END).
  - apply (example_volume 1 5); [reflexivity|lia].
  - reflexivity.
  - lia.
  - vm_compute. discriminate.
Defined.

(** X5: If every cluster reachable from a file's first cluster holds a FAT
    value below the end marker 0xFF8 (the file's chain runs into a cycle),
    then the loops of fat_clustercount and fat_get_clusters never end for
    that file, and neither does fat_read with a non-zero length: none of the
    three returns. *)
Theorem chain_without_end fs ino inode (P : Z -> Prop) buffer len off :
  ino <> 0 -> ino <> 1 -> len <> 0 ->
  fat_get_inode fs ino = Some inode ->
  P (ino_cluster inode) ->
  (forall x, P x -> x < FAT_END /\ exists y, fat_read_fat fs x = Some y /\ P y) ->
  fat_clustercount fs ino = None /\
  fat_get_clusters fs ino = None /\
  fat_read fs ino buffer len off = None.
Proof.
  intros H0 H1 Hlen Hget HP Hclosed.
  assert (Hcnt : fat_clustercount fs ino = None).
  { unfold fat_clustercount.
    destruct (Z.eqb_spec ino 0); [done|]. destruct (Z.eqb_spec ino 1); [done|].
    rewrite Hget, bind_Some.
    exact (chain_count_closed fs P Hclosed _ _ _ HP). }
  assert (Hcl : fat_get_clusters fs ino = None).
  { unfold fat_get_clusters. destruct (Z.eqb_spec ino 0); [done|].
    by rewrite Hcnt. }
  split; [done|]. split; [done|].
  unfold fat_read.
  destruct (Z.eqb_spec ino 0); [done|]. destruct (Z.eqb_spec len 0); [done|].
  rewrite Hget. cbn [mbind option_bind]. by rewrite Hcl.
Qed.

Lemma chain_without_end_witness :
  fat_clustercount looping_fs 2 = None /\
  fat_get_clusters looping_fs 2 = None /\
  fat_read looping_fs 2 (calloc 1) 1 0 = None.
Proof.
  apply (chain_without_end looping_fs 2 (mk_inode 1 0 3 0 0 0 0) (fun x => x = 3));
    [lia|lia|lia|reflexivity|reflexivity|].
  intros x ->. split; [reflexivity|]. exists 3. split; reflexivity.
Defined.

(** X6: For a handle other than 0 and the root, when fat_clustercount
    returns n, fat_get_clusters returns n clusters followed by 0; they are
    the chain from the inode's first cluster, pairwise distinct, and each is
    below 0xFF8. *)
Theorem clusters_match_count fs ino n :
  ino <> 0 -> ino <> 1 ->
  fat_clustercount fs ino = Some n ->
  exists inode l,
    fat_get_inode fs ino = Some inode /\
    fat_get_clusters fs ino = Some (l ++ [0]) /\
    Z.of_nat (length l) = n /\
    chain fs (ino_cluster inode) l /\
    NoDup l /\ Forall (fun c => c < FAT_END) l.
Proof.
  intros H0 H1 Hcnt. rewrite fat_clustercount_file in Hcnt by done.
  destruct (fat_get_inode fs ino) as [inode|] eqn:Hget;
    [rewrite bind_Some in Hcnt|rewrite bind_None in Hcnt; discriminate Hcnt].
  apply (chain_count_inv fs chain_fuel (ino_cluster inode) 0 n) in Hcnt
    as (l & Hch & -> & Hlen).
  exists inode, l. split; [reflexivity|].
  split; [exact (proj2 (clusters_of_chain fs ino inode l H0 H1 Hget Hch Hlen))|].
  split; [lia|]. split; [exact Hch|].
  split; [exact (chain_NoDup fs l _ Hch)|exact (chain_below fs l _ Hch)].
Qed.

Lemma clusters_match_count_witness :
  exists inode l,
    fat_get_inode two_cluster_fs 2 = Some inode /\
    fat_get_clusters two_cluster_fs 2 = Some (l ++ [0]) /\
    Z.of_nat (length l) = 2 /\
    chain two_cluster_fs (ino_cluster inode) l /\
    NoDup l /\ Forall (fun c => c < FAT_END) l.
Proof.
  apply (clusters_match_count two_cluster_fs 2 2); [lia|lia|].
  vm_compute. reflexivity.
Defined.

(** ** Handles *)

Lemma get_inode_app fs l bpb p fat n i :
  handles_ok fs -> i <> fs_next fs ->
  fat_get_inode (mk_fs p bpb fat (fs_inodes fs ++ l) n) i = fat_get_inode fs i \/
  (fs_next fs < i /\ fat_get_inode fs i = None).
Proof.
  intros [Hn Hn2] Hi. unfold fat_get_inode. simpl.
  destruct (Z.leb_spec i 0); [by left|].
  destruct (Z.lt_ge_cases i (fs_next fs)).
  - left. apply lookup_app_l. lia.
  - right. split; [lia|]. apply lookup_ge_None_2. lia.
Qed.

Lemma get_inode_issued fs i :
  handles_ok fs -> (is_Some (fat_get_inode fs i) <-> 1 <= i < fs_next fs).
Proof.
  intros [Hn Hn2]. unfold fat_get_inode.
  destruct (Z.leb_spec i 0).
  - split; [intros [x Hx]; discriminate|lia].
  - rewrite lookup_lt_is_Some. lia.
Qed.

Lemma two_cluster_volume : fat12_volume two_cluster_fs.
Proof.
  split; [reflexivity|]. split.
  - split.
    + apply Forall_app. split.
      * repeat constructor; unfold is_byte; lia.
      * apply Forall_replicate. unfold is_byte. lia.
    + change (Z.of_nat (length (fs_fat two_cluster_fs))) with 512. lia.
  - intros j Hj. change (fat_num_clusters two_cluster_fs) with 6 in Hj.
    unfold in_fat.
    change (Z.of_nat (length (fs_fat two_cluster_fs))) with 512. zlia.
Qed.

(** ** Properties of handles *)

(** X7: On a FAT12 volume with 512-byte sectors and enough free clusters,
    fat_fstat on the handle that fat_touch returns gives back the size and
    the three time stamps passed to fat_touch; the mode is 0777, with S_DIR
    added when the directory bit was set. *)
Theorem fat_fstat_after_touch fs st :
  fat12_volume fs -> handles_ok fs -> bpb_ok fs ->
  0 <= st_size st < 2 ^ 32 ->
  clusters_needed (fat_clustersize fs) (st_size st) <= free_count fs ->
  exists fs',
    fat_touch fs st = Some (fs', fs_next fs) /\
    fat_fstat fs' (fs_next fs) =
      Some (mk_fstat (st_size st)
              (Z.lor (if Z.land (st_mode st) S_DIR =? S_DIR then S_DIR else 0) 511)
              (st_atime st) (st_ctime st) (st_mtime st)).
Proof.
  intros Hvol Hh Hb HS Hfree.
  destruct (fat_touch_spec fs st Hvol Hh Hb HS Hfree)
    as (fs' & c & l & Et & _ & _ & Hbpb & Hp & Hi & _).
  exists fs'. split; [exact Et|].
  unfold fat_fstat. destruct Hh as [Hn Hn2].
  destruct (Z.eqb_spec (fs_next fs) 0); [lia|].
  assert (Hget : fat_get_inode fs' (fs_next fs) =
                 Some (mk_inode (-1)
                         (if Z.land (st_mode st) S_DIR =? S_DIR then FAT_DIR_DIRECTORY else 0)
                         c (st_size st) (st_atime st) (st_ctime st) (st_mtime st))).
  { unfold fat_get_inode. destruct (Z.leb_spec (fs_next fs) 0); [lia|].
    rewrite Hi.
    replace (Z.to_nat (fs_next fs - 1)) with (length (fs_inodes fs)) by lia.
    by rewrite list_lookup_middle. }
  rewrite Hget. simpl.
  destruct (Z.land (st_mode st) S_DIR =? S_DIR); reflexivity.
Qed.

Lemma fat_fstat_after_touch_witness :
  exists fs',
    fat_touch two_cluster_fs (mk_fstat 700 (Z.lor S_DIR 420) 11 22 33) = Some (fs', 3) /\
    fat_fstat fs' 3 = Some (mk_fstat 700 (Z.lor S_DIR 511) 11 22 33).
Proof.
  apply (fat_fstat_after_touch two_cluster_fs (mk_fstat 700 (Z.lor S_DIR 420) 11 22 33)).
  - exact two_cluster_volume.
  - split; [reflexivity|simpl; lia].
  - split; [reflexivity|simpl; lia].
  - simpl. lia.
  - vm_compute. discriminate.
Defined.

(** X8: Whenever fat_touch returns, the handle is the old value of the
    handle counter, the counter stays one past the inode list, partition and
    BPB are unchanged, every other handle resolves to what it did, exactly
    the handles 1..h resolve, and the new inode has parent -1 and the size
    given, cut to 32 bits. *)
Theorem fat_touch_handles fs st fs' h :
  handles_ok fs -> fat_touch fs st = Some (fs', h) ->
  h = fs_next fs /\ handles_ok fs' /\
  fs_p fs' = fs_p fs /\ fs_bpb fs' = fs_bpb fs /\
  (forall i, i <> h -> fat_get_inode fs' i = fat_get_inode fs i) /\
  (forall i, is_Some (fat_get_inode fs' i) <-> 1 <= i <= h) /\
  exists ino,
    fat_get_inode fs' h = Some ino /\ ino_parent ino = -1 /\
    ino_size ino = u32 (st_size st).
Proof.
  intros Hh Ht. pose proof Hh as [Hn Hn2].
  destruct (fat_touch_inv fs st fs' h Ht) as (-> & Hnext & Hp & Hb & c & Hi).
  assert (Hh' : handles_ok fs').
  { split; [|lia]. rewrite Hnext, Hi, length_app. simpl. lia. }
  split; [done|]. split; [done|]. split; [done|]. split; [done|].
  split; [|split].
  - intros i Hi'. unfold fat_get_inode.
    destruct (Z.leb_spec i 0); [done|]. rewrite Hi.
    destruct (Z.lt_ge_cases i (fs_next fs)).
    + apply lookup_app_l. lia.
    + rewrite !lookup_ge_None_2; [done|lia|rewrite length_app; simpl; lia].
  - intros i. rewrite (get_inode_issued fs' i Hh'). lia.
  - eexists. split.
    + unfold fat_get_inode. destruct (Z.leb_spec (fs_next fs) 0); [lia|].
      rewrite Hi.
      replace (Z.to_nat (fs_next fs - 1)) with (length (fs_inodes fs)) by lia.
      by rewrite list_lookup_middle.
    + done.
Qed.

Lemma fat_touch_handles_witness :
  match fat_touch two_cluster_fs (reg 0) with
  | Some (fs', h) =>
      h = 3 /\ handles_ok fs' /\
      fs_p fs' = [] /\ fs_bpb fs' = example_bpb 8 6 /\
      (forall i, i <> h -> fat_get_inode fs' i = fat_get_inode two_cluster_fs i) /\
      (forall i, is_Some (fat_get_inode fs' i) <-> 1 <= i <= h) /\
      exists ino,
        fat_get_inode fs' h = Some ino /\ ino_parent ino = -1 /\
        ino_size ino = 0
  | None => False
  end.
Proof.
  destruct (fat_touch two_cluster_fs (reg 0)) as [[fs' h]|] eqn:E;
    [|vm_compute in E; discriminate E].
  apply (fat_touch_handles two_cluster_fs (reg 0) fs' h);
    [split; [reflexivity|simpl; lia]|exact E].
Defined.

(** X9: On a FAT12 volume with 512-byte sectors and enough free clusters,
    fat_touch leaves an existing file alone: when the file's clusters lie
    inside the volume and none of them is marked free, its inode, its
    cluster count and its cluster array are the same after the call. *)
Theorem fat_touch_keeps_files fs st h l :
  fat12_volume fs -> handles_ok fs -> bpb_ok fs ->
  0 <= st_size st < 2 ^ 32 ->
  clusters_needed (fat_clustersize fs) (st_size st) <= free_count fs ->
  h <> 0 -> h <> 1 ->
  fat_get_clusters fs h = Some (l ++ [0]) ->
  Forall (fun c => 0 <= c < fat_num_clusters fs /\ ~ is_free fs c) l ->
  exists fs',
    fat_touch fs st = Some (fs', fs_next fs) /\
    fat_get_inode fs' h = fat_get_inode fs h /\
    fat_clustercount fs' h = fat_clustercount fs h /\
    fat_get_clusters fs' h = Some (l ++ [0]).
Proof.
  intros Hvol Hh Hb HS Hfree H0 H1 Hcl0 Hused.
  destruct (fat_clustercount fs h) as [n|] eqn:Hcnt.
  2:{ unfold fat_get_clusters in Hcl0. rewrite Hcnt, bind_None in Hcl0.
      destruct (h =? 0); discriminate Hcl0. }
  pose proof Hcnt as Hcnt0.
  rewrite fat_clustercount_file in Hcnt by done.
  destruct (fat_get_inode fs h) as [inode|] eqn:Hget;
    [rewrite bind_Some in Hcnt|rewrite bind_None in Hcnt; discriminate Hcnt].
  apply (chain_count_inv fs chain_fuel (ino_cluster inode) 0 n) in Hcnt
    as (l' & Hch & -> & Hlen).
  destruct (clusters_of_chain fs h inode l' H0 H1 Hget Hch Hlen) as [Hc Hcl].
  rewrite Hcl in Hcl0. injection Hcl0 as Hcl0. apply app_inv_tail in Hcl0. subst l'.
  destruct (fat_touch_spec fs st Hvol Hh Hb HS Hfree)
    as (fs' & c & new & Et & _ & _ & Hbpb & Hp & Hi & _ & _ & Hnew & Hframe).
  exists fs'. split; [exact Et|].
  assert (Hget' : fat_get_inode fs' h = Some inode).
  { unfold fat_get_inode in *. destruct (Z.leb_spec h 0); [done|].
    rewrite Hi. by apply lookup_app_l_Some. }
  assert (Hch' : chain fs' (ino_cluster inode) l).
  { apply (chain_ext_on fs fs'); [|exact Hch].
    intros x Hx. rewrite Forall_forall in Hused.
    destruct (Hused x Hx) as [Hr Hnf].
    apply Hframe; [exact Hr|]. intros Hin.
    rewrite Forall_forall in Hnew. exact (Hnf (Hnew x Hin)). }
  destruct (clusters_of_chain fs' h inode l H0 H1 Hget' Hch' Hlen) as [Hc' Hcl'].
  split; [exact Hget'|]. split; [exact Hc'|exact Hcl'].
Qed.

Lemma fat_touch_keeps_files_witness :
  exists fs',
    fat_touch two_cluster_fs (reg 3000) = Some (fs', 3) /\
    fat_get_inode fs' 2 = fat_get_inode two_cluster_fs 2 /\
    fat_clustercount fs' 2 = fat_clustercount two_cluster_fs 2 /\
    fat_get_clusters fs' 2 = Some ([3; 4] ++ [0]).
Proof.
  apply (fat_touch_keeps_files two_cluster_fs (reg 3000) 2 [3; 4]).
  - exact two_cluster_volume.
  - split; [reflexivity|simpl; lia].
  - split; [reflexivity|simpl; lia].
  - simpl. lia.
  - vm_compute. discriminate.
  - lia.
  - lia.
  - vm_compute. reflexivity.
  - repeat constructor; try (vm_compute; congruence);
      intros [_ Hz]; vm_compute in Hz; discriminate Hz.
Defined.

(** ** Time stamps *)

Lemma land_mask x k : 0 <= k -> Z.land x (Z.ones k) = x mod 2 ^ k.
Proof. intros. by apply Z.land_ones. Qed.

(** Three fields packed by shifts and ors are a sum. *)
Lemma pack3 a b c ka kb :
  0 < ka -> 0 < kb -> 0 <= a < 2 ^ ka -> 0 <= b < 2 ^ kb ->
  Z.lor (Z.lor (Z.shiftl c (ka + kb)) (Z.shiftl b ka)) a
  = a + 2 ^ ka * (b + 2 ^ kb * c).
Proof.
  intros Hka Hkb Ha Hb.
  rewrite Z.lor_comm.
  replace (Z.lor (Z.shiftl c (ka + kb)) (Z.shiftl b ka))
    with (Z.shiftl (Z.lor b (Z.shiftl c kb)) ka).
  2:{ rewrite Z.shiftl_lor, Z.shiftl_shiftl by lia.
      rewrite Z.lor_comm. f_equal. f_equal. lia. }
  rewrite lor_low_high by lia.
  rewrite (lor_low_high b c kb) by lia. lia.
Qed.

Lemma encode_time_sum t :
  encode_time t =
    tm_sec t mod 32 + 32 * (tm_min t mod 64 + 64 * (tm_hour t mod 32)).
Proof.
  unfold encode_time.
  change 0x1F with (Z.ones 5). change 0x3F with (Z.ones 6).
  rewrite !land_mask by lia.
  change 11 with (5 + 6).
  rewrite pack3 by (try lia; apply Z.mod_pos_bound; lia).
  change (2 ^ 5) with 32. change (2 ^ 6) with 64.
  pose proof (Z.mod_pos_bound (tm_sec t) 32 ltac:(lia)).
  pose proof (Z.mod_pos_bound (tm_min t) 64 ltac:(lia)).
  pose proof (Z.mod_pos_bound (tm_hour t) 32 ltac:(lia)).
  unfold u16, wrap. apply Z.mod_small. change (2 ^ 16) with 65536. lia.
Qed.

Lemma encode_date_sum t :
  encode_date t =
    tm_mday t mod 32 + 32 * (tm_mon t mod 16 + 16 * (tm_year t mod 128)).
Proof.
  unfold encode_date.
  change 0x1F with (Z.ones 5). change 0xF with (Z.ones 4). change 0x7F with (Z.ones 7).
  rewrite !land_mask by lia.
  change 9 with (5 + 4).
  rewrite pack3 by (try lia; apply Z.mod_pos_bound; lia).
  change (2 ^ 5) with 32. change (2 ^ 4) with 16. change (2 ^ 7) with 128.
  pose proof (Z.mod_pos_bound (tm_mday t) 32 ltac:(lia)).
  pose proof (Z.mod_pos_bound (tm_mon t) 16 ltac:(lia)).
  pose proof (Z.mod_pos_bound (tm_year t) 128 ltac:(lia)).
  unfold u16, wrap. apply Z.mod_small. change (2 ^ 16) with 65536. lia.
Qed.

Lemma unpack3 a b c ma mb mc :
  0 < ma -> 0 < mb -> 0 < mc ->
  0 <= a < ma -> 0 <= b < mb -> 0 <= c < mc ->
  let v := a + ma * (b + mb * c) in
  v mod ma = a /\ (v / ma) mod mb = b /\ (v / (ma * mb)) mod mc = c.
Proof.
  intros Hma Hmb Hmc Ha Hb Hc v. unfold v.
  assert (E1 : (a + ma * (b + mb * c)) / ma = b + mb * c).
  { rewrite Z.mul_comm, Z.div_add by lia. rewrite Z.div_small by lia. lia. }
  split; [|split].
  - rewrite Z.mul_comm, Z.mod_add by lia. by apply Z.mod_small.
  - rewrite E1. rewrite Z.mul_comm, Z.mod_add by lia. by apply Z.mod_small.
  - rewrite <- Z.div_div by lia. rewrite E1.
    rewrite Z.mul_comm, Z.div_add by lia. rewrite Z.div_small by lia.
    by apply Z.mod_small.
Qed.

Lemma decode_encode t :
  decode_time_date (encode_time t) (encode_date t) = tm_bits t /\
  decode_date (encode_date t) = tm_date_bits t.
Proof.
  unfold decode_time_date, decode_date, tm_bits, tm_date_bits.
  rewrite encode_time_sum, encode_date_sum.
  change 0x1F with (Z.ones 5). change 0x3F with (Z.ones 6).
  change 0xF with (Z.ones 4). change 0x7F with (Z.ones 7).
  rewrite !land_mask, !Z.shiftr_div_pow2 by lia.
  change (2 ^ 5) with 32. change (2 ^ 6) with 64. change (2 ^ 4) with 16.
  change (2 ^ 7) with 128. change (2 ^ 11) with (32 * 64). change (2 ^ 9) with (32 * 16).
  destruct (unpack3 (tm_sec t mod 32) (tm_min t mod 64) (tm_hour t mod 32) 32 64 32)
    as (-> & -> & ->); try lia; try (apply Z.mod_pos_bound; lia).
  destruct (unpack3 (tm_mday t mod 32) (tm_mon t mod 16) (tm_year t mod 128) 32 16 128)
    as (-> & -> & ->); try lia; try (apply Z.mod_pos_bound; lia).
  done.
Qed.

(** X10: Decoding the time and date words that fat_link packs gives each
    field of the struct tm reduced to the width of its bit field (seconds
    mod 32, minutes mod 64, hours mod 32, day mod 32, month mod 16, year mod
    128), so the same struct tm when its fields are in those ranges; a date
    word alone decodes to the date with a time of 0:00:00. *)
Theorem time_stamp_round_trip t :
  decode_time_date (encode_time t) (encode_date t) = tm_bits t /\
  decode_date (encode_date t) = tm_date_bits t /\
  (0 <= tm_sec t < 32 -> 0 <= tm_min t < 64 -> 0 <= tm_hour t < 32 ->
   0 <= tm_mday t < 32 -> 0 <= tm_mon t < 16 -> 0 <= tm_year t < 128 ->
   decode_time_date (encode_time t) (encode_date t) = t).
Proof.
  destruct (decode_encode t) as [E1 E2]. split; [exact E1|]. split; [exact E2|].
  intros. rewrite E1. unfold tm_bits. destruct t; simpl in *.
  rewrite !Z.mod_small by lia. reflexivity.
Qed.

Lemma time_stamp_round_trip_witness :
  decode_time_date (encode_time (mk_tm 45 59 23 31 11 112))
                   (encode_date (mk_tm 45 59 23 31 11 112))
  = mk_tm 13 59 23 31 11 112 /\
  decode_time_date (encode_time (mk_tm 30 59 23 31 11 112))
                   (encode_date (mk_tm 30 59 23 31 11 112))
  = mk_tm 30 59 23 31 11 112.
Proof.
  split.
  - exact (proj1 (time_stamp_round_trip (mk_tm 45 59 23 31 11 112))).
  - apply (time_stamp_round_trip (mk_tm 30 59 23 31 11 112)); simpl; lia.
Defined.

(** ** Words in a buffer *)

Lemma load16_bytes m a v :
  load8 m a = Some (v mod 256) -> load8 m (a + 1) = Some (v / 256 mod 256) ->
  load16 m a = Some (v mod 65536).
Proof.
  intros E1 E2. unfold load16. rewrite E1, bind_Some, E2, bind_Some.
  f_equal. rewrite lor_bytes by (unfold is_byte; apply Z.mod_pos_bound; lia). zlia.
Qed.

Lemma store32_spec m a v :
  0 <= a -> a + 3 < Z.of_nat (length m) ->
  exists m', store32 m a v = Some m' /\ length m' = length m /\
    forall b, load8 m' b =
      if b =? a then Some (v mod 256)
      else if b =? a + 1 then Some (v / 256 mod 256)
      else if b =? a + 2 then Some (v / 65536 mod 256)
      else if b =? a + 3 then Some (v / 16777216 mod 256)
      else load8 m b.
Proof.
  intros H0 H1. unfold store32.
  destruct (store16_spec m a (Z.land v 65535)) as (m1 & E1 & L1 & _ & S1); [lia|lia|].
  destruct (store16_spec m1 (a + 2) (Z.land (Z.shiftr v 16) 65535))
    as (m2 & E2 & L2 & _ & S2); [lia|lia|].
  rewrite E1, bind_Some, E2. eexists. split; [reflexivity|]. split; [congruence|].
  intros b. rewrite S2, S1.
  change 65535 with (Z.ones 16). rewrite !Z.land_ones, Z.shiftr_div_pow2 by lia.
  change (2 ^ 16) with 65536.
  replace (a + 2 + 1) with (a + 3) by lia.
  destruct (Z.eqb_spec b a), (Z.eqb_spec b (a + 1)), (Z.eqb_spec b (a + 2)),
    (Z.eqb_spec b (a + 3)); try lia; try reflexivity; f_equal; zlia.
Qed.

Lemma load32_bytes m a v :
  load8 m a = Some (v mod 256) -> load8 m (a + 1) = Some (v / 256 mod 256) ->
  load8 m (a + 2) = Some (v / 65536 mod 256) ->
  load8 m (a + 3) = Some (v / 16777216 mod 256) ->
  load32 m a = Some (v mod 2 ^ 32).
Proof.
  intros E0 E1 E2 E3. unfold load32.
  rewrite (load16_bytes m a v E0 E1), bind_Some.
  rewrite (load16_bytes m (a + 2) (v / 65536)), bind_Some.
  - f_equal. rewrite lor_low_high by (try lia; apply Z.mod_pos_bound; lia).
    change (2 ^ 16) with 65536. change (2 ^ 32) with 4294967296. zlia.
  - exact E2.
  - replace (a + 2 + 1) with (a + 3) by lia. rewrite E3. f_equal. zlia.
Qed.

(** ** The short entry written by fat_link *)

(** A byte at a fixed offset, read off a case table [H] of the buffer. *)
Ltac at_off H :=
  rewrite H;
  repeat match goal with
  | |- context [Z.eqb ?x ?y] =>
      destruct (Z.eqb_spec x y); [first [lia|reflexivity]|try lia]
  end; try reflexivity.

Section Entry.

Variable gmtime : Z -> tm.

Lemma link_entry_spec buffer de iino :
  0 <= de -> de + 32 <= Z.of_nat (length buffer) ->
  exists buffer',
    link_entry gmtime buffer de iino = Some buffer' /\
    length buffer' = length buffer /\
    (forall b, b < de + 11 \/ b = de + 12 \/ de + 32 <= b ->
       load8 buffer' b = load8 buffer b) /\
    load8 buffer' (de + de_attrib) = Some (ino_type iino mod 256) /\
    load8 buffer' (de + de_csec) = Some 0 /\
    load16 buffer' (de + de_ctime) = Some (encode_time (gmtime (ino_ctime iino))) /\
    load16 buffer' (de + de_cdate) = Some (encode_date (gmtime (ino_ctime iino))) /\
    load16 buffer' (de + de_adate) = Some (encode_date (gmtime (ino_atime iino))) /\
    load16 buffer' (de + de_mtime) = Some (encode_time (gmtime (ino_mtime iino))) /\
    load16 buffer' (de + de_mdate) = Some (encode_date (gmtime (ino_mtime iino))) /\
    load16 buffer' (de + de_cluster_high) = Some (ino_cluster iino / 65536 mod 65536) /\
    load16 buffer' (de + de_cluster_low) = Some (ino_cluster iino mod 256) /\
    load32 buffer' (de + de_size) = Some (ino_size iino mod 2 ^ 32).
Proof.
  intros H0 H1. unfold link_entry, de_attrib, de_csec, de_ctime, de_cdate,
    de_adate, de_mtime, de_mdate, de_cluster_high, de_cluster_low, de_size.
  destruct (store8_spec buffer (de + 11) (u8 (ino_type iino)))
    as (m1 & E1 & L1 & S1); [lia|].
  destruct (store8_spec m1 (de + 13) 0) as (m2 & E2 & L2 & S2); [lia|].
  destruct (store16_spec m2 (de + 14) (encode_time (gmtime (ino_ctime iino))))
    as (m3 & E3 & L3 & _ & S3); [lia|lia|].
  destruct (store16_spec m3 (de + 16) (encode_date (gmtime (ino_ctime iino))))
    as (m4 & E4 & L4 & _ & S4); [lia|lia|].
  destruct (store16_spec m4 (de + 18) (encode_date (gmtime (ino_atime iino))))
    as (m5 & E5 & L5 & _ & S5); [lia|lia|].
  destruct (store16_spec m5 (de + 22) (encode_time (gmtime (ino_mtime iino))))
    as (m6 & E6 & L6 & _ & S6); [lia|lia|].
  destruct (store16_spec m6 (de + 24) (encode_date (gmtime (ino_mtime iino))))
    as (m7 & E7 & L7 & _ & S7); [lia|lia|].
  destruct (store16_spec m7 (de + 20) (u16 (Z.shiftr (ino_cluster iino) 16)))
    as (m8 & E8 & L8 & _ & S8); [lia|lia|].
  destruct (store16_spec m8 (de + 26) (u16 (Z.land (ino_cluster iino) 255)))
    as (m9 & E9 & L9 & _ & S9); [lia|lia|].
  destruct (store32_spec m9 (de + 28) (u32 (ino_size iino)))
    as (m10 & E10 & L10 & S10); [lia|lia|].
  rewrite E1, bind_Some, E2, bind_Some, E3, bind_Some, E4, bind_Some, E5, bind_Some,
    E6, bind_Some, E7, bind_Some, E8, bind_Some, E9, bind_Some, E10.
  exists m10. split; [reflexivity|]. split; [congruence|].
  assert (Hload : forall b, load8 m10 b =
    if b =? de + 28 then Some (u32 (ino_size iino) mod 256)
    else if b =? de + 28 + 1 then Some (u32 (ino_size iino) / 256 mod 256)
    else if b =? de + 28 + 2 then Some (u32 (ino_size iino) / 65536 mod 256)
    else if b =? de + 28 + 3 then Some (u32 (ino_size iino) / 16777216 mod 256)
    else if b =? de + 26 then Some (u16 (Z.land (ino_cluster iino) 255) mod 256)
    else if b =? de + 26 + 1 then Some (u16 (Z.land (ino_cluster iino) 255) / 256 mod 256)
    else if b =? de + 20 then Some (u16 (Z.shiftr (ino_cluster iino) 16) mod 256)
    else if b =? de + 20 + 1 then Some (u16 (Z.shiftr (ino_cluster iino) 16) / 256 mod 256)
    else if b =? de + 24 then Some (encode_date (gmtime (ino_mtime iino)) mod 256)
    else if b =? de + 24 + 1 then Some (encode_date (gmtime (ino_mtime iino)) / 256 mod 256)
    else if b =? de + 22 then Some (encode_time (gmtime (ino_mtime iino)) mod 256)
    else if b =? de + 22 + 1 then Some (encode_time (gmtime (ino_mtime iino)) / 256 mod 256)
    else if b =? de + 18 then Some (encode_date (gmtime (ino_atime iino)) mod 256)
    else if b =? de + 18 + 1 then Some (encode_date (gmtime (ino_atime iino)) / 256 mod 256)
    else if b =? de + 16 then Some (encode_date (gmtime (ino_ctime iino)) mod 256)
    else if b =? de + 16 + 1 then Some (encode_date (gmtime (ino_ctime iino)) / 256 mod 256)
    else if b =? de + 14 then Some (encode_time (gmtime (ino_ctime iino)) mod 256)
    else if b =? de + 14 + 1 then Some (encode_time (gmtime (ino_ctime iino)) / 256 mod 256)
    else if b =? de + 13 then Some 0
    else if b =? de + 11 then Some (u8 (ino_type iino))
    else load8 buffer b).
  { intros b. rewrite S10, S9, S8, S7, S6, S5, S4, S3, S2, S1. reflexivity. }
  split.
  { intros b Hb. rewrite Hload.
    repeat match goal with
    | |- context [?x =? ?y] => destruct (Z.eqb_spec x y); [lia|]
    end. reflexivity. }
  assert (Hu16 : forall x, u16 x mod 65536 = u16 x)
    by (intros x; unfold u16, wrap; change (2 ^ 16) with 65536; zlia).
  assert (Henc_t : forall t, encode_time t mod 65536 = encode_time t)
    by (intros t; unfold encode_time; apply Hu16).
  assert (Henc_d : forall t, encode_date t mod 65536 = encode_date t)
    by (intros t; unfold encode_date; apply Hu16).
  split.
  { replace (ino_type iino mod 256) with (u8 (ino_type iino)) by reflexivity.
    at_off Hload. }
  split; [at_off Hload|].
  split.
  { rewrite <- Henc_t.
    apply load16_bytes; at_off Hload. }
  split.
  { rewrite <- Henc_d.
    apply load16_bytes; at_off Hload. }
  split.
  { rewrite <- Henc_d.
    apply load16_bytes; at_off Hload. }
  split.
  { rewrite <- Henc_t.
    apply load16_bytes; at_off Hload. }
  split.
  { rewrite <- Henc_d.
    apply load16_bytes; at_off Hload. }
  split.
  { replace (ino_cluster iino / 65536 mod 65536)
      with (u16 (Z.shiftr (ino_cluster iino) 16) mod 65536).
    - apply load16_bytes; at_off Hload.
    - rewrite Hu16. unfold u16, wrap. rewrite Z.shiftr_div_pow2 by lia. reflexivity. }
  split.
  { replace (ino_cluster iino mod 256)
      with (u16 (Z.land (ino_cluster iino) 255) mod 65536).
    - apply load16_bytes; at_off Hload.
    - rewrite Hu16. unfold u16, wrap. rewrite land_255.
      change (2 ^ 16) with 65536. zlia. }
  replace (ino_size iino mod 2 ^ 32) with (u32 (ino_size iino) mod 2 ^ 32)
    by (unfold u32, wrap; apply Z.mod_mod; lia).
  apply load32_bytes; at_off Hload.
Qed.

End Entry.

(** ** Short names *)

Lemma cstring_nonzero m : Forall (fun c => c <> 0) (cstring m).
Proof.
  induction m as [|x m IH]; simpl; [constructor|].
  destruct (Z.eqb_spec x 0); [constructor|]. by constructor.
Qed.

Lemma cstring_app l r : Forall (fun c => c <> 0) l -> cstring (l ++ r) = l ++ cstring r.
Proof.
  induction 1 as [|x l Hx _ IH]; simpl; [done|].
  destruct (Z.eqb_spec x 0); [done|]. by rewrite IH.
Qed.

Lemma cstring_app_zero l r : Forall (fun c => c <> 0) l -> cstring (l ++ 0 :: r) = l.
Proof. intros H. rewrite cstring_app by done. simpl. apply app_nil_r. Qed.

Lemma cstring_all l : Forall (fun c => c <> 0) l -> cstring l = l.
Proof.
  intros H. rewrite <- (app_nil_r l) at 1. rewrite cstring_app by done.
  simpl. apply app_nil_r.
Qed.

Lemma upto_split c m :
  exists rest, m = upto c m ++ rest /\ (rest = [] \/ exists r, rest = c :: r).
Proof.
  induction m as [|x m (rest & E & Hr)]; simpl.
  - exists []. split; [done|by left].
  - destruct (Z.eqb_spec x c) as [->|].
    + exists (c :: m). split; [done|]. right. by exists m.
    + exists rest. split; [simpl; congruence|done].
Qed.

Lemma upto_not c m : Forall (fun x => x <> c) (upto c m).
Proof.
  induction m as [|x m IH]; simpl; [constructor|].
  destruct (Z.eqb_spec x c); [constructor|]. by constructor.
Qed.

Lemma upto_Forall (P : Z -> Prop) c m : Forall P m -> Forall P (upto c m).
Proof.
  induction 1 as [|x m Hx _ IH]; simpl; [constructor|].
  destruct (x =? c); [constructor|]. by constructor.
Qed.

Lemma upto_length c m : (length (upto c m) <= length m)%nat.
Proof.
  induction m as [|x m IH]; simpl; [lia|]. destruct (x =? c); simpl; lia.
Qed.

Lemma strchr_app l r c :
  Forall (fun x => x <> c /\ x <> 0) l ->
  strchr (l ++ r) c = (fun i => (length l + i)%nat) <$> strchr r c.
Proof.
  induction 1 as [|x l [Hc Hz] _ IH]; simpl.
  - by destruct (strchr r c).
  - destruct (Z.eqb_spec x c); [done|]. destruct (Z.eqb_spec x 0); [done|].
    rewrite IH. by destruct (strchr r c).
Qed.

Lemma memcpy_at_app (a b c b' : list Z) :
  length b' = length b -> memcpy_at (a ++ b ++ c) (length a) b' = a ++ b' ++ c.
Proof.
  intros H. unfold memcpy_at.
  rewrite take_app_length. f_equal. f_equal.
  rewrite drop_app_ge by lia. rewrite drop_app_ge by lia.
  replace (length a + length b' - length a - length b)%nat with 0%nat by lia.
  reflexivity.
Qed.

Lemma strncpy_bytes_eq src n :
  strncpy_bytes src n = take n (cstring src) ++ replicate (n - length (take n (cstring src))) 0.
Proof. reflexivity. Qed.

Lemma length_strncpy_bytes src n : length (strncpy_bytes src n) = n.
Proof.
  unfold strncpy_bytes. rewrite length_app, length_replicate, length_take. lia.
Qed.

Lemma fat_make_shortname_eq name :
  fat_make_shortname name = pad 8 (short_base name) ++ pad 3 (short_ext name).
Proof.
  unfold fat_make_shortname, short_base, short_ext, pad.
  set (c8 := take 8 (cstring name)).
  assert (Hc8 : Forall (fun c => c <> 0) c8) by (apply Forall_take, cstring_nonzero).
  assert (Lc8 : (length c8 <= 8)%nat) by (unfold c8; rewrite length_take; lia).
  set (q := upto 46 c8).
  assert (Hq0 : Forall (fun c => c <> 0) q) by (by apply upto_Forall).
  assert (Hq46 : Forall (fun c => c <> 46) q) by apply upto_not.
  assert (Lq : (length q <= length c8)%nat) by apply upto_length.
  (* the first copy *)
  assert (E1 : memcpy_at (calloc 11) 0 (strncpy_bytes name 8)
               = c8 ++ replicate (8 - length c8) 0 ++ [0; 0; 0]).
  { assert (Es : strncpy_bytes name 8 = c8 ++ replicate (8 - length c8) 0) by reflexivity.
    rewrite Es.
    assert (Hl : length (c8 ++ replicate (8 - length c8) 0) = length (replicate 8 0))
      by (rewrite length_app, !length_replicate; lia).
    pose proof (memcpy_at_app [] (replicate 8 0) [0; 0; 0] _ Hl) as E.
    rewrite <- app_assoc in E. exact E. }
  rewrite E1. clear E1.
  (* the cut at the first dot *)
  assert (E2 : exists b,
    match strchr (c8 ++ replicate (8 - length c8) 0 ++ [0; 0; 0]) 46 with
    | Some dot => <[dot := 0]> (c8 ++ replicate (8 - length c8) 0 ++ [0; 0; 0])
    | None => c8 ++ replicate (8 - length c8) 0 ++ [0; 0; 0]
    end = q ++ b ++ [0; 0; 0] /\
    length b = (8 - length q)%nat /\
    (b ++ [0; 0; 0] = 0 :: tail (b ++ [0; 0; 0]))).
  { destruct (upto_split 46 c8) as (rest & Ec8 & Hrest). fold q in Ec8.
    clearbody q c8. subst c8. destruct Hrest as [->|[r ->]].
    - rewrite app_nil_r in *.
      rewrite strchr_app by (apply Forall_and; split; done).
      assert (Hz : exists t, replicate (8 - length q) 0 ++ [0; 0; 0] = 0 :: t).
      { destruct (8 - length q)%nat; simpl; eauto. }
      destruct Hz as (t & Hz).
      assert (Hs : strchr (replicate (8 - length q) 0 ++ [0; 0; 0]) 46 = None)
        by (rewrite Hz; reflexivity).
      rewrite Hs. simpl.
      exists (replicate (8 - length q) 0). split; [done|].
      split; [apply length_replicate|]. rewrite Hz. reflexivity.
    - rewrite <- !app_assoc.
      rewrite strchr_app by (apply Forall_and; split; done).
      simpl. rewrite Nat.add_0_r.
      rewrite insert_app_r_alt by lia. rewrite Nat.sub_diag. simpl.
      exists (0 :: r ++ replicate (8 - length (q ++ 46 :: r)) 0). split.
      + simpl. by rewrite <- app_assoc.
      + split; [|reflexivity].
        rewrite length_app in Lc8. simpl in Lc8.
        simpl. rewrite !length_app, length_replicate. simpl. lia. }
  destruct E2 as (b & -> & Lb & Hb0).
  (* the first padding *)
  assert (S2 : strlen (q ++ b ++ [0; 0; 0]) = Z.of_nat (length q)).
  { unfold strlen. rewrite Hb0, cstring_app_zero by done. reflexivity. }
  rewrite S2.
  assert (E3 : fill_spaces (q ++ b ++ [0; 0; 0]) (Z.of_nat (length q)) 8
               = (q ++ replicate (8 - length q) 32) ++ [0; 0; 0] ++ []).
  { unfold fill_spaces. destruct (Z.ltb_spec (Z.of_nat (length q)) 8).
    - rewrite Nat2Z.id. rewrite memcpy_at_app.
      + replace (Z.to_nat (8 - Z.of_nat (length q))) with (8 - length q)%nat by lia.
        by rewrite <- app_assoc.
      + rewrite length_replicate. lia.
    - assert (length q = 8%nat) by lia.
      replace (8 - length q)%nat with 0%nat by lia.
      destruct b; [|simpl in Lb; lia]. simpl. by rewrite !app_nil_r. }
  rewrite E3. clear E3 S2.
  set (x8 := q ++ replicate (8 - length q) 32).
  assert (Lx8 : length x8 = 8%nat).
  { unfold x8. rewrite length_app, length_replicate. lia. }
  assert (Hx8 : Forall (fun c => c <> 0) x8).
  { unfold x8. apply Forall_app. split; [done|]. by apply Forall_replicate. }
  (* the extension *)
  set (e := match strrchr name 46 with
            | Some dot => take 3 (cstring (drop (S dot) name))
            | None => []
            end).
  assert (He : Forall (fun c => c <> 0) e).
  { unfold e. destruct (strrchr name 46); [|constructor].
    apply Forall_take, cstring_nonzero. }
  assert (Le : (length e <= 3)%nat).
  { unfold e. destruct (strrchr name 46); [|simpl; lia]. rewrite length_take. lia. }
  assert (E4 : match strrchr name 46 with
               | Some dot => memcpy_at (x8 ++ [0; 0; 0] ++ []) 8
                               (strncpy_bytes (drop (S dot) name) 3)
               | None => x8 ++ [0; 0; 0] ++ []
               end = (x8 ++ e) ++ replicate (3 - length e) 0 ++ []).
  { unfold e. destruct (strrchr name 46) as [dot|].
    - rewrite <- Lx8 at 1. rewrite memcpy_at_app.
      + rewrite strncpy_bytes_eq. by rewrite <- !app_assoc.
      + apply length_strncpy_bytes.
    - simpl. by rewrite !app_nil_r. }
  rewrite E4. clear E4.
  (* the second padding *)
  assert (S4 : strlen ((x8 ++ e) ++ replicate (3 - length e) 0 ++ [])
               = Z.of_nat (length (x8 ++ e))).
  { unfold strlen. rewrite app_nil_r.
    assert (Hxe : Forall (fun c => c <> 0) (x8 ++ e)) by (apply Forall_app; done).
    destruct (3 - length e)%nat as [|k]; simpl.
    - rewrite app_nil_r. by rewrite cstring_all.
    - by rewrite cstring_app_zero. }
  rewrite S4. unfold fill_spaces.
  rewrite length_app, Lx8.
  destruct (Z.ltb_spec (Z.of_nat (8 + length e)) 11).
  - replace (Z.to_nat (Z.of_nat (8 + length e))) with (length (x8 ++ e))
      by (rewrite length_app; lia).
    rewrite memcpy_at_app by (rewrite !length_replicate; lia).
    replace (Z.to_nat (11 - Z.of_nat (8 + length e))) with (3 - length e)%nat by lia.
    rewrite app_nil_r. unfold x8. by rewrite <- !app_assoc.
  - replace (3 - length e)%nat with 0%nat by lia. simpl.
    rewrite !app_nil_r. unfold x8. by rewrite <- !app_assoc.
Qed.

Lemma upto_all c l : Forall (fun x => x <> c) l -> upto c l = l.
Proof.
  induction 1 as [|x l Hx _ IH]; simpl; [done|].
  destruct (Z.eqb_spec x c); [done|]. by rewrite IH.
Qed.

Lemma upto_app c l r : Forall (fun x => x <> c) l -> upto c (l ++ c :: r) = l.
Proof.
  induction 1 as [|x l Hx _ IH]; simpl.
  - by rewrite Z.eqb_refl.
  - destruct (Z.eqb_spec x c); [done|]. by rewrite IH.
Qed.

Lemma strrchr_none c l : Forall (fun x => x <> c) l -> strrchr l c = None.
Proof.
  induction 1 as [|x l Hx _ IH]; simpl; [done|].
  destruct (x =? 0); [done|]. rewrite IH.
  destruct (Z.eqb_spec x c); done.
Qed.

Lemma strrchr_app c l r i :
  Forall (fun x => x <> 0) l -> strrchr r c = Some i ->
  strrchr (l ++ r) c = Some (length l + i)%nat.
Proof.
  intros Hl Hr. induction Hl as [|x l Hx _ IH]; simpl; [done|].
  destruct (Z.eqb_spec x 0); [done|]. by rewrite IH.
Qed.

Lemma short_parts base ext :
  Forall (fun c => c <> 0 /\ c <> 46) base ->
  Forall (fun c => c <> 0 /\ c <> 46) ext ->
  short_base (base ++ 46 :: ext) = take 8 base /\
  short_ext (base ++ 46 :: ext) = take 3 ext /\
  short_base base = take 8 base /\ short_ext base = [].
Proof.
  intros Hb He.
  apply Forall_and in Hb as [Hb0 Hb46]. apply Forall_and in He as [He0 He46].
  assert (Hall : Forall (fun c => c <> 0) (base ++ 46 :: ext)).
  { apply Forall_app. split; [done|]. constructor; [lia|done]. }
  split; [|split; [|split]].
  - unfold short_base. rewrite cstring_all by done.
    destruct (Nat.le_gt_cases 8 (length base)).
    + rewrite take_app_le by lia. apply upto_all. by apply Forall_take.
    + rewrite take_app_ge by lia. rewrite (take_ge base) by lia.
      destruct (8 - length base)%nat as [|k] eqn:E; [lia|]. simpl.
      by apply upto_app.
  - unfold short_ext.
    rewrite (strrchr_app 46 base (46 :: ext) 0 Hb0).
    + rewrite Nat.add_0_r.
      replace (S (length base)) with (length (base ++ [46])) by (rewrite length_app; simpl; lia).
      rewrite (app_assoc base [46] ext : base ++ 46 :: ext = (base ++ [46]) ++ ext).
      rewrite drop_app_length. by rewrite cstring_all.
    + simpl. by rewrite strrchr_none.
  - unfold short_base. rewrite cstring_all by done. apply upto_all. by apply Forall_take.
  - unfold short_ext. by rewrite strrchr_none.
Qed.

(** ** Properties of names and directory entries *)

(** X11: For every name, fat_make_shortname returns 11 bytes, none of them
    NUL: the first 8 characters of the name cut at their first dot and
    padded with blanks, then the first 3 characters behind the last dot of
    the name, padded with blanks. *)
Theorem fat_make_shortname_closed_form name :
  fat_make_shortname name = pad 8 (short_base name) ++ pad 3 (short_ext name) /\
  length (fat_make_shortname name) = 11%nat /\
  Forall (fun c => c <> 0) (fat_make_shortname name).
Proof.
  rewrite fat_make_shortname_eq.
  assert (Lb : (length (short_base name) <= 8)%nat).
  { unfold short_base. etrans; [apply upto_length|]. rewrite length_take. lia. }
  assert (Le : (length (short_ext name) <= 3)%nat).
  { unfold short_ext. destruct (strrchr name 46); [|simpl; lia]. rewrite length_take. lia. }
  split; [done|]. split.
  - unfold pad. rewrite !length_app, !length_replicate. lia.
  - unfold pad. rewrite !Forall_app. repeat split.
    + unfold short_base. apply upto_Forall, Forall_take, cstring_nonzero.
    + by apply Forall_replicate.
    + unfold short_ext. destruct (strrchr name 46); [|constructor].
      apply Forall_take, cstring_nonzero.
    + by apply Forall_replicate.
Qed.

(** X12: For a name base.ext whose two parts hold no dot, the short name is
    the first 8 characters of base and the first 3 of ext, each padded with
    blanks, so long names that agree on these get the same short name (no ~1
    numbering); a name without a dot gets three blanks as extension. *)
Theorem fat_make_shortname_dotted base ext :
  Forall (fun c => c <> 0 /\ c <> 46) base ->
  Forall (fun c => c <> 0 /\ c <> 46) ext ->
  fat_make_shortname (base ++ 46 :: ext) = pad 8 (take 8 base) ++ pad 3 (take 3 ext) /\
  fat_make_shortname base = pad 8 (take 8 base) ++ [32; 32; 32].
Proof.
  intros Hb He. destruct (short_parts base ext Hb He) as (E1 & E2 & E3 & E4).
  rewrite !fat_make_shortname_eq, E1, E2, E3, E4. done.
Qed.

Lemma fat_make_shortname_dotted_witness :
  fat_make_shortname (cstr "verylongname1.text") = cstr "verylongtex" /\
  fat_make_shortname (cstr "verylongname2.text") = cstr "verylongtex" /\
  fat_make_shortname (cstr "Makefile") = cstr "Makefile   ".
Proof.
  split; [|split].
  - apply (fat_make_shortname_dotted (cstr "verylongname1") (cstr "text"));
      repeat constructor; discriminate.
  - apply (fat_make_shortname_dotted (cstr "verylongname2") (cstr "text"));
      repeat constructor; discriminate.
  - apply (fat_make_shortname_dotted (cstr "Makefile") []);
      repeat constructor; discriminate.
Defined.

(** X13: For an entry of 32 bytes inside the buffer, the short entry that
    fat_link fills in leaves the 11 name bytes, byte 12 and everything
    outside the entry as they were; it stores the type cut to 8 bits, csec
    0, the five packed time and date words, the size cut to 32 bits,
    cluster_high = (c / 65536) mod 65536 and cluster_low = c mod 256 for the
    first cluster c: bits 8 to 15 of c are stored nowhere. *)
Theorem link_entry_fields (gmtime : Z -> tm) buffer de iino :
  0 <= de -> de + 32 <= Z.of_nat (length buffer) ->
  exists buffer',
    link_entry gmtime buffer de iino = Some buffer' /\
    length buffer' = length buffer /\
    (forall b, b < de + 11 \/ b = de + 12 \/ de + 32 <= b ->
       load8 buffer' b = load8 buffer b) /\
    load8 buffer' (de + de_attrib) = Some (ino_type iino mod 256) /\
    load8 buffer' (de + de_csec) = Some 0 /\
    load16 buffer' (de + de_ctime) = Some (encode_time (gmtime (ino_ctime iino))) /\
    load16 buffer' (de + de_cdate) = Some (encode_date (gmtime (ino_ctime iino))) /\
    load16 buffer' (de + de_adate) = Some (encode_date (gmtime (ino_atime iino))) /\
    load16 buffer' (de + de_mtime) = Some (encode_time (gmtime (ino_mtime iino))) /\
    load16 buffer' (de + de_mdate) = Some (encode_date (gmtime (ino_mtime iino))) /\
    load16 buffer' (de + de_cluster_high) = Some (ino_cluster iino / 65536 mod 65536) /\
    load16 buffer' (de + de_cluster_low) = Some (ino_cluster iino mod 256) /\
    load32 buffer' (de + de_size) = Some (ino_size iino mod 2 ^ 32).
Proof. apply link_entry_spec. Qed.

Lemma link_entry_fields_witness :
  exists buffer',
    link_entry epoch (calloc 64) 32 (mk_inode 1 0x10 0x12345 77 0 0 0) = Some buffer' /\
    length buffer' = length (calloc 64) /\
    (forall b, b < 32 + 11 \/ b = 32 + 12 \/ 32 + 32 <= b ->
       load8 buffer' b = load8 (calloc 64) b) /\
    load8 buffer' (32 + de_attrib) = Some (0x10 mod 256) /\
    load8 buffer' (32 + de_csec) = Some 0 /\
    load16 buffer' (32 + de_ctime) = Some (encode_time (epoch 0)) /\
    load16 buffer' (32 + de_cdate) = Some (encode_date (epoch 0)) /\
    load16 buffer' (32 + de_adate) = Some (encode_date (epoch 0)) /\
    load16 buffer' (32 + de_mtime) = Some (encode_time (epoch 0)) /\
    load16 buffer' (32 + de_mdate) = Some (encode_date (epoch 0)) /\
    load16 buffer' (32 + de_cluster_high) = Some (0x12345 / 65536 mod 65536) /\
    load16 buffer' (32 + de_cluster_low) = Some (0x12345 mod 256) /\
    load32 buffer' (32 + de_size) = Some (77 mod 2 ^ 32).
Proof.
  apply (link_entry_fields epoch (calloc 64) 32 (mk_inode 1 0x10 0x12345 77 0 0 0)).
  - lia.
  - vm_compute. discriminate.
Defined.

(** X14: For a name of at least one character whose long-name entries fit
    the buffer, fat_write_longname returns the address behind these entries,
    changes no byte outside them, sets the type byte of each to 0, and
    leaves the two cluster bytes (26 and 27) of each entry as they were. *)
Theorem fat_write_longname_frame buf de name :
  1 <= strlen name -> 0 <= de ->
  de + 32 * longname_entries name <= Z.of_nat (length buf) ->
  exists buf',
    fat_write_longname buf de name = Some (buf', de + 32 * longname_entries name) /\
    length buf' = length buf /\
    (forall b, b < de \/ de + 32 * longname_entries name <= b ->
       load8 buf' b = load8 buf b) /\
    forall t, 0 <= t < longname_entries name ->
      load8 buf' (de + 32 * t + ln_entry_type) = Some 0 /\
      load8 buf' (de + 32 * t + ln_cluster) = load8 buf (de + 32 * t + ln_cluster) /\
      load8 buf' (de + 32 * t + ln_cluster + 1) = load8 buf (de + 32 * t + ln_cluster + 1).
Proof.
  intros Hlen Hde Hroom.
  destruct (fat_write_longname_spec buf de name Hlen Hde Hroom) as (buf' & Ew & Hl & Hb).
  exists buf'. split; [done|]. split; [done|]. split.
  - intros b Hout. rewrite Hb.
    destruct (Z.leb_spec de b), (Z.ltb_spec b (de + 32 * longname_entries name));
      simpl; try reflexivity; lia.
  - intros t Ht. unfold ln_entry_type, ln_cluster.
    assert (Hin : forall o, 0 < o < 32 ->
      load8 buf' (de + 32 * t + o) =
        Some (ln_byte (scratch name) (fat_checksum (fat_make_shortname name))
                (u8 (longname_entries name - t))
                (26 * (longname_entries name - 1 - t)) o (sc buf (de + 32 * t + o)))).
    { intros o Ho. rewrite Hb.
      destruct (Z.leb_spec de (de + 32 * t + o)); [|lia].
      destruct (Z.ltb_spec (de + 32 * t + o) (de + 32 * longname_entries name)); [|lia].
      simpl. destruct (Z.eqb_spec (de + 32 * t + o) de); [lia|].
      replace ((de + 32 * t + o - de) / 32) with t by zlia.
      replace ((de + 32 * t + o - de) mod 32) with o by zlia.
      reflexivity. }
    split; [|split].
    + rewrite (Hin 12) by lia. reflexivity.
    + rewrite (Hin 26) by lia. unfold ln_byte. simpl.
      symmetry. apply load8_sc. lia.
    + rewrite <- Z.add_assoc. rewrite (Hin (26 + 1)) by lia. unfold ln_byte. simpl.
      symmetry. apply load8_sc. lia.
Qed.

Lemma fat_write_longname_frame_witness :
  exists buf',
    fat_write_longname (replicate 64 0xAA) 0 (cstr "hello-world-name.txt")
      = Some (buf', 64) /\
    length buf' = 64%nat /\
    (forall b, b < 0 \/ 64 <= b -> load8 buf' b = load8 (replicate 64 0xAA) b) /\
    forall t, 0 <= t < 2 ->
      load8 buf' (0 + 32 * t + ln_entry_type) = Some 0 /\
      load8 buf' (0 + 32 * t + ln_cluster)
        = load8 (replicate 64 0xAA) (0 + 32 * t + ln_cluster) /\
      load8 buf' (0 + 32 * t + ln_cluster + 1)
        = load8 (replicate 64 0xAA) (0 + 32 * t + ln_cluster + 1).
Proof.
  apply (fat_write_longname_frame (replicate 64 0xAA) 0 (cstr "hello-world-name.txt")).
  - vm_compute. discriminate.
  - lia.
  - vm_compute. discriminate.
Defined.

(** X15: For an empty name fat_write_longname writes no long-name entry,
    returns the address it was given, and still sets bit 0x40 in the byte at
    that address. *)
Theorem fat_write_longname_empty buf de name b :
  cstring name = [] -> load8 buf de = Some b ->
  fat_write_longname buf de name = Some (<[Z.to_nat de := Z.lor b 0x40]> buf, de).
Proof.
  intros Hn Hb.
  assert (E : longname_entries name = 0)
    by (unfold longname_entries, strlen; rewrite Hn; reflexivity).
  unfold fat_write_longname. rewrite E.
  change (Z.to_nat 0) with 0%nat. cbn [longname_loop]. rewrite bind_Some.
  unfold ln_num. replace (de + 0) with de by lia. rewrite Hb, bind_Some.
  unfold store8. apply load8_Some_range in Hb.
  destruct (Z.leb_spec 0 de); [|lia].
  destruct (Z.ltb_spec de (Z.of_nat (length buf))); [|lia].
  cbn [andb]. rewrite bind_Some. replace (de + 32 * 0) with de by lia. reflexivity.
Qed.

Lemma fat_write_longname_empty_witness :
  fat_write_longname [0x21; 1; 2] 0 [] = Some ([0x61; 1; 2], 0).
Proof.
  apply (fat_write_longname_empty [0x21; 1; 2] 0 [] 0x21); reflexivity.
Defined.

Lemma u16_small z : 0 <= z < 2 ^ 16 -> u16 z = z.
Proof. intros H. unfold u16, wrap. by apply Z.mod_small. Qed.

(** ** Unmounting and mounting *)

Lemma load_bytes_all m : load_bytes m 0 (Z.of_nat (length m)) = Some m.
Proof.
  unfold load_bytes.
  assert (H : (0 <=? 0) && (0 <=? Z.of_nat (length m))
              && (0 + Z.of_nat (length m) <=? Z.of_nat (length m)) = true)
    by (rewrite !andb_true_iff, !Z.leb_le; lia).
  rewrite H. rewrite Nat2Z.id. change (Z.to_nat 0) with 0%nat. rewrite drop_0.
  by rewrite take_ge by lia.
Qed.

(** Two buffers with the same bytes are the same. *)
Lemma load8_ext m1 m2 :
  length m1 = length m2 ->
  (forall b, 0 <= b < Z.of_nat (length m1) -> load8 m1 b = load8 m2 b) ->
  m1 = m2.
Proof.
  intros Hl H. apply list_eq. intros i.
  destruct (Nat.lt_ge_cases i (length m1)).
  - specialize (H (Z.of_nat i) ltac:(lia)).
    rewrite !load8_lookup, Nat2Z.id in H by lia. done.
  - rewrite !lookup_ge_None_2; [done|lia|lia].
Qed.

(** Reading back a range whose bytes are known. *)
Lemma load_bytes_known m a bs :
  0 <= a -> a + Z.of_nat (length bs) <= Z.of_nat (length m) ->
  (forall x, (x < length bs)%nat -> load8 m (a + Z.of_nat x) = bs !! x) ->
  load_bytes m a (Z.of_nat (length bs)) = Some bs.
Proof.
  intros Ha Hr Hb.
  destruct (load_bytes_spec m a (Z.of_nat (length bs)) Ha ltac:(lia) Hr)
    as (bs' & E & Hl & Hx).
  rewrite E. f_equal. apply list_eq. intros i.
  destruct (Nat.lt_ge_cases i (length bs)).
  - rewrite Hx by lia. by apply Hb.
  - rewrite !lookup_ge_None_2; [done|lia|lia].
Qed.

Lemma close_loop_spec fs (p0 : list Z) :
  let r := reserved_sectors (fs_bpb fs) in
  let spf := sectors_per_fat (fs_bpb fs) in
  let n := fat_count (fs_bpb fs) in
  let L := Z.of_nat (length (fs_fat fs)) in
  0 <= r -> 0 <= n -> L = spf * BLOCK_SIZE ->
  r + n * spf < 2 ^ 32 ->
  (r + n * spf) * BLOCK_SIZE <= Z.of_nat (length p0) ->
  forall fuel i p,
    0 <= i <= n -> n - i <= Z.of_nat fuel -> length p = length p0 ->
    exists p',
      close_loop fs fuel i (r + i * spf) p = Some p' /\
      length p' = length p0 /\
      forall b, load8 p' b =
        if ((r + i * spf) * BLOCK_SIZE <=? b) && (b <? (r + n * spf) * BLOCK_SIZE)
        then fs_fat fs !! Z.to_nat ((b - r * BLOCK_SIZE) mod L)
        else load8 p b.
Proof.
  intros r spf n L Hr Hn HL H32 Hroom. unfold BLOCK_SIZE in *.
  assert (Hspf : 0 <= spf) by lia.
  induction fuel as [|fuel IH]; intros i p Hi Hfuel Hp; cbn [close_loop]; fold n spf.
  - destruct (Z.ltb_spec i n); [lia|]. assert (i = n) as -> by lia.
    exists p. split; [done|]. split; [done|]. intros b.
    destruct (Z.leb_spec ((r + n * spf) * 512) b),
      (Z.ltb_spec b ((r + n * spf) * 512)); simpl; try reflexivity; lia.
  - destruct (Z.ltb_spec i n).
    2:{ assert (i = n) as -> by lia.
        exists p. split; [done|]. split; [done|]. intros b.
        destruct (Z.leb_spec ((r + n * spf) * 512) b),
          (Z.ltb_spec b ((r + n * spf) * 512)); simpl; try reflexivity; lia. }
    unfold BLOCK_SIZE. rewrite <- HL. unfold L. rewrite load_bytes_all, bind_Some.
    assert (Hin : (r + i * spf) * 512 + L <= Z.of_nat (length p)) by (rewrite Hp; nia).
    destruct (store_bytes_spec p ((r + i * spf) * 512) (fs_fat fs) ltac:(nia) Hin)
      as (p1 & E1 & L1 & S1).
    unfold partition_writeblocks, BLOCK_SIZE. rewrite E1.
    rewrite u32_small by nia.
    replace (r + i * spf + spf) with (r + (i + 1) * spf) by lia.
    destruct (IH (i + 1) p1 ltac:(lia) ltac:(lia) ltac:(congruence)) as (p' & E' & L' & S').
    exists p'. split; [exact E'|]. split; [exact L'|].
    intros b. rewrite S', S1. fold L.
    destruct (Z.leb_spec ((r + (i + 1) * spf) * 512) b),
      (Z.ltb_spec b ((r + n * spf) * 512)),
      (Z.leb_spec ((r + i * spf) * 512) b),
      (Z.ltb_spec b ((r + i * spf) * 512 + L)); simpl; try reflexivity; try nia.
    f_equal. f_equal.
    replace (b - r * 512) with ((b - (r + i * spf) * 512) + i * L) by lia.
    rewrite Z.mod_add by lia. symmetry. apply Z.mod_small. lia.
Qed.

Lemma fat_hook_close_spec fs :
  let r := reserved_sectors (fs_bpb fs) in
  let spf := sectors_per_fat (fs_bpb fs) in
  let n := fat_count (fs_bpb fs) in
  0 <= r -> 0 <= n ->
  Z.of_nat (length (fs_fat fs)) = spf * BLOCK_SIZE ->
  r + n * spf < 2 ^ 32 ->
  (r + n * spf) * BLOCK_SIZE <= Z.of_nat (length (fs_p fs)) ->
  exists p',
    fat_hook_close fs = Some p' /\
    length p' = length (fs_p fs) /\
    (forall i, 0 <= i < n ->
       partition_readblocks p' (r + i * spf) spf = Some (fs_fat fs)) /\
    (forall b, b < r * BLOCK_SIZE \/ (r + n * spf) * BLOCK_SIZE <= b ->
       load8 p' b = load8 (fs_p fs) b).
Proof.
  intros r spf n Hr Hn HL H32 Hroom.
  destruct (close_loop_spec fs (fs_p fs) Hr Hn HL H32 Hroom
              (Z.to_nat n) 0 (fs_p fs) ltac:(lia) ltac:(lia) eq_refl)
    as (p' & E & L' & S).
  fold r spf n in E, S. replace (r + 0 * spf) with r in * by lia.
  exists p'. split; [exact E|]. split; [exact L'|]. unfold BLOCK_SIZE in *.
  assert (Hspf : 0 <= spf) by lia.
  split.
  - intros i Hi. unfold partition_readblocks, BLOCK_SIZE. rewrite <- HL.
    apply load_bytes_known; [nia|rewrite L'; nia|].
    intros x Hx. rewrite S.
    destruct (Z.leb_spec (r * 512) ((r + i * spf) * 512 + Z.of_nat x)); [|nia].
    destruct (Z.ltb_spec ((r + i * spf) * 512 + Z.of_nat x) ((r + n * spf) * 512)); [|nia].
    simpl. f_equal.
    replace ((r + i * spf) * 512 + Z.of_nat x - r * 512)
      with (Z.of_nat x + i * Z.of_nat (length (fs_fat fs))) by lia.
    rewrite Z.mod_add by lia. rewrite Z.mod_small by lia. lia.
  - intros b Hb. rewrite S.
    destruct (Z.leb_spec (r * 512) b), (Z.ltb_spec b ((r + n * spf) * 512));
      simpl; try reflexivity; lia.
Qed.

Lemma read_into_whole p buffer a len bs :
  partition_readblocks p a len = Some bs -> length buffer = length bs ->
  read_into p buffer a len = Some bs.
Proof.
  intros E Hl. unfold read_into. rewrite E. unfold store_bytes.
  assert (H : (0 <=? 0) && (0 + Z.of_nat (length bs) <=? Z.of_nat (length buffer)) = true)
    by (rewrite andb_true_iff, !Z.leb_le; lia).
  rewrite H. f_equal. change (Z.to_nat 0) with 0%nat. rewrite take_0. simpl.
  rewrite drop_ge by lia. apply app_nil_r.
Qed.

(** ** Properties of mounting and unmounting *)

(** X16: When the FAT buffer is sectors_per_fat sectors long and the FAT
    copies lie inside the partition, fat_hook_close writes the buffer to
    each of the fat_count copies behind the reserved sectors and changes
    nothing before or behind them. *)
Theorem fat_hook_close_writes_copies fs :
  let r := reserved_sectors (fs_bpb fs) in
  let spf := sectors_per_fat (fs_bpb fs) in
  let n := fat_count (fs_bpb fs) in
  0 <= r -> 0 <= n ->
  Z.of_nat (length (fs_fat fs)) = spf * BLOCK_SIZE ->
  r + n * spf < 2 ^ 32 ->
  (r + n * spf) * BLOCK_SIZE <= Z.of_nat (length (fs_p fs)) ->
  exists p',
    fat_hook_close fs = Some p' /\
    length p' = length (fs_p fs) /\
    (forall i, 0 <= i < n ->
       partition_readblocks p' (r + i * spf) spf = Some (fs_fat fs)) /\
    (forall b, b < r * BLOCK_SIZE \/ (r + n * spf) * BLOCK_SIZE <= b ->
       load8 p' b = load8 (fs_p fs) b).
Proof. apply fat_hook_close_spec. Qed.

Lemma fat_hook_close_writes_copies_witness :
  exists p',
    fat_hook_close mounted_fs = Some p' /\
    length p' = length (fs_p mounted_fs) /\
    (forall i, 0 <= i < 2 ->
       partition_readblocks p' (1 + i * 1) 1 = Some (fs_fat mounted_fs)) /\
    (forall b, b < 1 * BLOCK_SIZE \/ (1 + 2 * 1) * BLOCK_SIZE <= b ->
       load8 p' b = load8 (fs_p mounted_fs) b).
Proof.
  apply (fat_hook_close_writes_copies mounted_fs).
  - simpl. lia.
  - simpl. lia.
  - reflexivity.
  - simpl. lia.
  - vm_compute. discriminate.
Defined.

(** X17: For a state whose BPB is the one stored in sector 0 (at least one
    reserved sector and one FAT copy inside the partition), fat_hook_load on
    the partition that fat_hook_close leaves gives the same BPB and the same
    FAT buffer; the handles start again with the root inode alone and the
    counter at 2. *)
Theorem mount_after_unmount fs block :
  let r := reserved_sectors (fs_bpb fs) in
  let spf := sectors_per_fat (fs_bpb fs) in
  let n := fat_count (fs_bpb fs) in
  1 <= r -> 1 <= n ->
  Z.of_nat (length (fs_fat fs)) = spf * BLOCK_SIZE ->
  r + n * spf < 2 ^ 32 ->
  (r + n * spf) * BLOCK_SIZE <= Z.of_nat (length (fs_p fs)) ->
  partition_readblocks (fs_p fs) 0 1 = Some block ->
  read_bpb block = Some (fs_bpb fs) ->
  exists p',
    fat_hook_close fs = Some p' /\
    fat_hook_load p' =
      Some (mk_fs p' (fs_bpb fs) (fs_fat fs)
              [mk_inode 1 FAT_DIR_DIRECTORY 0 0 0 0 0] 2).
Proof.
  intros r spf n Hr Hn HL H32 Hroom Hblock Hbpb.
  destruct (fat_hook_close_spec fs ltac:(fold r; lia) ltac:(fold n; lia) HL H32 Hroom)
    as (p' & Ec & Lp & Hcopy & Hframe).
  fold r spf n in Hcopy, Hframe.
  exists p'. split; [exact Ec|].
  unfold partition_readblocks, BLOCK_SIZE in Hblock.
  pose proof (load_bytes_Some _ _ _ _ Hblock) as (_ & _ & Hlen & Hbl).
  assert (Hblock' : partition_readblocks p' 0 1 = Some block).
  { unfold partition_readblocks, BLOCK_SIZE.
    rewrite <- Hbl.
    apply load_bytes_known; [lia|rewrite Lp; lia|].
    intros x Hx. rewrite Hframe by (unfold BLOCK_SIZE; lia).
    destruct (load_bytes_spec (fs_p fs) (0 * 512) (1 * 512)) as (bs & E & _ & Hbs);
      [lia|lia|lia|].
    rewrite Hblock in E. injection E as <-. symmetry. apply Hbs. lia. }
  unfold fat_hook_load.
  rewrite (read_into_whole p' (calloc BLOCK_SIZE) 0 1 block Hblock')
    by (rewrite length_calloc; unfold BLOCK_SIZE; lia).
  rewrite bind_Some, Hbpb, bind_Some. fold spf r.
  specialize (Hcopy 0 ltac:(lia)). replace (r + 0 * spf) with r in Hcopy by lia.
  rewrite (read_into_whole p' _ r spf (fs_fat fs) Hcopy)
    by (rewrite length_calloc; lia).
  rewrite bind_Some. reflexivity.
Qed.

Lemma mount_after_unmount_witness :
  exists p',
    fat_hook_close mounted_fs = Some p' /\
    fat_hook_load p' =
      Some (mk_fs p' (fs_bpb mounted_fs) (fs_fat mounted_fs)
              [mk_inode 1 FAT_DIR_DIRECTORY 0 0 0 0 0] 2).
Proof.
  apply (mount_after_unmount mounted_fs mounted_block).
  - simpl. lia.
  - simpl. lia.
  - reflexivity.
  - simpl. lia.
  - vm_compute. discriminate.
  - vm_compute. reflexivity.
  - vm_compute. reflexivity.
Defined.

(** ** Formatting *)

Lemma create_fat12_unfold n :
  0 <= n < 32768 ->
  fat_hook_create n =
    (let media := if n >? 8192 then 0xF8 else 0xF0 in
     let root := if n >? 8192 then 512 else 240 in
     let fat_size := u32 (n / 8 - 4) in
     let spf := if negb (fat_size mod 341 =? 0)
                then u16 (u16 (fat_size / 341) + 1) else u16 (fat_size / 341) in
     let bpb := mk_bpb 512 8 4 2 root n media spf 32 64 0 0 in
     fs ← fat_write_fat (fat_view bpb (calloc (spf * BLOCK_SIZE))) 0 (Z.lor 0xF00 media);
     fs ← fat_write_fat fs 1 0xFFF;
     Some (bpb, Some (fs_fat fs))).
Proof.
  intros Hn. unfold fat_hook_create, BLOCK_SIZE.
  rewrite (u32_small n) by lia.
  rewrite (u32_small (n * 512)) by lia.
  destruct (Z.geb_spec (n * 512) 0x80000000); [lia|].
  destruct (Z.geb_spec (n * 512) 0x1000000); [lia|].
  cbn [negb Z.eqb Pos.eqb].
  change (create_cluster_size 32 8 (n * 512))
    with (if n * 512 >=? 0x1000000
          then create_cluster_size 31 (int32 (8 * 2)) (n * 512 / 2)
          else Some (8, n * 512)).
  destruct (Z.geb_spec (n * 512) 0x1000000); [lia|].
  rewrite bind_Some. cbn [fst snd].
  change (u32 8 =? 0) with false. cbn iota.
  change (u32 8) with 8. change (u8 8) with 8. change (512 * 8 / 12) with 341.
  assert (E1 : (n * 512 >? 0x400000) = (n >? 8192)).
  { destruct (Z.gtb_spec (n * 512) 0x400000), (Z.gtb_spec n 8192); try reflexivity; lia. }
  rewrite E1.
  destruct (Z.gtb_spec n 65535); [lia|].
  rewrite (u16_small n) by lia.
  reflexivity.
Qed.

Lemma create_spf n :
  32 <= n < 32768 ->
  (if negb (u32 (n / 8 - 4) mod 341 =? 0)
   then u16 (u16 (u32 (n / 8 - 4) / 341) + 1) else u16 (u32 (n / 8 - 4) / 341))
  = (n / 8 - 4 + 340) / 341.
Proof.
  intros Hn. rewrite u32_small by zlia.
  assert (0 <= (n / 8 - 4) / 341 < 13) by zlia.
  destruct (Z.eqb_spec ((n / 8 - 4) mod 341) 0); simpl.
  - rewrite u16_small by lia. zlia.
  - rewrite (u16_small ((n / 8 - 4) / 341)) by lia. rewrite u16_small by lia. zlia.
Qed.

Lemma create_fat12_eq n :
  32 <= n < 32768 ->
  fat_hook_create n =
    (fs ← fat_write_fat
            (fat_view (format_bpb n)
               (calloc (sectors_per_fat (format_bpb n) * BLOCK_SIZE)))
            0 (Z.lor 0xF00 (media_descriptor (format_bpb n)));
     fs ← fat_write_fat fs 1 0xFFF;
     Some (format_bpb n, Some (fs_fat fs))).
Proof.
  intros Hn. rewrite create_fat12_unfold by lia. cbv zeta.
  rewrite create_spf by lia. reflexivity.
Qed.

Lemma format_clusters n fat :
  fat_num_clusters (fat_view (format_bpb n) fat)
  = (n - (4 + 2 * ((n / 8 - 4 + 340) / 341) + (if n >? 8192 then 32 else 15))) / 8 \/ n = 0.
Proof.
  destruct (Z.eq_dec n 0) as [->|Hn0]; [by right|left].
  unfold fat_num_clusters, fat_total_sectors, fat_first_data_sector, fat_root_sectors.
  simpl. destruct (Z.eqb_spec n 0); [done|].
  destruct (n >? 8192); reflexivity.
Qed.

Lemma calloc_bytes_ok k : bytes_ok (calloc k).
Proof. apply Forall_replicate. unfold is_byte. lia. Qed.

Lemma calloc_read fs c :
  fat_bits fs = 12 -> in_fat fs c -> Z.of_nat (length (fs_fat fs)) <= 2 ^ 32 ->
  (forall b, 0 <= b < Z.of_nat (length (fs_fat fs)) -> load8 (fs_fat fs) b = Some 0) ->
  bytes_ok (fs_fat fs) ->
  fat_read_fat fs c = Some 0.
Proof.
  intros Hb Hc Hl Hz Hok.
  rewrite fat_read_fat_arith; [|done|split; done|done].
  destruct Hc as [Hc0 Hc1].
  rewrite !Hz by zlia. simpl. unfold entry12.
  destruct (c mod 2 =? 0); reflexivity.
Qed.

(** ** Properties of formatting *)

(** X18: For a partition of 40 to 32739 sectors fat_hook_create sets up a
    FAT12 volume: 512-byte sectors, 8 sectors per cluster, 4 reserved
    sectors, 2 FATs of ceil((n / 8 - 4) / 341) sectors; the FAT buffer has
    that size, entry 0 reads 0xF00 + media descriptor, entry 1 reads 0xFFF
    and every further entry reads 0. *)
Theorem fat_hook_create_fat12 n :
  40 <= n < 32740 ->
  exists fat,
    fat_hook_create n = Some (format_bpb n, Some fat) /\
    Z.of_nat (length fat) = sectors_per_fat (format_bpb n) * BLOCK_SIZE /\
    fat_bits (fat_view (format_bpb n) fat) = 12 /\
    fat_read_fat (fat_view (format_bpb n) fat) 0
      = Some (0xF00 + media_descriptor (format_bpb n)) /\
    fat_read_fat (fat_view (format_bpb n) fat) 1 = Some 0xFFF /\
    forall m, 2 <= m -> in_fat (fat_view (format_bpb n) fat) m ->
      fat_read_fat (fat_view (format_bpb n) fat) m = Some 0.
Proof.
  intros Hn. rewrite create_fat12_eq by lia.
  set (bpb := format_bpb n).
  set (spf := sectors_per_fat bpb).
  assert (Hspf : 1 <= spf <= 12) by (unfold spf, bpb; simpl; zlia).
  set (fs0 := fat_view bpb (calloc (spf * BLOCK_SIZE))).
  assert (Hlen0 : Z.of_nat (length (fs_fat fs0)) = spf * 512).
  { unfold fs0. simpl. rewrite length_calloc. unfold BLOCK_SIZE. lia. }
  assert (Hbits : forall f, fat_bits (fat_view bpb f) = 12).
  { intros f. unfold fat_bits.
    destruct (format_clusters n f) as [E|E]; [|lia]. fold bpb in E. rewrite E.
    destruct (Z.ltb_spec ((n - (4 + 2 * ((n / 8 - 4 + 340) / 341)
                                 + (if n >? 8192 then 32 else 15))) / 8) 4085) as [|Hge];
      [done|].
    exfalso. destruct (Z.gtb_spec n 8192); zlia. }
  assert (Hwf0 : wf_fat fs0).
  { split; [apply calloc_bytes_ok|]. rewrite Hlen0. lia. }
  assert (Hv0 : 0 <= Z.lor 0xF00 (media_descriptor bpb) < 4096 /\
                Z.lor 0xF00 (media_descriptor bpb) = 0xF00 + media_descriptor bpb).
  { unfold bpb, format_bpb. cbn [media_descriptor].
    destruct (n >? 8192); (split; [split|]); by vm_compute. }
  destruct (fat12_write_spec fs0 0 _ (Hbits _) Hwf0
              ltac:(unfold in_fat; rewrite Hlen0; zlia) (proj1 Hv0))
    as (f1 & E1 & L1 & Hok1 & R1 & F1).
  rewrite E1, bind_Some.
  change (set_fat fs0 f1) with (fat_view bpb f1) in *.
  assert (Hwf1 : wf_fat (fat_view bpb f1)).
  { split; [exact Hok1|]. simpl. rewrite L1, Hlen0. lia. }
  destruct (fat12_write_spec (fat_view bpb f1) 1 0xFFF (Hbits _) Hwf1
              ltac:(unfold in_fat; simpl; rewrite L1, Hlen0; zlia) ltac:(lia))
    as (f2 & E2 & L2 & Hok2 & R2 & F2).
  rewrite E2, bind_Some.
  change (set_fat (fat_view bpb f1) f2) with (fat_view bpb f2) in *.
  change (length (fs_fat (fat_view bpb f1))) with (length f1) in L2.
  exists f2. split; [reflexivity|].
  split; [rewrite L2, L1; rewrite Hlen0; reflexivity|].
  split; [apply Hbits|].
  assert (Hin : forall m, in_fat (fat_view bpb f2) m -> in_fat (fat_view bpb f1) m /\ in_fat fs0 m).
  { intros m [Hm0 Hm1]. simpl in Hm1. rewrite L2 in Hm1.
    split; split; try done. by rewrite <- L1. }
  split; [|split].
  - rewrite F2; [|unfold in_fat; simpl; rewrite L1, Hlen0; zlia|lia].
    rewrite R1. by rewrite (proj2 Hv0).
  - exact R2.
  - intros m Hm Hinm. destruct (Hin m Hinm) as [Hin1 Hin0].
    rewrite F2 by (done || lia). rewrite F1 by (done || lia).
    apply calloc_read; [apply Hbits|done|rewrite Hlen0; lia| |apply calloc_bytes_ok].
    intros b Hb. unfold fs0. simpl. rewrite load8_lookup by lia.
    apply lookup_replicate_2. unfold fs0 in Hb. simpl in Hb. rewrite length_calloc in Hb. lia.
Qed.

Lemma fat_hook_create_fat12_witness :
  exists fat,
    fat_hook_create 2048 = Some (mk_bpb 512 8 4 2 240 2048 0xF0 1 32 64 0 0, Some fat) /\
    Z.of_nat (length fat) = 512 /\
    fat_bits (fat_view (format_bpb 2048) fat) = 12 /\
    fat_read_fat (fat_view (format_bpb 2048) fat) 0 = Some 0xFF0 /\
    fat_read_fat (fat_view (format_bpb 2048) fat) 1 = Some 0xFFF /\
    forall m, 2 <= m -> in_fat (fat_view (format_bpb 2048) fat) m ->
      fat_read_fat (fat_view (format_bpb 2048) fat) m = Some 0.
Proof. apply (fat_hook_create_fat12 2048). lia. Defined.

(** X19: For a partition of 32 to 39 sectors fat_hook_create computes 0
    sectors per FAT and writes the first entries into an empty buffer (no
    result). For 32740 to 32767 sectors it returns a BPB that fat_bits
    classes as FAT16, so both fat_write_fat calls do nothing and the FAT
    buffer stays all zero. *)
Theorem fat_hook_create_unusable n :
  (32 <= n < 40 -> fat_hook_create n = None) /\
  (32740 <= n < 32768 ->
     fat_hook_create n = Some (format_bpb n, Some (calloc (12 * BLOCK_SIZE))) /\
     fat_bits (fat_view (format_bpb n) (calloc (12 * BLOCK_SIZE))) = 16).
Proof.
  split; intros Hn.
  - rewrite create_fat12_eq by lia.
    assert (E : sectors_per_fat (format_bpb n) = 0) by (simpl; zlia).
    rewrite E. change (calloc (0 * BLOCK_SIZE)) with (@nil Z).
    unfold fat_write_fat.
    assert (Hb : fat_bits (fat_view (format_bpb n) []) = 12).
    { unfold fat_bits. destruct (format_clusters n []) as [E'|E']; [|lia]. rewrite E'.
      destruct (Z.ltb_spec ((n - (4 + 2 * ((n / 8 - 4 + 340) / 341)
                                   + (if n >? 8192 then 32 else 15))) / 8) 4085) as [|Hge];
        [done|].
      exfalso. destruct (Z.gtb_spec n 8192); zlia. }
    rewrite Hb. reflexivity.
  - assert (E : sectors_per_fat (format_bpb n) = 12) by (simpl; zlia).
    assert (Hb : forall f, fat_bits (fat_view (format_bpb n) f) = 16).
    { intros f. unfold fat_bits. destruct (format_clusters n f) as [E'|E']; [|lia]. rewrite E'.
      destruct (Z.gtb_spec n 8192); [|lia].
      destruct (Z.ltb_spec ((n - (4 + 2 * ((n / 8 - 4 + 340) / 341) + 32)) / 8) 4085);
        [exfalso; zlia|].
      destruct (Z.ltb_spec ((n - (4 + 2 * ((n / 8 - 4 + 340) / 341) + 32)) / 8) 65525);
        [done|exfalso; zlia]. }
    split; [|apply Hb].
    rewrite create_fat12_eq by lia. rewrite E.
    rewrite !not_fat12_write by (rewrite Hb; lia).
    rewrite bind_Some. rewrite !not_fat12_write by (rewrite Hb; lia). reflexivity.
Qed.

Lemma fat_hook_create_unusable_witness :
  fat_hook_create 32 = None /\
  fat_hook_create 32767 = Some (format_bpb 32767, Some (calloc (12 * BLOCK_SIZE))) /\
  fat_bits (fat_view (format_bpb 32767) (calloc (12 * BLOCK_SIZE))) = 16.
Proof.
  split.
  - apply (fat_hook_create_unusable 32). lia.
  - apply (fat_hook_create_unusable 32767). lia.
Defined.

(** X20: For a partition of 32768 sectors (16 MiB) or more, below 2^23
    sectors, fat_hook_create returns with the BPB all zero and no FAT
    buffer. *)
Theorem fat_hook_create_refuses n :
  32768 <= n < 2 ^ 23 -> fat_hook_create n = Some (zero_bpb, None).
Proof.
  intros Hn. unfold fat_hook_create, BLOCK_SIZE.
  rewrite (u32_small n) by lia. rewrite (u32_small (n * 512)) by lia.
  destruct (Z.geb_spec (n * 512) 0x80000000); [reflexivity|].
  destruct (Z.geb_spec (n * 512) 0x1000000); [reflexivity|lia].
Qed.

Lemma fat_hook_create_refuses_witness :
  fat_hook_create 32768 = Some (zero_bpb, None).
Proof. apply (fat_hook_create_refuses 32768). lia. Defined.

(** ** States that agree on what an operation looks at *)

Section Ext.

Variables fs fs' : fs_st.
Hypothesis Htab : same_tables fs fs'.

Lemma clustersize_ext : fat_clustersize fs' = fat_clustersize fs.
Proof. unfold fat_clustersize. by rewrite (proj1 Htab). Qed.

Lemma num_clusters_ext : fat_num_clusters fs' = fat_num_clusters fs.
Proof.
  unfold fat_num_clusters, fat_total_sectors, fat_first_data_sector, fat_root_sectors.
  by rewrite (proj1 Htab).
Qed.

Lemma fat_bits_ext : fat_bits fs' = fat_bits fs.
Proof. unfold fat_bits. by rewrite num_clusters_ext. Qed.

Lemma fat_read_fat_ext c : fat_read_fat fs' c = fat_read_fat fs c.
Proof. unfold fat_read_fat. by rewrite fat_bits_ext, (proj2 Htab). Qed.

Lemma cluster_start_ext c : cluster_start fs' c = cluster_start fs c.
Proof.
  unfold cluster_start, fat_first_data_sector, fat_root_sectors.
  by rewrite (proj1 Htab).
Qed.

Lemma chain_count_ext : forall fuel c r,
  chain_count fs' fuel c r = chain_count fs fuel c r.
Proof.
  induction fuel as [|fuel IH]; intros c r; cbn [chain_count]; [done|].
  rewrite fat_read_fat_ext. destruct (c <? FAT_END); [|done].
  destruct (fat_read_fat fs c); [|done]. rewrite !bind_Some. apply IH.
Qed.

Lemma get_clusters_loop_ext : forall n c,
  get_clusters_loop fs' n c = get_clusters_loop fs n c.
Proof.
  induction n as [|n IH]; intros c; cbn [get_clusters_loop]; [done|].
  rewrite fat_read_fat_ext. destruct (fat_read_fat fs c); [|done].
  rewrite !bind_Some. by rewrite IH.
Qed.

Lemma fat_clustercount_ext ino :
  fat_get_inode fs' ino = fat_get_inode fs ino ->
  fat_clustercount fs' ino = fat_clustercount fs ino.
Proof.
  intros Hi. unfold fat_clustercount.
  rewrite clustersize_ext, (proj1 Htab), Hi.
  destruct (ino =? 0); [done|]. destruct (ino =? 1); [done|].
  destruct (fat_get_inode fs ino); [|done]. rewrite !bind_Some.
  apply chain_count_ext.
Qed.

Lemma fat_get_clusters_ext ino :
  fat_get_inode fs' ino = fat_get_inode fs ino ->
  fat_get_clusters fs' ino = fat_get_clusters fs ino.
Proof.
  intros Hi. unfold fat_get_clusters.
  rewrite (fat_clustercount_ext ino Hi), Hi.
  destruct (ino =? 0); [done|].
  destruct (fat_clustercount fs ino); [|done]. rewrite !bind_Some.
  destruct (ino =? 1); [done|].
  destruct (fat_get_inode fs ino); [|done]. rewrite !bind_Some.
  by rewrite get_clusters_loop_ext.
Qed.

Lemma file_size_ext ino inode :
  fat_get_inode fs' ino = fat_get_inode fs ino ->
  file_size fs' ino inode = file_size fs ino inode.
Proof.
  intros Hi. unfold file_size.
  by rewrite (fat_clustercount_ext ino Hi), clustersize_ext.
Qed.

Hypothesis Hp : fs_p fs' = fs_p fs.

Lemma fat_readclusters_ext buff b c n :
  fat_readclusters fs' buff b c n = fat_readclusters fs buff b c n.
Proof.
  unfold fat_readclusters. by rewrite Hp, cluster_start_ext, (proj1 Htab).
Qed.

Lemma read_loop_ext clusters stop : forall fuel i b buff,
  read_loop fs' clusters fuel i stop b buff = read_loop fs clusters fuel i stop b buff.
Proof.
  induction fuel as [|fuel IH]; intros i b buff; cbn [read_loop]; [done|].
  destruct (i <? stop); [|done].
  destruct (clusters !! Z.to_nat i); [|done]. rewrite !bind_Some.
  rewrite fat_readclusters_ext.
  destruct (fat_readclusters fs buff b z 1); [|done]. rewrite !bind_Some.
  rewrite clustersize_ext. apply IH.
Qed.

Lemma fat_read_ext ino buffer len off :
  fat_get_inode fs' ino = fat_get_inode fs ino ->
  fat_read fs' ino buffer len off = fat_read fs ino buffer len off.
Proof.
  intros Hi. unfold fat_read.
  pose proof (fun inode => file_size_ext ino inode Hi) as Hfs.
  rewrite Hi, (fat_get_clusters_ext ino Hi).
  destruct (ino =? 0); [done|]. destruct (len =? 0); [done|].
  destruct (fat_get_inode fs ino) as [inode|]; [|done]. rewrite !bind_Some.
  destruct (fat_get_clusters fs ino) as [clusters|]; [|done]. rewrite !bind_Some.
  rewrite Hfs.
  destruct (file_size fs ino inode) as [size|]; [|done]. rewrite !bind_Some.
  unfold span_clusters. rewrite clustersize_ext.
  destruct (fat_clustersize fs =? 0); [done|].
  by rewrite read_loop_ext.
Qed.

End Ext.

(** ** The bytes of a file *)

Lemma block_div_mod i C r :
  0 < C -> 0 <= r < C -> (i * C + r) / C = i /\ (i * C + r) mod C = r.
Proof.
  intros HC Hr. rewrite Z.add_comm. rewrite Z.div_add, Z.mod_add by lia.
  rewrite Z.div_small, Z.mod_small by lia. lia.
Qed.

Lemma bpb_ok_clustersize fs :
  bpb_ok fs ->
  fat_clustersize fs = sectors_per_cluster (fs_bpb fs) * BLOCK_SIZE /\
  0 < fat_clustersize fs <= 130560.
Proof.
  intros [Hb Hs]. unfold fat_clustersize, BLOCK_SIZE. rewrite Hb. lia.
Qed.

Lemma readclusters_spec fs buff b c :
  bpb_ok fs -> cluster_in_partition fs c ->
  0 <= b -> b + fat_clustersize fs <= Z.of_nat (length buff) ->
  exists buff',
    fat_readclusters fs buff b c 1 = Some buff' /\
    length buff' = length buff /\
    forall y, load8 buff' y =
      if (b <=? y) && (y <? b + fat_clustersize fs)
      then load8 (fs_p fs) (cluster_start fs c * BLOCK_SIZE + (y - b))
      else load8 buff y.
Proof.
  intros Hok [Hc0 Hc1] Hb Hroom.
  destruct (bpb_ok_clustersize fs Hok) as [HC HCpos].
  unfold fat_readclusters, partition_readblocks. change (1 =? 0) with false. cbn iota.
  rewrite Z.mul_1_l, <- HC.
  destruct (load_bytes_spec (fs_p fs) (cluster_start fs c * BLOCK_SIZE) (fat_clustersize fs))
    as (bs & E & Hl & Hbs); [unfold BLOCK_SIZE in *; lia|lia|lia|].
  rewrite E.
  destruct (store_bytes_spec buff b bs Hb ltac:(lia)) as (buff' & E' & Hl' & Hs).
  exists buff'. split; [exact E'|]. split; [exact Hl'|].
  intros y. rewrite Hs, Hl.
  destruct (Z.leb_spec b y), (Z.ltb_spec y (b + fat_clustersize fs)); simpl; try reflexivity.
  rewrite Hbs by lia. f_equal. lia.
Qed.

Lemma read_loop_spec fs cl :
  bpb_ok fs -> Forall (cluster_in_partition fs) cl ->
  forall fuel k i b buff,
    (k <= fuel)%nat -> 0 <= i -> i + Z.of_nat k <= Z.of_nat (length cl) ->
    0 <= b -> b + Z.of_nat k * fat_clustersize fs <= Z.of_nat (length buff) ->
    exists buff',
      read_loop fs (cl ++ [0]) fuel i (i + Z.of_nat k) b buff = Some buff' /\
      length buff' = length buff /\
      forall y, load8 buff' y =
        if (b <=? y) && (y <? b + Z.of_nat k * fat_clustersize fs)
        then file_byte fs cl (i * fat_clustersize fs + (y - b))
        else load8 buff y.
Proof.
  intros Hok Hcl.
  destruct (bpb_ok_clustersize fs Hok) as [HC HCpos].
  set (C := fat_clustersize fs) in *.
  induction fuel as [|fuel IH]; intros k i b buff Hk Hi Hik Hb Hroom.
  - assert (k = 0%nat) as -> by lia. cbn [read_loop].
    destruct (Z.ltb_spec i (i + Z.of_nat 0)); [lia|].
    exists buff. split; [done|]. split; [done|]. intros y.
    destruct (Z.leb_spec b y), (Z.ltb_spec y (b + Z.of_nat 0 * C)); simpl; try reflexivity; lia.
  - destruct k as [|k].
    + cbn [read_loop]. destruct (Z.ltb_spec i (i + Z.of_nat 0)); [lia|].
      exists buff. split; [done|]. split; [done|]. intros y.
      destruct (Z.leb_spec b y), (Z.ltb_spec y (b + Z.of_nat 0 * C)); simpl;
        try reflexivity; lia.
    + cbn [read_loop]. destruct (Z.ltb_spec i (i + Z.of_nat (S k))); [|lia].
      destruct (lookup_lt_is_Some_2 cl (Z.to_nat i)) as [c Hc]; [lia|].
      rewrite (lookup_app_l_Some _ _ _ _ Hc), bind_Some.
      assert (Hcp : cluster_in_partition fs c).
      { exact (Forall_lookup_1 _ _ _ _ Hcl Hc). }
      destruct (readclusters_spec fs buff b c Hok Hcp Hb ltac:(fold C; nia))
        as (buff1 & E1 & L1 & S1).
      rewrite E1, bind_Some. fold C.
      replace (i + Z.of_nat (S k)) with (i + 1 + Z.of_nat k) by lia.
      destruct (IH k (i + 1) (b + C) buff1 ltac:(lia) ltac:(lia) ltac:(lia) ltac:(lia)
                  ltac:(rewrite L1; nia)) as (buff' & E' & L' & S').
      exists buff'. split; [exact E'|]. split; [congruence|].
      intros y. rewrite S', S1. fold C.
      destruct (Z.leb_spec (b + C) y), (Z.ltb_spec y (b + C + Z.of_nat k * C)),
        (Z.leb_spec b y), (Z.ltb_spec y (b + C)),
        (Z.ltb_spec y (b + Z.of_nat (S k) * C)); simpl; try reflexivity; try nia.
      * f_equal. lia.
      * unfold file_byte. fold C.
        destruct (block_div_mod i C (y - b)) as [-> ->]; [lia|lia|].
        rewrite Hc, bind_Some. reflexivity.
Qed.

Lemma size_t_small z : 0 <= z < 2 ^ 64 -> size_t z = z.
Proof. intros H. unfold size_t, wrap. by apply Z.mod_small. Qed.

(** The clusters a transfer of [n] bytes from [off] on spans. *)
Lemma span_clusters_spec fs n off :
  0 < fat_clustersize fs -> 0 <= n -> 0 <= off -> off + n < 2 ^ 31 ->
  let C := fat_clustersize fs in
  let num := span_clusters fs n (off mod C) in
  0 <= num /\ off mod C + n <= num * C /\ num * C < off mod C + n + C /\
  (0 < n -> 0 < num).
Proof.
  intros HC Hn Hoff Hsum C num. unfold num, span_clusters. fold C.
  pose proof (Z.mod_pos_bound off C HC) as Hm.
  assert (off mod C <= off) by (apply Z.mod_le; lia).
  rewrite size_t_small by lia.
  pose proof (Z.div_mod (n + off mod C) C ltac:(lia)) as Hd.
  pose proof (Z.mod_pos_bound (n + off mod C) C HC) as Hr.
  assert (0 <= (n + off mod C) / C) by (apply Z.div_pos; lia).
  assert ((n + off mod C) / C <= n + off mod C) by (apply Z.div_le_upper_bound; nia).
  rewrite (u32_small ((n + off mod C) / C)) by lia.
  destruct (Z.eqb_spec ((n + off mod C) mod C) 0); simpl.
  - split; [lia|]. split; [nia|]. split; [nia|]. intros. nia.
  - rewrite u32_small by lia. split; [lia|]. split; [nia|]. split; [nia|]. intros. lia.
Qed.

Lemma div_le_self a C : 0 <= a -> 0 < C -> a / C <= a.
Proof. intros Ha HC. apply Z.div_le_upper_bound; nia. Qed.

Lemma mul_ge_self a C : 0 <= a -> 1 <= C -> a <= a * C.
Proof. intros. nia. Qed.

Lemma span_fits C s m n num L size :
  0 < C -> num * C < m + n + C -> C * s + m + n <= size -> size <= L * C ->
  s + num <= L.
Proof. intros HC H1 H2 H3. nia. Qed.

Lemma fat_read_spec fs ino inode cl size buffer len off :
  bpb_ok fs -> ino <> 0 ->
  fat_get_inode fs ino = Some inode ->
  fat_get_clusters fs ino = Some (cl ++ [0]) ->
  file_size fs ino inode = Some size ->
  Forall (cluster_in_partition fs) cl ->
  size <= Z.of_nat (length cl) * fat_clustersize fs -> size < 2 ^ 31 ->
  0 <= off <= size -> 0 < len -> off + len < 2 ^ 64 ->
  Z.min len (size - off) <= Z.of_nat (length buffer) ->
  exists buffer',
    fat_read fs ino buffer len off = Some (buffer', Z.min len (size - off)) /\
    length buffer' = length buffer /\
    forall x, load8 buffer' x =
      if (0 <=? x) && (x <? Z.min len (size - off))
      then file_byte fs cl (off + x) else load8 buffer x.
Proof.
  intros Hok Hino Hget Hcl Hsize Hpart Hfit H31 Hoff Hlen H64 Hbuf.
  destruct (bpb_ok_clustersize fs Hok) as [HC HCpos].
  set (C := fat_clustersize fs) in *.
  set (n := Z.min len (size - off)) in *.
  assert (Hn : 0 <= n) by lia.
  unfold fat_read.
  destruct (Z.eqb_spec ino 0); [done|]. destruct (Z.eqb_spec len 0); [lia|].
  rewrite Hget, bind_Some, Hcl, bind_Some, Hsize, bind_Some.
  rewrite clamp_length_inside by lia. fold n. fold C.
  destruct (Z.eqb_spec C 0); [lia|].
  pose proof (Z.div_mod off C ltac:(lia)) as Hd.
  pose proof (Z.mod_pos_bound off C ltac:(lia)) as Hm.
  assert (Hs0 : 0 <= off / C) by (apply Z.div_pos; lia).
  assert (Hs1 : off / C <= off) by (apply div_le_self; lia).
  rewrite (u32_small (off / C)) by lia.
  rewrite (u32_small (off mod C)) by lia.
  destruct (span_clusters_spec fs n off ltac:(fold C; lia) Hn ltac:(lia) ltac:(lia))
    as (Hnum0 & Hnum1 & Hnum2 & _).
  fold C in Hnum0, Hnum1, Hnum2.
  set (num := span_clusters fs n (off mod C)) in *.
  assert (Hfits : off / C + num <= Z.of_nat (length cl)).
  { apply (span_fits C (off / C) (off mod C) n num _ size); lia. }
  assert (Hnum3 : num <= num * C) by (apply mul_ge_self; lia).
  rewrite (u32_small (num * C)) by lia.
  rewrite (u32_small (off / C + num)) by lia.
  replace (off / C + num) with (off / C + Z.of_nat (Z.to_nat num)) by lia.
  destruct (read_loop_spec fs cl Hok Hpart (Z.to_nat num) (Z.to_nat num) (off / C) 0
              (calloc (num * C)) ltac:(lia) Hs0 ltac:(lia) ltac:(lia)
              ltac:(rewrite length_calloc; fold C; lia))
    as (buff & Er & Lr & Sr).
  rewrite Er, bind_Some. fold C in Sr.
  rewrite length_calloc in Lr.
  destruct (load_bytes_spec buff (off mod C) n ltac:(lia) Hn ltac:(rewrite Lr; lia))
    as (bs & Eb & Lb & Sb).
  rewrite Eb, bind_Some.
  destruct (store_bytes_spec buffer 0 bs ltac:(lia) ltac:(lia)) as (buffer' & Es & Ls & Ss).
  rewrite Es, bind_Some. rewrite int32_small by lia.
  exists buffer'. split; [reflexivity|]. split; [exact Ls|].
  intros x. rewrite Ss, Lb.
  destruct (Z.leb_spec 0 x), (Z.ltb_spec x (0 + n)), (Z.ltb_spec x n); simpl;
    try reflexivity; try lia.
  rewrite Z.sub_0_r, Sb by lia. rewrite Z2Nat.id by lia. rewrite Sr.
  rewrite Z2Nat.id by lia.
  destruct (Z.leb_spec 0 (off mod C + x)), (Z.ltb_spec (off mod C + x) (0 + num * C));
    simpl; try lia.
  f_equal. lia.
Qed.

(** ** Writing clusters *)

Lemma ranges_apart A C c c' z :
  0 < C -> c <> c' ->
  A + (c - 2) * C <= z < A + (c - 2) * C + C ->
  A + (c' - 2) * C <= z < A + (c' - 2) * C + C -> False.
Proof. intros HC Hne H1 H2. nia. Qed.

Lemma clusters_apart fs c c' z :
  bpb_ok fs -> 2 <= c -> 2 <= c' -> c <> c' ->
  in_cluster fs c z -> in_cluster fs c' z -> False.
Proof.
  intros Hok Hc Hc' Hne H1 H2.
  destruct (bpb_ok_clustersize fs Hok) as [HC HCpos].
  unfold in_cluster, cluster_start in *.
  destruct (Z.leb_spec 2 c); [|lia]. destruct (Z.leb_spec 2 c'); [|lia].
  rewrite HC in *. unfold BLOCK_SIZE in *.
  apply (ranges_apart ((fat_first_data_sector fs + fat_root_sectors fs) * 512)
           (sectors_per_cluster (fs_bpb fs) * 512) c c' z); lia.
Qed.

Lemma writeclusters_spec fs buff b c :
  bpb_ok fs -> cluster_in_partition fs c ->
  0 <= b -> b + fat_clustersize fs <= Z.of_nat (length buff) ->
  exists p',
    fat_writeclusters fs buff b c 1 = Some (set_p fs p') /\
    length p' = length (fs_p fs) /\
    forall z, load8 p' z =
      if (cluster_start fs c * BLOCK_SIZE <=? z)
         && (z <? cluster_start fs c * BLOCK_SIZE + fat_clustersize fs)
      then load8 buff (b + (z - cluster_start fs c * BLOCK_SIZE))
      else load8 (fs_p fs) z.
Proof.
  intros Hok [Hc0 Hc1] Hb Hroom.
  destruct (bpb_ok_clustersize fs Hok) as [HC HCpos].
  unfold fat_writeclusters. change (1 =? 0) with false. cbn iota.
  rewrite Z.mul_1_l, <- HC.
  destruct (load_bytes_spec buff b (fat_clustersize fs) Hb ltac:(lia) Hroom)
    as (bs & E & Hl & Hbs).
  rewrite E, bind_Some. unfold partition_writeblocks.
  destruct (store_bytes_spec (fs_p fs) (cluster_start fs c * BLOCK_SIZE) bs)
    as (p' & E' & Hl' & Hs); [unfold BLOCK_SIZE; lia|unfold BLOCK_SIZE in *; lia|].
  rewrite E'. exists p'. split; [reflexivity|]. split; [exact Hl'|].
  intros z. rewrite Hs, Hl.
  destruct (Z.leb_spec (cluster_start fs c * BLOCK_SIZE) z),
    (Z.ltb_spec z (cluster_start fs c * BLOCK_SIZE + fat_clustersize fs));
    simpl; try reflexivity.
  rewrite Hbs by lia. f_equal. lia.
Qed.

Lemma write_loop_spec cl (B : list Z) :
  Forall (fun c => 2 <= c) cl -> NoDup cl ->
  forall fuel k i b fs,
    bpb_ok fs -> Forall (cluster_in_partition fs) cl ->
    (k <= fuel)%nat -> 0 <= i -> i + Z.of_nat k <= Z.of_nat (length cl) ->
    0 <= b -> b + Z.of_nat k * fat_clustersize fs <= Z.of_nat (length B) ->
    exists p',
      write_loop fs (cl ++ [0]) fuel i (i + Z.of_nat k) b B = Some (set_p fs p') /\
      length p' = length (fs_p fs) /\
      (forall j x c, 0 <= j < Z.of_nat k -> 0 <= x < fat_clustersize fs ->
         cl !! Z.to_nat (i + j) = Some c ->
         load8 p' (cluster_start fs c * BLOCK_SIZE + x)
         = load8 B (b + j * fat_clustersize fs + x)) /\
      (forall z,
         (forall j c, 0 <= j < Z.of_nat k -> cl !! Z.to_nat (i + j) = Some c ->
            ~ in_cluster fs c z) ->
         load8 p' z = load8 (fs_p fs) z).
Proof.
  intros Hge2 Hnd.
  induction fuel as [|fuel IH]; intros k i b fs Hok Hpart Hk Hi Hik Hb Hroom.
  - assert (k = 0%nat) as -> by lia. cbn [write_loop].
    destruct (Z.ltb_spec i (i + Z.of_nat 0)); [lia|].
    exists (fs_p fs). split; [by destruct fs|]. split; [done|].
    split; [intros; lia|done].
  - destruct k as [|k].
    { cbn [write_loop]. destruct (Z.ltb_spec i (i + Z.of_nat 0)); [lia|].
      exists (fs_p fs). split; [by destruct fs|]. split; [done|].
      split; [intros; lia|done]. }
    destruct (bpb_ok_clustersize fs Hok) as [HC HCpos].
    set (C := fat_clustersize fs) in *.
    cbn [write_loop]. destruct (Z.ltb_spec i (i + Z.of_nat (S k))); [|lia].
    destruct (lookup_lt_is_Some_2 cl (Z.to_nat i)) as [c Hc]; [lia|].
    rewrite (lookup_app_l_Some _ _ _ _ Hc), bind_Some.
    pose proof (Forall_lookup_1 _ _ _ _ Hpart Hc) as Hcp.
    pose proof (Forall_lookup_1 _ _ _ _ Hge2 Hc) as Hc2.
    destruct (writeclusters_spec fs B b c Hok Hcp Hb ltac:(fold C; lia))
      as (p1 & E1 & L1 & S1).
    rewrite E1, bind_Some. fold C in S1 |- *.
    set (fs1 := set_p fs p1).
    assert (Hpart1 : Forall (cluster_in_partition fs1) cl).
    { eapply Forall_impl; [exact Hpart|]. intros c' [H0 H1].
      split; [exact H0|]. unfold fs1. simpl. rewrite L1. exact H1. }
    replace (i + Z.of_nat (S k)) with (i + 1 + Z.of_nat k) by lia.
    destruct (IH k (i + 1) (b + C) fs1 Hok Hpart1 ltac:(lia) ltac:(lia) ltac:(lia)
                ltac:(lia) ltac:(change (fat_clustersize fs1) with C; lia))
      as (p' & E' & L' & W' & F').
    change (fat_clustersize fs1) with C in W'.
    exists p'. split; [exact E'|]. split; [rewrite L'; exact L1|].
    assert (Hlater : forall j c', 0 <= j < Z.of_nat k ->
              cl !! Z.to_nat (i + 1 + j) = Some c' -> c' <> c /\ 2 <= c').
    { intros j c' Hj Hc'. split; [|exact (Forall_lookup_1 _ _ _ _ Hge2 Hc')].
      intros ->. pose proof (NoDup_lookup _ _ _ _ Hnd Hc Hc'). lia. }
    split.
    + intros j x c0 Hj Hx Hc0.
      destruct (Z.eq_dec j 0) as [->|Hj0].
      * rewrite Z.add_0_r in Hc0. rewrite Hc in Hc0. injection Hc0 as <-.
        rewrite F'.
        -- change (fs_p fs1) with p1. rewrite S1.
           destruct (Z.leb_spec (cluster_start fs c * BLOCK_SIZE)
                       (cluster_start fs c * BLOCK_SIZE + x)); [|lia].
           destruct (Z.ltb_spec (cluster_start fs c * BLOCK_SIZE + x)
                       (cluster_start fs c * BLOCK_SIZE + C)); [|lia].
           simpl. f_equal. lia.
        -- intros j' c' Hj' Hc' Hin. destruct (Hlater j' c' Hj' Hc') as [Hne Hc'2].
           refine (clusters_apart fs c' c (cluster_start fs c * BLOCK_SIZE + x)
                     Hok Hc'2 Hc2 Hne Hin _).
           unfold in_cluster. fold C. lia.
      * replace (i + j) with (i + 1 + (j - 1)) in Hc0 by lia.
        pose proof (W' (j - 1) x c0 ltac:(lia) Hx Hc0) as Hw.
        change (cluster_start fs1 c0) with (cluster_start fs c0) in Hw.
        rewrite Hw. f_equal. lia.
    + intros z Hout. rewrite F'.
      * change (fs_p fs1) with p1. rewrite S1.
        specialize (Hout 0 c ltac:(lia)). rewrite Z.add_0_r in Hout.
        specialize (Hout Hc). unfold in_cluster in Hout. fold C in Hout.
        destruct (Z.leb_spec (cluster_start fs c * BLOCK_SIZE) z),
          (Z.ltb_spec z (cluster_start fs c * BLOCK_SIZE + C)); simpl;
          try reflexivity; lia.
      * intros j c' Hj Hc' Hin. apply (Hout (j + 1) c' ltac:(lia)); [|exact Hin].
        replace (i + (j + 1)) with (i + 1 + j) by lia. exact Hc'.
Qed.

(** ** Writing and reading back *)

Lemma load8_splice (data buf : list Z) n x :
  (n <= length data)%nat -> (n <= length buf)%nat ->
  load8 (take n data ++ drop n buf) x =
    if (0 <=? x) && (x <? Z.of_nat n) then load8 data x else load8 buf x.
Proof.
  intros Hd Hb. unfold load8.
  destruct (Z.leb_spec 0 x); simpl; [|done].
  destruct (Z.ltb_spec x (Z.of_nat n)).
  - rewrite lookup_app_l by (rewrite length_take; lia).
    apply lookup_take_lt. lia.
  - rewrite lookup_app_r by (rewrite length_take; lia).
    rewrite length_take, lookup_drop. f_equal. lia.
Qed.

Lemma load8_calloc n y : 0 <= y < n -> load8 (calloc n) y = Some 0.
Proof.
  intros H. rewrite load8_lookup by lia. apply lookup_replicate_2. lia.
Qed.

Lemma in_partition_set_p fs p cl :
  length p = length (fs_p fs) ->
  Forall (cluster_in_partition fs) cl -> Forall (cluster_in_partition (set_p fs p)) cl.
Proof.
  intros Hl H. eapply Forall_impl; [exact H|]. intros c [H0 H1].
  split; [exact H0|]. simpl. rewrite Hl. exact H1.
Qed.

Lemma same_tables_set_p fs p : same_tables fs (set_p fs p).
Proof. split; reflexivity. Qed.

Lemma fat_write_spec fs ino inode cl size data len off :
  bpb_ok fs -> ino <> 0 ->
  fat_get_inode fs ino = Some inode ->
  fat_get_clusters fs ino = Some (cl ++ [0]) ->
  file_size fs ino inode = Some size ->
  Forall (cluster_in_partition fs) cl ->
  Forall (fun c => 2 <= c) cl -> NoDup cl ->
  size <= Z.of_nat (length cl) * fat_clustersize fs -> size < 2 ^ 31 ->
  0 <= off -> 0 < len -> off + len <= size ->
  len <= Z.of_nat (length data) ->
  exists p',
    fat_write fs ino data len off = Some (set_p fs p', len) /\
    length p' = length (fs_p fs) /\
    (forall y, 0 <= y < size ->
       file_byte (set_p fs p') cl y =
         if (off <=? y) && (y <? off + len) then load8 data (y - off)
         else file_byte fs cl y) /\
    (forall z, (forall c, c ∈ cl -> ~ in_cluster fs c z) ->
       load8 p' z = load8 (fs_p fs) z).
Proof.
  intros Hok Hino Hget Hcl Hsize Hpart Hge2 Hnd Hfit H31 Hoff Hlen Hend Hdata.
  destruct (bpb_ok_clustersize fs Hok) as [HC HCpos].
  set (C := fat_clustersize fs) in *.
  unfold fat_write.
  destruct (Z.eqb_spec ino 0); [done|].
  rewrite Hget, bind_Some, Hcl, bind_Some, Hsize, bind_Some.
  rewrite clamp_length_inside by lia.
  rewrite Z.min_l by lia. fold C.
  destruct (Z.eqb_spec C 0); [lia|].
  pose proof (Z.div_mod off C ltac:(lia)) as Hd.
  pose proof (Z.mod_pos_bound off C ltac:(lia)) as Hm.
  assert (Hs0 : 0 <= off / C) by (apply Z.div_pos; lia).
  assert (Hs1 : off / C <= off) by (apply div_le_self; lia).
  rewrite (u32_small (off / C)) by lia.
  rewrite (u32_small (off mod C)) by lia.
  destruct (span_clusters_spec fs len off ltac:(fold C; lia) ltac:(lia) ltac:(lia) ltac:(lia))
    as (Hnum0 & Hnum1 & Hnum2 & Hnum4).
  fold C in Hnum0, Hnum1, Hnum2, Hnum4. specialize (Hnum4 Hlen).
  set (num := span_clusters fs len (off mod C)) in *.
  set (start := off / C) in *. set (coff := off mod C) in *.
  assert (Hfits : start + num <= Z.of_nat (length cl)).
  { apply (span_fits C start coff len num _ size); lia. }
  assert (Hnum3 : num <= num * C) by (apply mul_ge_self; lia).
  assert (Hnum5 : 0 < num * C) by lia.
  rewrite (u32_small (num * C)) by lia.
  rewrite (u32_small (start + num)) by lia.
  set (a := off - coff). assert (Ha : a = start * C) by (unfold a; lia).
  rewrite (size_t_small a) by (change (2 ^ 64) with 18446744073709551616; lia).
  (* the clusters are read into the staging buffer *)
  destruct (fat_read_spec fs ino inode cl size (calloc (num * C)) (num * C) a
              Hok Hino Hget Hcl Hsize Hpart Hfit H31 ltac:(lia) Hnum5
              ltac:(change (2 ^ 64) with 18446744073709551616; lia)
              ltac:(rewrite length_calloc; lia))
    as (R & Er & Lr & Sr).
  rewrite Er, bind_Some. cbn [fst]. rewrite length_calloc in Lr.
  set (rl := Z.min (num * C) (size - a)) in *.
  (* the caller's bytes are laid over them *)
  destruct (load_bytes_spec data 0 len ltac:(lia) ltac:(lia) ltac:(lia))
    as (bs & Eb & Lb & Sb).
  rewrite Eb, bind_Some.
  destruct (store_bytes_spec R coff bs ltac:(lia) ltac:(lia)) as (B & EB & LB & SB).
  rewrite EB, bind_Some.
  (* and the clusters are written back *)
  replace (start + num) with (start + Z.of_nat (Z.to_nat num)) by lia.
  destruct (write_loop_spec cl B Hge2 Hnd (Z.to_nat num) (Z.to_nat num) start 0 fs
              Hok Hpart ltac:(lia) Hs0 ltac:(lia) ltac:(lia) ltac:(fold C; lia))
    as (p' & Ew & Lp & W & F).
  rewrite Ew, bind_Some. fold C in W.
  rewrite int32_small by lia.
  exists p'. split; [reflexivity|]. split; [exact Lp|].
  (* a byte of a cluster that was written *)
  assert (Htouched : forall y, a <= y < a + num * C ->
            file_byte (set_p fs p') cl y = load8 B (y - a)).
  { intros y Hy. unfold file_byte.
    change (fat_clustersize (set_p fs p')) with C.
    pose proof (Z.div_mod (y - a) C ltac:(lia)) as Hdy.
    pose proof (Z.mod_pos_bound (y - a) C ltac:(lia)) as Hmy.
    assert (0 <= (y - a) / C) by (apply Z.div_pos; lia).
    assert ((y - a) / C < num) by (apply Z.div_lt_upper_bound; lia).
    assert (Hq : y / C = start + (y - a) / C).
    { replace y with ((y - a) + start * C) at 1 by lia. rewrite Z.div_add by lia. lia. }
    assert (Hr : y mod C = (y - a) mod C).
    { replace y with ((y - a) + start * C) at 1 by lia. by rewrite Z.mod_add by lia. }
    rewrite Hq, Hr.
    destruct (lookup_lt_is_Some_2 cl (Z.to_nat (start + (y - a) / C))) as [c Hc]; [lia|].
    rewrite Hc, bind_Some.
    change (cluster_start (set_p fs p') c) with (cluster_start fs c).
    change (fs_p (set_p fs p')) with p'.
    rewrite (W ((y - a) / C) ((y - a) mod C) c ltac:(lia) Hmy Hc).
    f_equal. lia. }
  split.
  - intros y Hy.
    destruct (Z.le_gt_cases a y) as [Hay|Hay];
      [destruct (Z.lt_ge_cases y (a + num * C)) as [Hyb|Hyb]|].
    + (* inside the clusters written *)
      rewrite (Htouched y ltac:(lia)), SB, Lb.
      destruct (Z.leb_spec coff (y - a)), (Z.ltb_spec (y - a) (coff + len)),
        (Z.leb_spec off y), (Z.ltb_spec y (off + len)); simpl; try lia.
      * rewrite Sb by lia. f_equal. lia.
      * rewrite Sr. destruct (Z.leb_spec 0 (y - a)), (Z.ltb_spec (y - a) rl);
          simpl; try lia. f_equal. lia.
      * rewrite Sr. destruct (Z.leb_spec 0 (y - a)), (Z.ltb_spec (y - a) rl);
          simpl; try lia. f_equal. lia.
    + (* behind them *)
      destruct (Z.leb_spec off y), (Z.ltb_spec y (off + len)); simpl; try lia.
      all: unfold file_byte; change (fat_clustersize (set_p fs p')) with C; fold C;
        destruct (cl !! Z.to_nat (y / C)) as [c|] eqn:Hc; [|reflexivity];
        rewrite !bind_Some;
        change (cluster_start (set_p fs p') c) with (cluster_start fs c);
        change (fs_p (set_p fs p')) with p'; apply F.
      all: intros j c' Hj Hc' Hin.
      all: pose proof (Z.mod_pos_bound y C ltac:(lia)) as Hmy.
      all: assert (Hyc : start + num <= y / C) by (apply Z.div_le_lower_bound; lia).
      all: assert (Hne : c' <> c)
          by (intros ->; pose proof (NoDup_lookup _ _ _ _ Hnd Hc Hc'); lia).
      all: refine (clusters_apart fs c' c _ Hok (Forall_lookup_1 _ _ _ _ Hge2 Hc')
                     (Forall_lookup_1 _ _ _ _ Hge2 Hc) Hne Hin _).
      all: unfold in_cluster; fold C; lia.
    + (* before them *)
      destruct (Z.leb_spec off y), (Z.ltb_spec y (off + len)); simpl; try lia.
      unfold file_byte. change (fat_clustersize (set_p fs p')) with C. fold C.
      destruct (cl !! Z.to_nat (y / C)) as [c|] eqn:Hc; [|reflexivity].
      rewrite !bind_Some.
      change (cluster_start (set_p fs p') c) with (cluster_start fs c).
      change (fs_p (set_p fs p')) with p'. apply F.
      intros j c' Hj Hc' Hin.
      pose proof (Z.mod_pos_bound y C ltac:(lia)) as Hmy.
      assert (Hyc : y / C < start) by (apply Z.div_lt_upper_bound; lia).
      assert (0 <= y / C) by (apply Z.div_pos; lia).
      assert (Hne : c' <> c)
        by (intros ->; pose proof (NoDup_lookup _ _ _ _ Hnd Hc Hc'); lia).
      refine (clusters_apart fs c' c _ Hok (Forall_lookup_1 _ _ _ _ Hge2 Hc')
                (Forall_lookup_1 _ _ _ _ Hge2 Hc) Hne Hin _).
      unfold in_cluster. fold C. lia.
  - intros z Hout. apply F. intros j c Hj Hc. apply Hout.
    by eapply list_elem_of_lookup_2.
Qed.

Lemma file_fs_clusters : Forall (cluster_in_partition file_fs) [3; 4].
Proof. repeat constructor; vm_compute; discriminate. Qed.

(** ** Properties of reading and writing *)

(** X21: For a file whose clusters lie inside the partition and cover its
    size, fat_read with 0 <= offset <= size and length > 0 returns
    min(length, size - offset) and puts exactly that many bytes at the start
    of the buffer: byte x is the byte at position (offset + x) mod
    clustersize of the cluster at place (offset + x) / clustersize of the
    chain; the rest of the buffer is unchanged. *)
Theorem fat_read_bytes fs ino inode cl size buffer len off :
  bpb_ok fs -> ino <> 0 ->
  fat_get_inode fs ino = Some inode ->
  fat_get_clusters fs ino = Some (cl ++ [0]) ->
  file_size fs ino inode = Some size ->
  Forall (cluster_in_partition fs) cl ->
  size <= Z.of_nat (length cl) * fat_clustersize fs -> size < 2 ^ 31 ->
  0 <= off <= size -> 0 < len -> off + len < 2 ^ 64 ->
  Z.min len (size - off) <= Z.of_nat (length buffer) ->
  exists buffer',
    fat_read fs ino buffer len off = Some (buffer', Z.min len (size - off)) /\
    length buffer' = length buffer /\
    forall x, load8 buffer' x =
      if (0 <=? x) && (x <? Z.min len (size - off))
      then file_byte fs cl (off + x) else load8 buffer x.
Proof. apply fat_read_spec. Qed.

Lemma fat_read_bytes_witness :
  exists buffer',
    fat_read file_fs 2 (replicate 10 7) 10 595 = Some (buffer', 5) /\
    length buffer' = 10%nat /\
    forall x, load8 buffer' x =
      if (0 <=? x) && (x <? 5)
      then file_byte file_fs [3; 4] (595 + x) else load8 (replicate 10 7) x.
Proof.
  apply (fat_read_bytes file_fs 2 (mk_inode 1 0 3 600 0 0 0) [3; 4] 600
           (replicate 10 7) 10 595).
  - split; [reflexivity|simpl; lia].
  - lia.
  - reflexivity.
  - vm_compute. reflexivity.
  - reflexivity.
  - exact file_fs_clusters.
  - vm_compute. discriminate.
  - lia.
  - lia.
  - lia.
  - lia.
  - vm_compute. discriminate.
Defined.

(** X22: For a file whose clusters are distinct data clusters inside the
    partition and cover its size, fat_write of len bytes inside the file
    returns len, and a fat_read of the same range afterwards returns len and
    the bytes written, followed by what the read buffer held behind them. *)
Theorem fat_write_then_read fs ino inode cl size data len off buf :
  bpb_ok fs -> ino <> 0 ->
  fat_get_inode fs ino = Some inode ->
  fat_get_clusters fs ino = Some (cl ++ [0]) ->
  file_size fs ino inode = Some size ->
  Forall (cluster_in_partition fs) cl ->
  Forall (fun c => 2 <= c) cl -> NoDup cl ->
  size <= Z.of_nat (length cl) * fat_clustersize fs -> size < 2 ^ 31 ->
  0 <= off -> 0 < len -> off + len <= size ->
  len <= Z.of_nat (length data) -> len <= Z.of_nat (length buf) ->
  exists fs',
    fat_write fs ino data len off = Some (fs', len) /\
    fat_read fs' ino buf len off
    = Some (take (Z.to_nat len) data ++ drop (Z.to_nat len) buf, len).
Proof.
  intros Hok Hino Hget Hcl Hsize Hpart Hge2 Hnd Hfit H31 Hoff Hlen Hend Hdata Hbuf.
  destruct (fat_write_spec fs ino inode cl size data len off Hok Hino Hget Hcl Hsize
              Hpart Hge2 Hnd Hfit H31 Hoff Hlen Hend Hdata)
    as (p' & Ew & Lp & Hbytes & _).
  exists (set_p fs p'). split; [exact Ew|].
  set (fs' := set_p fs p').
  pose proof (same_tables_set_p fs p') as Htab.
  assert (Hget' : fat_get_inode fs' ino = Some inode) by exact Hget.
  assert (Hgi : fat_get_inode fs' ino = fat_get_inode fs ino) by (rewrite Hget; exact Hget).
  assert (Hcl' : fat_get_clusters fs' ino = Some (cl ++ [0]))
    by (rewrite (fat_get_clusters_ext fs fs' Htab ino Hgi); exact Hcl).
  assert (Hsize' : file_size fs' ino inode = Some size)
    by (rewrite (file_size_ext fs fs' Htab ino inode Hgi); exact Hsize).
  destruct (fat_read_spec fs' ino inode cl size buf len off Hok Hino Hget' Hcl' Hsize'
              (in_partition_set_p fs p' cl Lp Hpart) Hfit H31 ltac:(lia) Hlen
              ltac:(change (2 ^ 64) with 18446744073709551616; lia) ltac:(lia))
    as (buf' & Er & Lb & Sb).
  rewrite Er. f_equal. f_equal; [|lia].
    apply load8_ext.
    + rewrite Lb, length_app, length_take, length_drop. lia.
    + intros x Hx. rewrite Sb, load8_splice by lia.
      rewrite Z.min_l by lia. rewrite Z2Nat.id by lia.
      destruct (Z.leb_spec 0 x), (Z.ltb_spec x len); simpl; try reflexivity.
      fold fs' in Hbytes. rewrite Hbytes by lia.
      destruct (Z.leb_spec off (off + x)), (Z.ltb_spec (off + x) (off + len));
        simpl; try lia.
      f_equal. lia.
Qed.

Lemma fat_write_then_read_witness :
  exists fs',
    fat_write file_fs 2 [1; 2; 3; 4] 3 510 = Some (fs', 3) /\
    fat_read fs' 2 (replicate 5 7) 3 510 = Some ([1; 2; 3; 7; 7], 3).
Proof.
  apply (fat_write_then_read file_fs 2 (mk_inode 1 0 3 600 0 0 0) [3; 4] 600
           [1; 2; 3; 4] 3 510 (replicate 5 7)).
  - split; [reflexivity|simpl; lia].
  - lia.
  - reflexivity.
  - vm_compute. reflexivity.
  - reflexivity.
  - exact file_fs_clusters.
  - repeat constructor; lia.
  - apply (bool_decide_unpack _). reflexivity.
  - vm_compute. discriminate.
  - lia.
  - lia.
  - lia.
  - lia.
  - simpl. lia.
  - simpl. lia.
Defined.

(** X23: Under the same conditions fat_write changes neither BPB, FAT, inode
    list nor handle counter, keeps the partition's length, leaves every byte
    of the file outside the written range as it was, and changes no byte of
    the partition outside the file's own clusters. *)
Theorem fat_write_stays_inside fs ino inode cl size data len off :
  bpb_ok fs -> ino <> 0 ->
  fat_get_inode fs ino = Some inode ->
  fat_get_clusters fs ino = Some (cl ++ [0]) ->
  file_size fs ino inode = Some size ->
  Forall (cluster_in_partition fs) cl ->
  Forall (fun c => 2 <= c) cl -> NoDup cl ->
  size <= Z.of_nat (length cl) * fat_clustersize fs -> size < 2 ^ 31 ->
  0 <= off -> 0 < len -> off + len <= size ->
  len <= Z.of_nat (length data) ->
  exists fs',
    fat_write fs ino data len off = Some (fs', len) /\
    fs_bpb fs' = fs_bpb fs /\ fs_fat fs' = fs_fat fs /\
    fs_inodes fs' = fs_inodes fs /\ fs_next fs' = fs_next fs /\
    length (fs_p fs') = length (fs_p fs) /\
    (forall y, 0 <= y < size -> y < off \/ off + len <= y ->
       file_byte fs' cl y = file_byte fs cl y) /\
    (forall z, (forall c, c ∈ cl -> ~ in_cluster fs c z) ->
       load8 (fs_p fs') z = load8 (fs_p fs) z).
Proof.
  intros Hok Hino Hget Hcl Hsize Hpart Hge2 Hnd Hfit H31 Hoff Hlen Hend Hdata.
  destruct (fat_write_spec fs ino inode cl size data len off Hok Hino Hget Hcl Hsize
              Hpart Hge2 Hnd Hfit H31 Hoff Hlen Hend Hdata)
    as (p' & Ew & Lp & Hbytes & Hout).
  exists (set_p fs p'). split; [exact Ew|]. repeat (split; [reflexivity|]).
  split; [exact Lp|]. split; [|exact Hout].
  intros y Hy Hside. rewrite Hbytes by lia.
  destruct (Z.leb_spec off y), (Z.ltb_spec y (off + len)); simpl; try reflexivity; lia.
Qed.

Lemma fat_write_stays_inside_witness :
  exists fs',
    fat_write file_fs 2 [1; 2; 3; 4] 3 510 = Some (fs', 3) /\
    fs_bpb fs' = fs_bpb file_fs /\ fs_fat fs' = fs_fat file_fs /\
    fs_inodes fs' = fs_inodes file_fs /\ fs_next fs' = fs_next file_fs /\
    length (fs_p fs') = length (fs_p file_fs) /\
    (forall y, 0 <= y < 600 -> y < 510 \/ 510 + 3 <= y ->
       file_byte fs' [3; 4] y = file_byte file_fs [3; 4] y) /\
    (forall z, (forall c, c ∈ [3; 4] -> ~ in_cluster file_fs c z) ->
       load8 (fs_p fs') z = load8 (fs_p file_fs) z).
Proof.
  apply (fat_write_stays_inside file_fs 2 (mk_inode 1 0 3 600 0 0 0) [3; 4] 600
           [1; 2; 3; 4] 3 510).
  - split; [reflexivity|simpl; lia].
  - lia.
  - reflexivity.
  - vm_compute. reflexivity.
  - reflexivity.
  - exact file_fs_clusters.
  - repeat constructor; lia.
  - apply (bool_decide_unpack _). reflexivity.
  - vm_compute. discriminate.
  - lia.
  - lia.
  - lia.
  - lia.
  - simpl. lia.
Defined.

(** ** What fat_readdir does to the state *)

(** Every step of a run of monadic code in [H] that can be taken. *)
Ltac run_all H :=
  cbv zeta in H;
  repeat (first [discriminate H | run_step H]; cbv zeta in H; try discriminate H).

Section Readdir.

Variable mktime : tm -> Z.

Lemma fat_readdir_inv fs dir num fs' r :
  fat_readdir mktime fs dir num = Some (fs', r) ->
  (fs' = fs /\ (r = None \/ num = 0 \/ num = 1)) \/
  (num <> 0 /\ num <> 1 /\
   exists inode name,
     r = Some (mk_dirent name (fs_next fs)) /\
     ino_parent inode = dir /\
     fs' = mk_fs (fs_p fs) (fs_bpb fs) (fs_fat fs) (fs_inodes fs ++ [inode])
             (fs_next fs + 1)).
Proof.
  intros H. unfold fat_readdir in H. run_all H.
  all: injection H as <- <-.
  all: repeat match goal with
       | E : (_ =? _) = false |- _ => apply Z.eqb_neq in E
       | E : (_ =? _) = true |- _ => apply Z.eqb_eq in E
       end.
  all: first
    [ left; split; [reflexivity|];
      first [left; reflexivity | right; left; assumption | right; right; assumption]
    | right; split; [assumption|]; split; [assumption|];
      eexists; eexists; split; [reflexivity|]; split; [|reflexivity]; reflexivity ].
Qed.

End Readdir.

Section ReaddirAgain.

Variable mktime : tm -> Z.

(** Steps of a run in [H] that the goal runs through as well. *)
Ltac run_both H :=
  cbv zeta in H |- *;
  repeat (first [discriminate H | run_step H];
          cbn [mbind option_bind] in H |- *; cbv zeta in H |- *;
          try discriminate H).

Lemma fat_readdir_again fs dir num inode name :
  num <> 0 -> num <> 1 ->
  fat_readdir mktime fs dir num
  = Some (mk_fs (fs_p fs) (fs_bpb fs) (fs_fat fs) (fs_inodes fs ++ [inode])
            (fs_next fs + 1),
          Some (mk_dirent name (fs_next fs))) ->
  fat_readdir mktime
    (mk_fs (fs_p fs) (fs_bpb fs) (fs_fat fs) (fs_inodes fs ++ [inode]) (fs_next fs + 1))
    dir num
  = Some (mk_fs (fs_p fs) (fs_bpb fs) (fs_fat fs) (fs_inodes fs ++ [inode; inode])
            (fs_next fs + 2),
          Some (mk_dirent name (fs_next fs + 1))).
Proof.
  intros H0 H1 H.
  set (fs1 := mk_fs (fs_p fs) (fs_bpb fs) (fs_fat fs) (fs_inodes fs ++ [inode])
                (fs_next fs + 1)) in *.
  assert (Htab : same_tables fs fs1) by (split; reflexivity).
  assert (Hp : fs_p fs1 = fs_p fs) by reflexivity.
  assert (Hdir : exists dino, fat_get_inode fs dir = Some dino).
  { unfold fat_readdir in H. destruct (dir =? 0); [discriminate H|].
    destruct (fat_get_inode fs dir); [eauto|discriminate H]. }
  destruct Hdir as (dino & Hdino).
  assert (Hgi : fat_get_inode fs1 dir = fat_get_inode fs dir).
  { rewrite Hdino. unfold fat_get_inode in *. destruct (dir <=? 0); [done|].
    by apply lookup_app_l_Some. }
  unfold fat_readdir in H |- *.
  rewrite Hgi, (fat_clustercount_ext fs fs1 Htab dir Hgi), (clustersize_ext fs fs1 Htab).
  destruct (dir =? 0); [discriminate H|].
  rewrite Hdino in H |- *.
  destruct (negb (ino_type dino =? FAT_DIR_DIRECTORY)); [discriminate H|].
  destruct (Z.eqb_spec num 0); [done|]. destruct (Z.eqb_spec num 1); [done|].
  cbv zeta in H |- *.
  destruct (fat_clustercount fs dir) as [c|]; [|discriminate H].
  cbn [mbind option_bind] in H |- *.
  rewrite (fat_read_ext fs fs1 Htab Hp dir _ _ _ Hgi).
  run_both H.
  injection H as Hi Hn. subst name.
  apply app_inv_head in Hi. injection Hi as <-.
  unfold set_next, set_inodes, fs1. cbn [fs_p fs_bpb fs_fat fs_inodes fs_next].
  rewrite <- app_assoc. cbn [app].
  replace (fs_next fs + 1 + 1) with (fs_next fs + 2) by lia. reflexivity.
Qed.

End ReaddirAgain.

(** ** Properties of directory listings *)

(** X24: Whenever fat_readdir returns, partition, BPB and FAT are unchanged;
    the state is unchanged altogether when it returns null or num is 0 or 1;
    otherwise the entry returned carries the old handle counter as its
    handle, the counter has advanced by one and one inode, with the
    directory as parent, has been added to the list. *)
Theorem fat_readdir_frame (mktime : tm -> Z) fs dir num fs' r :
  fat_readdir mktime fs dir num = Some (fs', r) ->
  fs_p fs' = fs_p fs /\ fs_bpb fs' = fs_bpb fs /\ fs_fat fs' = fs_fat fs /\
  (r = None \/ num = 0 \/ num = 1 -> fs' = fs) /\
  (num <> 0 -> num <> 1 -> forall de, r = Some de ->
     d_ino de = fs_next fs /\ fs_next fs' = fs_next fs + 1 /\
     exists inode, fs_inodes fs' = fs_inodes fs ++ [inode] /\ ino_parent inode = dir).
Proof.
  intros H.
  destruct (fat_readdir_inv mktime fs dir num fs' r H)
    as [[-> Hr]|(H0 & H1 & inode & name & -> & Hpar & ->)].
  - do 3 (split; [reflexivity|]). split; [intros _; reflexivity|].
    intros H0 H1 de ->. destruct Hr as [Hr|[Hr|Hr]]; [discriminate Hr|done|done].
  - do 3 (split; [reflexivity|]). split.
    + intros [Hr|[Hr|Hr]]; [discriminate Hr|done|done].
    + intros _ _ de Hde. injection Hde as <-. simpl.
      split; [reflexivity|]. split; [reflexivity|]. by exists inode.
Qed.

Lemma fat_readdir_frame_witness :
  match fat_readdir no_time listed_fs 1 2 with
  | Some (fs', r) =>
      fs_p fs' = fs_p listed_fs /\ fs_bpb fs' = fs_bpb listed_fs /\
      fs_fat fs' = fs_fat listed_fs /\
      (r = None \/ 2 = 0 \/ 2 = 1 -> fs' = listed_fs) /\
      (2 <> 0 -> 2 <> 1 -> forall de, r = Some de ->
         d_ino de = 2 /\ fs_next fs' = 2 + 1 /\
         exists inode, fs_inodes fs' = [root_inode] ++ [inode] /\ ino_parent inode = 1)
  | None => False
  end.
Proof.
  destruct (fat_readdir no_time listed_fs 1 2) as [[fs' r]|] eqn:E;
    [|vm_compute in E; discriminate E].
  exact (fat_readdir_frame no_time listed_fs 1 2 fs' r E).
Defined.

(** X25: Listing the same directory entry (num other than 0 and 1) a second
    time returns the same name under a new handle, one above the first, and
    registers a second copy of the same inode: handles for an entry are
    never reused. *)
Theorem fat_readdir_twice (mktime : tm -> Z) fs dir num fs1 de :
  num <> 0 -> num <> 1 ->
  fat_readdir mktime fs dir num = Some (fs1, Some de) ->
  exists fs2 inode,
    fat_readdir mktime fs1 dir num
    = Some (fs2, Some (mk_dirent (d_name de) (d_ino de + 1))) /\
    d_ino de = fs_next fs /\
    fs_inodes fs2 = fs_inodes fs ++ [inode; inode] /\
    fs_next fs2 = fs_next fs + 2.
Proof.
  intros H0 H1 H.
  destruct (fat_readdir_inv mktime fs dir num fs1 (Some de) H)
    as [[-> Hr]|(_ & _ & inode & name & Hde & Hpar & ->)].
  - destruct Hr as [Hr|[Hr|Hr]]; [discriminate Hr|done|done].
  - injection Hde as ->.
    pose proof (fat_readdir_again mktime fs dir num inode name H0 H1 H) as H2.
    eexists. exists inode. split; [exact H2|]. simpl. done.
Qed.

Lemma fat_readdir_twice_witness :
  match fat_readdir no_time listed_fs 1 2 with
  | Some (fs1, Some de) =>
      exists fs2 inode,
        fat_readdir no_time fs1 1 2
        = Some (fs2, Some (mk_dirent (d_name de) (d_ino de + 1))) /\
        d_ino de = 2 /\
        fs_inodes fs2 = [root_inode] ++ [inode; inode] /\
        fs_next fs2 = 2 + 2
  | _ => False
  end.
Proof.
  destruct (fat_readdir no_time listed_fs 1 2) as [[fs1 [de|]]|] eqn:E;
    [|vm_compute in E; discriminate E|vm_compute in E; discriminate E].
  apply (fat_readdir_twice no_time listed_fs 1 2 fs1 de); [lia|lia|exact E].
Defined.

(** X26: When entry num of dir (dir not 0) is listed by fat_readdir and
    listing entry 2 of that entry's handle gives an entry, fat_rmdir returns
    1 and leaves partition, BPB and FAT unchanged; the second listing has
    still advanced the handle counter. *)
Theorem fat_rmdir_not_empty (mktime : tm -> Z) fs dir num fs1 de fs2 de2 :
  dir <> 0 ->
  fat_readdir mktime fs dir num = Some (fs1, Some de) ->
  fat_readdir mktime fs1 (d_ino de) 2 = Some (fs2, Some de2) ->
  fat_rmdir mktime fs dir num = Some (fs2, 1) /\
  fs_p fs2 = fs_p fs /\ fs_bpb fs2 = fs_bpb fs /\ fs_fat fs2 = fs_fat fs /\
  fs_next fs1 + 1 = fs_next fs2.
Proof.
  intros Hdir H1 H2. split.
  - unfold fat_rmdir. destruct (Z.eqb_spec dir 0); [done|].
    rewrite H1, bind_Some. cbn [snd fst mbind option_bind]. rewrite H2. reflexivity.
  - destruct (fat_readdir_inv mktime fs1 (d_ino de) 2 fs2 _ H2)
      as [[-> Hr]|(_ & _ & inode & name & _ & _ & ->)].
    + destruct Hr as [Hr|[Hr|Hr]]; [discriminate Hr|lia|lia].
    + simpl.
      destruct (fat_readdir_inv mktime fs dir num fs1 _ H1)
        as [[-> _]|(_ & _ & inode1 & name1 & _ & _ & ->)]; simpl; done.
Qed.

Lemma fat_rmdir_not_empty_witness :
  match fat_readdir no_time listed_fs 1 2 with
  | Some (fs2, Some de2) =>
      fat_rmdir no_time listed_fs 1 0 = Some (fs2, 1) /\
      fs_p fs2 = fs_p listed_fs /\ fs_bpb fs2 = fs_bpb listed_fs /\
      fs_fat fs2 = fs_fat listed_fs /\ fs_next listed_fs + 1 = fs_next fs2
  | _ => False
  end.
Proof.
  destruct (fat_readdir no_time listed_fs 1 2) as [[fs2 [de2|]]|] eqn:E;
    [|vm_compute in E; discriminate E|vm_compute in E; discriminate E].
  apply (fat_rmdir_not_empty no_time listed_fs 1 0 listed_fs (mk_dirent (cstr ".") 1)
           fs2 de2); [lia|reflexivity|exact E].
Defined.

Lemma free_clusters_spec l : forall fs rest,
  fat_bits fs = 12 -> wf_fat fs ->
  Forall (fun c => in_fat fs c /\ c <> 0) l ->
  exists f,
    free_clusters fs (l ++ 0 :: rest) = Some (set_fat fs f) /\
    length f = length (fs_fat fs) /\ bytes_ok f /\
    (forall c, c ∈ l -> fat_read_fat (set_fat fs f) c = Some 0) /\
    (forall m, in_fat fs m -> m ∉ l ->
       fat_read_fat (set_fat fs f) m = fat_read_fat fs m).
Proof.
  induction l as [|c l IH]; intros fs rest Hb Hwf Hl.
  - exists (fs_fat fs). simpl. destruct fs; simpl.
    split; [reflexivity|]. split; [reflexivity|]. split; [apply Hwf|].
    split; [intros c Hc; by apply elem_of_nil in Hc|]. reflexivity.
  - apply Forall_cons in Hl as [[Hc Hc0] Hl].
    destruct (fat12_write_spec fs c 0 Hb Hwf Hc ltac:(lia))
      as (f1 & Ew & L1 & B1 & R1 & F1).
    set (fs1 := set_fat fs f1) in *.
    assert (Hb1 : fat_bits fs1 = 12) by exact Hb.
    assert (Hwf1 : wf_fat fs1).
    { split; [exact B1|]. unfold fs1; simpl. rewrite L1. apply Hwf. }
    assert (Hl1 : Forall (fun c => in_fat fs1 c /\ c <> 0) l).
    { eapply Forall_impl; [exact Hl|]. intros x [Hx Hx0]. split; [|exact Hx0].
      unfold in_fat, fs1 in *; simpl. rewrite L1. exact Hx. }
    destruct (IH fs1 rest Hb1 Hwf1 Hl1) as (f & Ef & L & B & R & F).
    exists f. cbn [app free_clusters].
    destruct (Z.eqb_spec c 0) as [|_]; [done|].
    rewrite Ew. cbn [mbind option_bind].
    replace (set_fat fs f) with (set_fat fs1 f) by (destruct fs; reflexivity).
    split; [exact Ef|]. split; [rewrite L; exact L1|]. split; [exact B|]. split.
    + intros x Hx. destruct (decide (x ∈ l)) as [Hin|Hout]; [by apply R|].
      apply elem_of_cons in Hx as [->|Hx]; [|done].
      rewrite F; [exact R1| |exact Hout].
      unfold in_fat, fs1 in *; simpl. rewrite L1. exact Hc.
    + intros m Hm Hout. apply not_elem_of_cons in Hout as [Hne Hout].
      rewrite F; [by apply F1| |exact Hout].
      unfold in_fat, fs1 in *; simpl. rewrite L1. exact Hm.
Qed.

(** ** Properties of freeing clusters *)

(** X27: On a FAT12 volume the last loop of fat_unlink, run on an array of
    non-zero clusters inside the table followed by 0, returns with each of
    these entries reading 0 (free), every other entry of the table reading
    as before, and partition, BPB, inode list and handle counter unchanged;
    it does not look behind the first 0. *)
Theorem free_clusters_frees fs l rest :
  fat_bits fs = 12 -> wf_fat fs ->
  Forall (fun c => in_fat fs c /\ c <> 0) l ->
  exists fs',
    free_clusters fs (l ++ 0 :: rest) = Some fs' /\
    fs_p fs' = fs_p fs /\ fs_bpb fs' = fs_bpb fs /\
    fs_inodes fs' = fs_inodes fs /\ fs_next fs' = fs_next fs /\
    (forall c, c ∈ l -> fat_read_fat fs' c = Some 0) /\
    (forall m, in_fat fs m -> m ∉ l -> fat_read_fat fs' m = fat_read_fat fs m).
Proof.
  intros Hb Hwf Hl.
  destruct (free_clusters_spec l fs rest Hb Hwf Hl) as (f & E & _ & _ & R & F).
  exists (set_fat fs f). split; [exact E|]. do 4 (split; [reflexivity|]).
  split; [exact R|exact F].
Qed.

Lemma free_clusters_frees_witness :
  fat_get_clusters file_fs 2 = Some ([3; 4] ++ [0]) /\
  exists fs',
    free_clusters file_fs ([3; 4] ++ 0 :: []) = Some fs' /\
    fs_p fs' = fs_p file_fs /\ fs_bpb fs' = fs_bpb file_fs /\
    fs_inodes fs' = fs_inodes file_fs /\ fs_next fs' = fs_next file_fs /\
    (forall c, c ∈ [3; 4] -> fat_read_fat fs' c = Some 0) /\
    (forall m, in_fat file_fs m -> m ∉ [3; 4] ->
       fat_read_fat fs' m = fat_read_fat file_fs m).
Proof.
  split; [vm_compute; reflexivity|].
  apply (free_clusters_frees file_fs [3; 4] []).
  - reflexivity.
  - split; [apply (bool_decide_unpack _); vm_compute; reflexivity|vm_compute; discriminate].
  - repeat constructor; vm_compute; congruence.
Defined.

Section Link.

Variable gmtime : Z -> tm.

(** What a [fat_link] that returns does to the handles: status 0, and
    the inode of [ino] gets [dir] as its parent. *)
Lemma fat_link_inv fs ino dir name fs' r :
  fat_link gmtime fs ino dir name = Some (fs', r) ->
  ino <> 0 -> dir <> 0 ->
  r = 0 /\ fs_next fs' = fs_next fs /\
  exists iino,
    fat_get_inode fs ino = Some iino /\
    fs_inodes fs' = <[Z.to_nat (ino - 1) := with_parent iino dir]> (fs_inodes fs).
Proof.
  intros H Hi Hd. unfold fat_link in H.
  destruct (Z.eqb_spec ino 0); [done|]. destruct (Z.eqb_spec dir 0); [done|].
  destruct (fat_get_inode fs ino) as [iino|] eqn:Ei; [|discriminate H].
  cbn [mbind option_bind] in H. cbv zeta in H.
  fold (with_parent iino dir) in H.
  set (fs0 := set_inodes fs _) in H.
  do 5 (run_step H; cbv zeta in H).
  destruct (if _ >? _ then _ else _) as [grown|] eqn:Eg in H; [|discriminate H].
  cbn [mbind option_bind] in H.
  run_step H. injection H as <- <-. split; [reflexivity|].
  match goal with
  | E : fat_write _ _ _ _ _ = Some ?q |- _ =>
      destruct q as [fsw ret]; apply fat_write_frame in E as (_ & _ & Hwi & Hwn)
  end.
  cbn [fst]. rewrite Hwi, Hwn.
  assert (Hg : fs_inodes grown.1 = fs_inodes fs0 /\ fs_next grown.1 = fs_next fs0).
  { destruct (_ >? _) in Eg.
    - run_all Eg. injection Eg as <-. cbn [fst].
      repeat match goal with
      | E : fat_write_fat _ _ _ = Some _ |- _ =>
          apply fat_write_fat_frame in E as (_ & _ & ? & ?)
      end.
      split; congruence.
    - injection Eg as <-. done. }
  destruct Hg as [-> ->]. split; [reflexivity|]. by exists iino.
Qed.

End Link.

Lemma get_inode_lookup fs i :
  1 <= i -> fat_get_inode fs i = fs_inodes fs !! Z.to_nat (i - 1).
Proof. intros Hi. unfold fat_get_inode. destruct (Z.leb_spec i 0); [lia|reflexivity]. Qed.

(** ** Properties of fat_mkdir *)

(** X28: Whenever fat_mkdir returns for an existing parent handle, it
    returns 0 and the new directory has the old handle counter as its
    handle; the last two fat_link calls leave the new directory as the
    recorded parent of itself and of its parent: fat_readdir of entry 1 (..)
    in the new directory returns the new directory, and the parent's inode
    now has the new directory as its parent. *)
Theorem fat_mkdir_parents (gmtime : Z -> tm) (mktime : tm -> Z) ta tc tm'
    fs parent name fs' r :
  handles_ok fs -> 1 <= parent < fs_next fs ->
  fat_mkdir gmtime ta tc tm' fs parent name = Some (fs', r) ->
  r = 0 /\ fs_next fs' = fs_next fs + 1 /\
  fat_readdir mktime fs' (fs_next fs) 1
  = Some (fs', Some (mk_dirent (cstr "..") (fs_next fs))) /\
  exists pino,
    fat_get_inode fs parent = Some pino /\
    fat_get_inode fs' parent = Some (with_parent pino (fs_next fs)).
Proof.
  intros [Hn Hn2] Hp H. unfold fat_mkdir in H.
  destruct (Z.eqb_spec parent 0); [lia|]. cbv zeta in H.
  destruct (fat_touch fs _) as [[fs1 child]|] eqn:E1; [|discriminate H].
  cbn [mbind option_bind fst snd] in H.
  apply fat_touch_inv in E1 as (-> & Hn1 & _ & _ & c & Hi1).
  cbn [st_mode st_size st_atime st_ctime st_mtime] in Hi1.
  change (if Z.land (Z.lor S_DIR 493) S_DIR =? S_DIR then FAT_DIR_DIRECTORY else 0)
    with FAT_DIR_DIRECTORY in Hi1.
  change (u32 0) with 0 in Hi1.
  set (new := mk_inode (-1) FAT_DIR_DIRECTORY c 0 ta tc tm') in Hi1.
  set (k := length (fs_inodes fs)) in *.
  assert (Hk : Z.to_nat (fs_next fs - 1) = k) by lia.
  assert (Hpk : (Z.to_nat (parent - 1) < k)%nat) by lia.
  destruct (fat_link gmtime fs1 _ parent name) as [[fs2 r2]|] eqn:E2; [|discriminate H].
  cbn [mbind option_bind fst snd] in H.
  apply fat_link_inv in E2 as (-> & Hn2' & i2 & Hg2 & Hi2); [|lia|lia].
  change (negb (0 =? 0)) with false in H. cbv iota zeta in H.
  destruct (fat_write fs2 _ _ _ 0) as [[fs3 r3]|] eqn:E3; [|discriminate H].
  cbn [mbind option_bind fst snd] in H.
  apply fat_write_frame in E3 as (_ & _ & Hi3 & Hn3).
  destruct (fat_link gmtime fs3 _ _ _) as [[fs4 r4]|] eqn:E4; [|discriminate H].
  cbn [mbind option_bind fst snd] in H.
  apply fat_link_inv in E4 as (_ & Hn4 & i4 & Hg4 & Hi4); [|lia|lia].
  destruct (fat_link gmtime fs4 _ _ _) as [[fs5 r5]|] eqn:E5; [|discriminate H].
  cbn [mbind option_bind fst snd] in H.
  apply fat_link_inv in E5 as (_ & Hn5 & i5 & Hg5 & Hi5); [|lia|lia].
  injection H as <- <-.
  rewrite get_inode_lookup in Hg2, Hg4, Hg5 by lia.
  rewrite Hk in Hi2, Hi4, Hg2, Hg4.
  (* the lists of inodes, step by step *)
  assert (L1 : length (fs_inodes fs1) = S k) by (rewrite Hi1, length_app; simpl; lia).
  assert (L2 : length (fs_inodes fs2) = S k) by (rewrite Hi2, length_insert; exact L1).
  assert (L4 : length (fs_inodes fs4) = S k).
  { rewrite Hi4, length_insert, Hi3. exact L2. }
  assert (T4 : ino_type i4 = FAT_DIR_DIRECTORY).
  { rewrite Hi3, Hi2, list_lookup_insert_eq in Hg4 by lia.
    injection Hg4 as <-. simpl.
    rewrite Hi1, list_lookup_middle in Hg2 by reflexivity. by injection Hg2 as <-. }
  assert (P5 : fs_inodes fs !! Z.to_nat (parent - 1) = Some i5).
  { rewrite Hi4, list_lookup_insert_ne, Hi3, Hi2, list_lookup_insert_ne, Hi1 in Hg5 by lia.
    rewrite lookup_app_l in Hg5 by exact Hpk. exact Hg5. }
  assert (C5 : fs_inodes fs5 !! k = Some (with_parent i4 (fs_next fs))).
  { rewrite Hi5, list_lookup_insert_ne, Hi4 by lia. apply list_lookup_insert_eq.
    rewrite Hi3. lia. }
  split; [reflexivity|]. split; [lia|]. split.
  - unfold fat_readdir. destruct (Z.eqb_spec (fs_next fs) 0); [lia|].
    rewrite get_inode_lookup, Hk, C5 by lia. simpl. rewrite T4. reflexivity.
  - exists i5. rewrite !get_inode_lookup by lia. split; [exact P5|].
    rewrite Hi5. apply list_lookup_insert_eq. rewrite L4. lia.
Qed.

Lemma fat_mkdir_parents_witness :
  match fat_mkdir epoch 0 0 0 (example_fs 1 5) 1 (cstr "d") with
  | Some (fs', r) =>
      r = 0 /\ fs_next fs' = fs_next (example_fs 1 5) + 1 /\
      fat_readdir no_time fs' (fs_next (example_fs 1 5)) 1
      = Some (fs', Some (mk_dirent (cstr "..") (fs_next (example_fs 1 5)))) /\
      exists pino,
        fat_get_inode (example_fs 1 5) 1 = Some pino /\
        fat_get_inode fs' 1 = Some (with_parent pino (fs_next (example_fs 1 5)))
  | None => False
  end.
Proof.
  destruct (fat_mkdir epoch 0 0 0 (example_fs 1 5) 1 (cstr "d")) as [[fs' r]|] eqn:E;
    [|vm_compute in E; discriminate E].
  apply (fat_mkdir_parents epoch no_time 0 0 0 (example_fs 1 5) 1 (cstr "d") fs' r);
    [split; vm_compute; [reflexivity|discriminate]|vm_compute; split; [discriminate|reflexivity]|exact E].
Defined.
